(** * python-logkeeper: issue registry, logging adapter and logging factory

    A shallow embedding of

    - [logs/core/registry.py]  ([IssueRegistry]),
    - [logs/core/adapter.py]   ([IssueRegistryAdapter]),
    - [logs/core/factory.py]   ([LogFactory], module [LogsCoreFactory]),
    - [core/factory.py]        ([LogFactory] with the file-output step,
                                module [CoreFactory]),

    followed by the properties of the specification, each stated on these
    definitions.

    Python objects are modelled by the type [pyval]; a class object is known
    by its identity, its [__name__], the identities of the other classes on
    its [__mro__], and whether it is a built-in (immutable) type.  The only
    class attribute the program reads or writes is [_error_code]; the store
    [error_codes] holds, per class identity, that entry of the class's own
    [__dict__].  Python dictionaries that are iterated or handed to the
    logging backend keep their insertion order and are association lists;
    the registry table [_issues], which is only looked up by key, is a
    [gmap]. *)

From Stdlib Require Import ZArith Ascii String.
From stdpp Require Import base option list strings gmap.

(* ===================================================================== *)
(** ** Python values, exceptions and results                              *)
(* ===================================================================== *)

Module Py.

(** A class object.  [cls_bases] lists the identities of the classes that
    follow the class itself on its [__mro__]; [cls_immutable] is true for
    built-in types such as [ValueError], whose attributes cannot be
    set. *)
Record pyclass := PyClass {
  cls_id : nat;
  cls_name : string;
  cls_bases : list nat;
  cls_immutable : bool
}.

#[warnings="-register-all"]
Inductive pyval :=
| VNone
| VBool (b : bool)
| VInt (z : Z)
| VStr (s : string)
| VClass (c : pyclass)
| VList (l : list pyval)
| VDict (d : list (string * pyval)).

(** Truth value of an object, as tested by [if x] and [x and y]. *)
Definition truthy (v : pyval) : bool :=
  match v with
  | VNone => false
  | VBool b => b
  | VInt z => negb (z =? 0)%Z
  | VStr s => negb (String.eqb s "")
  | VClass _ => true
  | VList l => match l with [] => false | _ => true end
  | VDict d => match d with [] => false | _ => true end
  end.

Definition is_None (v : pyval) : bool :=
  match v with VNone => true | _ => false end.

(** Lists and dictionaries cannot be used as dictionary keys. *)
Definition hashable (v : pyval) : bool :=
  match v with
  | VList _ | VDict _ => false
  | _ => true
  end.

(** Exception classes that occur in the program or reach it from its
    environment.  [KeyboardInterrupt] stands for the exceptions that are
    not subclasses of [Exception]. *)
Inductive exc_class :=
| TypeError
| AttributeError
| RuntimeError
| FileNotFoundError
| YAMLError
| PermissionError
| FileExistsError
| ValueError
| KeyboardInterrupt.

Record exn := Exn { exc_type : exc_class; exc_str : string }.

Inductive result (A : Type) :=
| Ok (a : A)
| Raise (e : exn).
Arguments Ok {A} a.
Arguments Raise {A} e.

Definition bind {A B} (r : result A) (k : A → result B) : result B :=
  match r with
  | Ok a => k a
  | Raise e => Raise e
  end.

(** *** Dictionaries as insertion-ordered association lists *)

(** [d.get(k)] *)
Fixpoint dget (k : string) (d : list (string * pyval)) : option pyval :=
  match d with
  | [] => None
  | (k', v) :: rest => if String.eqb k k' then Some v else dget k rest
  end.

(** [d[k] = v]: an existing key keeps its position. *)
Fixpoint dset (k : string) (v : pyval) (d : list (string * pyval))
  : list (string * pyval) :=
  match d with
  | [] => [(k, v)]
  | (k', v') :: rest =>
      if String.eqb k k' then (k', v) :: rest else (k', v') :: dset k v rest
  end.

(** the dictionary after [d.pop(k, default)] *)
Fixpoint dpop (k : string) (d : list (string * pyval))
  : list (string * pyval) :=
  match d with
  | [] => []
  | (k', v') :: rest =>
      if String.eqb k k' then dpop k rest else (k', v') :: dpop k rest
  end.

(** the dictionary after [d.setdefault(k, v)] *)
Definition dsetdefault (k : string) (v : pyval) (d : list (string * pyval))
  : list (string * pyval) :=
  match dget k d with
  | Some _ => d
  | None => dset k v d
  end.

Definition newline : string := String (ascii_of_nat 10) EmptyString.

(** The levels of the [logging] module. *)
Inductive level := DEBUG | INFO | WARNING | ERROR | CRITICAL.

End Py.

Import Py.

(* ===================================================================== *)
(** ** logs/core/registry.py                                              *)
(* ===================================================================== *)

Module IssueRegistry.

(** The class-level table [_issues] together with the [_error_code]
    attributes of the class objects it refers to. *)
Record registry := Registry {
  _issues : gmap string pyval;
  error_codes : gmap nat pyval
}.

(** The state at import time: nothing registered, no class carries a
    code. *)
Definition empty : registry := Registry ∅ ∅.

(** Attribute lookup along the [__mro__]: the first class whose own
    [__dict__] has [_error_code]. *)
Fixpoint mro_lookup (attrs : gmap nat pyval) (mro : list nat) : option pyval :=
  match mro with
  | [] => None
  | i :: rest =>
      match attrs !! i with
      | Some v => Some v
      | None => mro_lookup attrs rest
      end
  end.

Definition class_attr (st : registry) (c : pyclass) : option pyval :=
  mro_lookup (error_codes st) (cls_id c :: cls_bases c).

(** [getattr(obj, "_error_code", default)] *)
Definition getattr_error_code (st : registry) (obj default : pyval) : pyval :=
  match obj with
  | VClass c => from_option id default (class_attr st c)
  | _ => default
  end.

(** [hasattr(obj, "_error_code")] *)
Definition hasattr_error_code (st : registry) (obj : pyval) : bool :=
  match obj with
  | VClass c => bool_decide (is_Some (class_attr st c))
  | _ => false
  end.

(** [setattr(obj, "_error_code", code)]: writes the class's own
    attribute; built-in types and instances of built-in types refuse. *)
Definition setattr_error_code (obj code : pyval) (st : registry)
  : result registry :=
  match obj with
  | VClass c =>
      if cls_immutable c
      then Raise (Exn TypeError
             "cannot set '_error_code' attribute of immutable type")
      else Ok (Registry (_issues st) (<[cls_id c := code]> (error_codes st)))
  | _ => Raise (Exn AttributeError "object has no attribute '_error_code'")
  end.

(** [obj.__name__] *)
Definition dunder_name (obj : pyval) : result string :=
  match obj with
  | VClass c => Ok (cls_name c)
  | _ => Raise (Exn AttributeError "object has no attribute '__name__'")
  end.

(** [cls._issues[name] = obj] *)
Definition store (name : string) (obj : pyval) (st : registry) : registry :=
  Registry (<[name := obj]> (_issues st)) (error_codes st).

(** [IssueRegistry.get(name)]: [cls._issues.get(name)].  The table has
    string keys only, so any other hashable key is missing; an unhashable
    key makes [dict.get] raise. *)
Definition get (st : registry) (name : pyval) : result pyval :=
  match name with
  | VStr s => Ok (default VNone (_issues st !! s))
  | _ =>
      if hashable name then Ok VNone
      else Raise (Exn TypeError "unhashable type")
  end.

(** The two closures [register] can return. *)
Inductive decorator :=
| DecoratorNamed (name_or_class : string) (code : pyval)  (* lines 78-84 *)
| DecoratorAuto (code : pyval).                           (* lines 97-102 *)

Inductive returned :=
| RObject (v : pyval)
| RDecorator (d : decorator).

Definition usage_message : string :=
  "Invalid usage. Expected either:
1) register('Name', class_obj, code='...'),
2) @register('Name', code='...'),
3) @register (no arguments), or
4) @register(code='...') where class name is used.".

Definition invalid_usage : exn := Exn TypeError usage_message.

(** [IssueRegistry.register(name_or_class, class_obj, *, code)].  The
    state is returned also when the call raises: a write to [_issues]
    that precedes a failing [setattr] stays. *)
Definition register (name_or_class class_obj code : pyval) (st : registry)
  : registry * result returned :=
  match name_or_class with
  | VStr name =>
      if truthy class_obj then
        (* line 69: isinstance(name_or_class, str) and class_obj *)
        let st1 := store name class_obj st in
        if negb (is_None code) then
          match setattr_error_code class_obj code st1 with
          | Ok st2 => (st2, Ok (RObject class_obj))
          | Raise e => (st1, Raise e)
          end
        else (st1, Ok (RObject class_obj))
      else if is_None class_obj then
        (* line 76: isinstance(name_or_class, str) and class_obj is None *)
        (st, Ok (RDecorator (DecoratorNamed name code)))
      else (st, Raise invalid_usage)
  | VClass decorated_class =>
      if is_None class_obj then
        (* line 87: isinstance(name_or_class, type) and class_obj is None *)
        let st1 := store (cls_name decorated_class) name_or_class st in
        if negb (is_None code) && negb (hasattr_error_code st1 name_or_class)
        then
          match setattr_error_code name_or_class code st1 with
          | Ok st2 => (st2, Ok (RObject name_or_class))
          | Raise e => (st1, Raise e)
          end
        else (st1, Ok (RObject name_or_class))
      else (st, Raise invalid_usage)
  | VNone =>
      if is_None class_obj && negb (is_None code) then
        (* line 95 *)
        (st, Ok (RDecorator (DecoratorAuto code)))
      else (st, Raise invalid_usage)
  | _ => (st, Raise invalid_usage)
  end.

(** The guards of the four [if] statements of [register], in order. *)
Definition isinstance_str (v : pyval) : bool :=
  match v with VStr _ => true | _ => false end.
Definition isinstance_type (v : pyval) : bool :=
  match v with VClass _ => true | _ => false end.

Definition shape1 (name_or_class class_obj : pyval) : bool :=
  isinstance_str name_or_class && truthy class_obj.
Definition shape2 (name_or_class class_obj : pyval) : bool :=
  isinstance_str name_or_class && is_None class_obj.
Definition shape3 (name_or_class class_obj : pyval) : bool :=
  isinstance_type name_or_class && is_None class_obj.
Definition shape4 (name_or_class class_obj code : pyval) : bool :=
  is_None name_or_class && is_None class_obj && negb (is_None code).

(** Calling a returned closure on [decorated_class]. *)
Definition apply_decorator (d : decorator) (decorated_class : pyval)
  (st : registry) : registry * result pyval :=
  match d with
  | DecoratorNamed name code =>
      let st1 := store name decorated_class st in
      if negb (is_None code) then
        match setattr_error_code decorated_class code st1 with
        | Ok st2 => (st2, Ok decorated_class)
        | Raise e => (st1, Raise e)
        end
      else (st1, Ok decorated_class)
  | DecoratorAuto code =>
      match dunder_name decorated_class with
      | Ok name =>
          let st1 := store name decorated_class st in
          match setattr_error_code decorated_class code st1 with
          | Ok st2 => (st2, Ok decorated_class)
          | Raise e => (st1, Raise e)
          end
      | Raise e => (st, Raise e)
      end
  end.

(** One inner dictionary of [get_all_issues]:
    [{"class": issue_class, "code": getattr(issue_class, "_error_code", None)}] *)
Record issue_info := IssueInfo { info_class : pyval; info_code : pyval }.

Definition get_all_issues (st : registry) : gmap string issue_info :=
  (λ issue_class,
     IssueInfo issue_class (getattr_error_code st issue_class VNone))
  <$> _issues st.

End IssueRegistry.

(* ===================================================================== *)
(** ** logs/core/adapter.py                                               *)
(* ===================================================================== *)

Module IssueRegistryAdapter.
Import IssueRegistry.

(** [IssueRegistryAdapter.process(msg, kwargs)], reading the registry
    [st].  The dictionary bound to [extra] is the one stored in
    [kwargs], so the [setdefault] on it shows in the returned
    [kwargs]. *)
Definition process (st : registry) (msg : pyval) (kwargs : list (string * pyval))
  : result (pyval * list (string * pyval)) :=
  (* extra = kwargs.setdefault("extra", {}) *)
  let kwargs := dsetdefault "extra" (VDict []) kwargs in
  match dget "extra" kwargs with
  | Some (VDict extra) =>
      (* issue = extra.get("issue", None) *)
      let issue := default VNone (dget "issue" extra) in
      (* issue = self.issue_registry.get(issue) if issue else None *)
      bind (if truthy issue then get st issue else Ok VNone) (λ issue,
      let error_code :=
        if truthy issue then getattr_error_code st issue (VStr "XXX")
        else VStr "XXX" in
      (* extra.setdefault("error_code", error_code) *)
      let extra := dsetdefault "error_code" error_code extra in
      Ok (msg, dset "extra" (VDict extra) kwargs))
  | _ => Raise (Exn AttributeError "object has no attribute 'get'")
  end.

(** The code [process] works out for the extension [extra] before it
    writes anything (lines 24-28 of the file). *)
Definition resolve (st : registry) (extra : list (string * pyval))
  : result pyval :=
  let issue := default VNone (dget "issue" extra) in
  bind (if truthy issue then get st issue else Ok VNone) (λ issue,
  Ok (if truthy issue then getattr_error_code st issue (VStr "XXX")
      else VStr "XXX")).

(** The structured extension of a call: the dictionary under [extra],
    empty when the caller gave none; nothing when [extra] holds something
    that is not a dictionary. *)
Definition call_extra (kwargs : list (string * pyval))
  : option (list (string * pyval)) :=
  match dget "extra" kwargs with
  | None => Some []
  | Some (VDict extra) => Some extra
  | Some _ => None
  end.

(** What reaches the wrapped logger: level, message and keyword
    arguments. *)
Record forwarded := Forwarded {
  fwd_level : level;
  fwd_msg : pyval;
  fwd_kwargs : list (string * pyval)
}.

(** The inherited [LoggerAdapter.log], which [debug], [info], [warning],
    [error] and [critical] all call: when the level is enabled, the
    result of [process] is passed on to the wrapped logger. *)
Definition log (isEnabledFor : level → bool) (st : registry)
  (lvl : level) (msg : pyval) (kwargs : list (string * pyval))
  : result (option forwarded) :=
  if isEnabledFor lvl then
    bind (process st msg kwargs) (λ '(msg, kwargs),
      Ok (Some (Forwarded lvl msg kwargs)))
  else Ok None.

(** [get_issue] and [get_all_issues] delegate to the registry. *)
Definition get_issue (st : registry) (name : pyval) : result pyval :=
  IssueRegistry.get st name.

Definition get_all_issues (st : registry) : gmap string issue_info :=
  IssueRegistry.get_all_issues st.

End IssueRegistryAdapter.

(* ===================================================================== *)
(** ** The part of [os.path] and [os] the factory calls                   *)
(* ===================================================================== *)

Module posixpath.

Definition is_sep (c : Ascii.ascii) : bool := Ascii.eqb c "/"%char.

(** [s.startswith("/")] *)
Definition startswith_sep (s : string) : bool :=
  match s with
  | String c _ => is_sep c
  | EmptyString => false
  end.

(** [s.endswith("/")] *)
Fixpoint endswith_sep (s : string) : bool :=
  match s with
  | EmptyString => false
  | String c EmptyString => is_sep c
  | String _ rest => endswith_sep rest
  end.

(** One round of the loop of [posixpath.join]. *)
Definition join_step (path b : string) : string :=
  if startswith_sep b then b
  else if String.eqb path "" || endswith_sep path then path +:+ b
  else path +:+ "/" +:+ b.

(** [os.path.join(a, *p)] on strings. *)
Definition join (a : string) (p : list string) : string :=
  foldl join_step a p.

Fixpoint has_sep (s : string) : bool :=
  match s with
  | EmptyString => false
  | String c rest => is_sep c || has_sep rest
  end.

(** [p[:p.rfind("/") + 1]] *)
Fixpoint head_part (p : string) : string :=
  match p with
  | EmptyString => EmptyString
  | String c rest =>
      if has_sep rest then String c (head_part rest)
      else if is_sep c then String c EmptyString
      else EmptyString
  end.

Fixpoint all_sep (s : string) : bool :=
  match s with
  | EmptyString => true
  | String c rest => is_sep c && all_sep rest
  end.

(** [s.rstrip("/")] *)
Fixpoint rstrip_sep (s : string) : string :=
  match s with
  | EmptyString => EmptyString
  | String c rest =>
      if all_sep (String c rest) then EmptyString
      else String c (rstrip_sep rest)
  end.

(** [os.path.dirname(p)] *)
Definition dirname (p : string) : string :=
  let head := head_part p in
  if negb (String.eqb head "") && negb (all_sep head)
  then rstrip_sep head
  else head.

(** The directories above [p]: its non-empty proper prefixes that end
    just before a separator. *)
Fixpoint ancestors_from (seen rest : string) : list string :=
  match rest with
  | EmptyString => []
  | String c rest' =>
      (if is_sep c && negb (String.eqb seen "") then [seen] else [])
      ++ ancestors_from (seen +:+ String c EmptyString) rest'
  end.

Definition ancestors (p : string) : list string := ancestors_from "" p.

End posixpath.

(* ===================================================================== *)
(** ** The process state and the environment of the factory               *)
(* ===================================================================== *)

Module World.

(** What the factory does to the logging backend and the process,
    oldest first. *)
Inductive event :=
| EvOpen (config_path : string)          (* open(config_path, "r") *)
| EvSafeLoad                             (* yaml.safe_load(file) *)
| EvDictConfig (config : pyval)          (* logging.config.dictConfig(config) *)
| EvBasicConfig (lvl : level)            (* logging.basicConfig(level=lvl) *)
| EvWarning (msg : string)               (* logging.warning(msg) *)
| EvListenerStart                        (* queue_handler.listener.start() *)
| EvAtexitRegister                       (* atexit.register(queue_handler.listener.stop) *)
| EvGetLogger (name : string).           (* logging.getLogger(name) *)

Record world := World {
  _initialized : bool;       (* LogFactory._initialized *)
  dirs : gset string;        (* the directories that exist *)
  trace : list event
}.

(** The state at process start. *)
Definition initial (existing : gset string) : world := World false existing [].

(** What the surroundings answer during one call into the factory. *)
Record env := Env {
  DEFAULT_CONFIG_PATH : string;
    (* Path(__file__).parent.parent / "settings/config.yaml" *)
  default_project_root : string;
    (* os.path.abspath(os.path.join(current_dir, os.pardir)) *)
  os_open : string → result string;
    (* the text of the file, or what open raises *)
  yaml_safe_load : string → result pyval;
  dictConfig_error : pyval → option exn;
    (* what logging.config.dictConfig raises, if anything *)
  makedirs_error : string → option exn;
    (* what the operating system refuses in os.makedirs, if anything *)
  queueHandler : option (option exn)
    (* logging.getHandlerByName("queueHandler"): no handler, or a handler
       and what its listener.start() raises, if anything; the lookup
       itself is taken to return *)
}.

(** Computations that change the world and may raise. *)
Definition M (A : Type) : Type := world → world * result A.

Definition retM {A} (a : A) : M A := λ w, (w, Ok a).
Definition raise {A} (e : exn) : M A := λ w, (w, Raise e).
Definition bindM {A B} (m : M A) (k : A → M B) : M B :=
  λ w, match m w with
       | (w', Ok a) => k a w'
       | (w', Raise e) => (w', Raise e)
       end.
Definition lift {A} (r : result A) : M A := λ w, (w, r).
Definition emit (ev : event) : M unit :=
  λ w, (World (_initialized w) (dirs w) (trace w ++ [ev]), Ok tt).

(** [try: body except ... as e: handler e] *)
Definition try_except {A} (body : M A) (handler : exn → M A) : M A :=
  λ w, match body w with
       | (w', Ok a) => (w', Ok a)
       | (w', Raise e) => handler e w'
       end.

(** [os.makedirs(name, exist_ok=exist_ok)] *)
Definition makedirs (E : env) (name : string) (exist_ok : bool) : M unit :=
  λ w, match makedirs_error E name with
       | Some e => (w, Raise e)
       | None =>
           if bool_decide (name ∈ dirs w) && negb exist_ok
           then (w, Raise (Exn FileExistsError name))
           else (World (_initialized w)
                   (dirs w ∪ {[name]} ∪ list_to_set (posixpath.ancestors name))
                   (trace w), Ok tt)
       end.

Definition set_initialized (b : bool) : M unit :=
  λ w, (World b (dirs w) (trace w), Ok tt).

#[export] Instance M_ret : MRet M := @retM.
#[export] Instance M_bind : MBind M := λ A B k m, bindM m k.

(** The world after further events. *)
Definition after (evs : list event) (w : world) : world :=
  World (_initialized w) (dirs w) (trace w ++ evs).

End World.

Import World.

(* ===================================================================== *)
(** ** logs/core/factory.py                                               *)
(* ===================================================================== *)

Module LogsCoreFactory.

(** [except (FileNotFoundError, yaml.YAMLError)] *)
Definition is_missing_or_unparseable (c : exc_class) : bool :=
  match c with
  | FileNotFoundError | YAMLError => true
  | _ => false
  end.

(** [except Exception] *)
Definition is_Exception (c : exc_class) : bool :=
  match c with
  | KeyboardInterrupt => false
  | _ => true
  end.

Definition fallback_warning : string := "Falling back to default logging config...".

Definition wrap (e : exn) : exn :=
  Exn RuntimeError ("Unexpected error setting up logging: " +:+ exc_str e).

(** The two [except] clauses of [_setup_logging]. *)
Definition setup_handler (e : exn) : M unit :=
  if is_missing_or_unparseable (exc_type e) then
    (* Fall back to some default logger config *)
    emit (EvBasicConfig INFO);;
    emit (EvWarning fallback_warning)
  else if is_Exception (exc_type e) then raise (wrap e)
  else raise e.

(** [Path(config_path) if config_path else cls.DEFAULT_CONFIG_PATH].  A
    path is kept as the string the caller gave; the normal form [Path]
    gives it (a trailing separator or a [./] dropped) is not modelled, so
    [EvOpen] records the caller's spelling. *)
Definition effective_path (E : env) (config_path : option string) : string :=
  match config_path with
  | Some p => if truthy (VStr p) then p else DEFAULT_CONFIG_PATH E
  | None => DEFAULT_CONFIG_PATH E
  end.

(** The suite of the [try] statement of [_setup_logging]. *)
Definition try_suite (E : env) (config_path : string) : M unit :=
  emit (EvOpen config_path);;
  file ← lift (os_open E config_path);
  emit EvSafeLoad;;
  config ← lift (yaml_safe_load E file);
  emit (EvDictConfig config);;
  match dictConfig_error E config with
  | Some e => raise e
  | None => mret tt
  end.

(** [LogFactory._setup_logging(config_path)] *)
Definition _setup_logging (E : env) (config_path : option string) : M unit :=
  let config_path := effective_path E config_path in
  try_except (try_suite E config_path) setup_handler.

(** [LogFactory._start_queue_listener()] *)
Definition _start_queue_listener (E : env) : M unit :=
  match queueHandler E with
  | Some start_error =>
      emit EvListenerStart;;
      match start_error with
      | Some e => raise e
      | None => emit EvAtexitRegister
      end
  | None => mret tt
  end.

(** [LogFactory._initialize()] *)
Definition _initialize (E : env) : M unit :=
  λ w,
    if negb (_initialized w) then
      (_setup_logging E None;;
       _start_queue_listener E;;
       set_initialized true) w
    else (w, Ok tt).

(** The adapter [create_logger] returns: an [IssueRegistryAdapter] around
    [logging.getLogger(name)] with an empty [extra]. *)
Record adapter := Adapter { logger_name : string }.

(** [LogFactory.create_logger(name)] *)
Definition create_logger (E : env) (name : string) : M adapter :=
  _initialize E;;
  emit (EvGetLogger name);;
  mret (Adapter name).

(** A succession of [create_logger] calls, each in the surroundings of its
    moment; an exception is caught by the caller, who goes on.  The result
    lists the state after each call and what the call returned. *)
Fixpoint run (calls : list (env * string)) (w : world)
  : list (world * result adapter) :=
  match calls with
  | [] => []
  | (E, name) :: rest =>
      let r := create_logger E name w in
      r :: run rest r.1
  end.

(** The number of times the configuration file has been opened. *)
Definition is_open (ev : event) : bool :=
  match ev with EvOpen _ => true | _ => false end.

Definition loads (w : world) : nat :=
  length (List.filter is_open (trace w)).

End LogsCoreFactory.

(* ===================================================================== *)
(** ** core/factory.py                                                    *)
(* ===================================================================== *)

Module CoreFactory.

Definition rotating_marker : string := "logging.handlers.RotatingFileHandler".

(** [handler.get("class") != "logging.handlers.RotatingFileHandler"] *)
Definition class_differs (handler : list (string * pyval)) : bool :=
  match dget "class" handler with
  | Some (VStr s) => negb (String.eqb s rotating_marker)
  | _ => true
  end.

(** A component handed to [os.path.join]: anything but a string is
    refused. *)
Definition fspath (v : pyval) : result string :=
  match v with
  | VStr s => Ok s
  | _ => Raise (Exn TypeError "expected str, bytes or os.PathLike object")
  end.

(** The body of the [for] loop (lines 48-61) on one handler; the result is
    the handler dictionary as the loop leaves it. *)
Definition rewrite_handler (E : env) (log_project_root : string)
  (handler : pyval) : M pyval :=
  match handler with
  | VDict h =>
      if class_differs h then mret handler               (* continue *)
      else
        (* foldername = handler.pop("foldername", "") *)
        let foldername := default (VStr "") (dget "foldername" h) in
        let h := dpop "foldername" h in
        output_folder ←
          (if truthy foldername
           then lift (bind (fspath foldername) (λ f,
                        Ok (posixpath.join "logs" [f])))
           else mret "logs");
        (* filename = handler.get("filename") *)
        let filename := default VNone (dget "filename" h) in
        if truthy filename then
          f ← lift (fspath filename);
          let path := posixpath.join log_project_root [output_folder; f] in
          let h := dset "filename" (VStr path) h in
          makedirs E (posixpath.dirname path) true;;
          mret (VDict h)
        else mret (VDict h)
  | _ => raise (Exn AttributeError "object has no attribute 'get'")
  end.

(** The loop over [config.get("handlers", {}).values()]. *)
Fixpoint rewrite_handlers (E : env) (log_project_root : string)
  (handlers : list (string * pyval)) : M (list (string * pyval)) :=
  match handlers with
  | [] => mret []
  | (name, handler) :: rest =>
      handler' ← rewrite_handler E log_project_root handler;
      rest' ← rewrite_handlers E log_project_root rest;
      mret ((name, handler') :: rest')
  end.

(** [LogFactory._setup_file_output_directory(config, log_project_root)].
    The loop stands inside [if log_project_root is None:], so a caller
    who names a root gets the configuration back untouched. *)
Definition _setup_file_output_directory (E : env) (config : pyval)
  (log_project_root : option string) : M pyval :=
  match log_project_root with
  | None =>
      let log_project_root := default_project_root E in
      match config with
      | VDict c =>
          match dget "handlers" c with
          | None => mret config
          | Some (VDict handlers) =>
              handlers' ← rewrite_handlers E log_project_root handlers;
              mret (VDict (dset "handlers" (VDict handlers') c))
          | Some _ =>
              raise (Exn AttributeError "object has no attribute 'values'")
          end
      | _ => raise (Exn AttributeError "object has no attribute 'get'")
      end
  | Some _ => mret config
  end.

(** [LogFactory._setup_logging(config_path)]; the [except] clauses are
    those of [logs/core/factory.py]. *)
Definition try_suite (E : env) (config_path : string) : M unit :=
  emit (EvOpen config_path);;
  file ← lift (os_open E config_path);
  emit EvSafeLoad;;
  config ← lift (yaml_safe_load E file);
  config ← _setup_file_output_directory E config None;
  emit (EvDictConfig config);;
  match dictConfig_error E config with
  | Some e => raise e
  | None => mret tt
  end.

Definition _setup_logging (E : env) (config_path : option string) : M unit :=
  let config_path := LogsCoreFactory.effective_path E config_path in
  try_except (try_suite E config_path) LogsCoreFactory.setup_handler.

(** [LogFactory._start_queue_listener()] *)
Definition _start_queue_listener (E : env) : M unit :=
  match queueHandler E with
  | Some start_error =>
      emit EvListenerStart;;
      match start_error with
      | Some e => raise e
      | None => emit EvAtexitRegister
      end
  | None => mret tt
  end.

(** [LogFactory._initialize()] *)
Definition _initialize (E : env) : M unit :=
  λ w,
    if negb (_initialized w) then
      (_setup_logging E None;;
       _start_queue_listener E;;
       set_initialized true) w
    else (w, Ok tt).

(** [LogFactory.create_logger(name)] *)
Definition create_logger (E : env) (name : string)
  : M LogsCoreFactory.adapter :=
  _initialize E;;
  emit (EvGetLogger name);;
  mret (LogsCoreFactory.Adapter name).

End CoreFactory.

(* ===================================================================== *)
(** ** Notions used in the statements, and sample objects                 *)
(* ===================================================================== *)

Module Notions.
Import IssueRegistry.

(** [get(name)] finds the kind [k], and [get_all_issues()] lists [name]
    with that kind and the code [code] ([VNone]: no code). *)
Definition registered_as (st : registry) (name : string) (k : pyclass)
  (code : pyval) : Prop :=
  get st (VStr name) = Ok (VClass k)
  ∧ get_all_issues st !! name = Some (IssueInfo (VClass k) code).

(** The project root as [os.path.join] continues it: a separator is put
    after it unless it is empty or already ends in one. *)
Definition with_sep (root : string) : string :=
  if String.eqb root "" || posixpath.endswith_sep root then root
  else root +:+ "/".

(** A folder name that is neither empty nor has a separator at either
    end. *)
Definition plain_folder (s : string) : bool :=
  negb (String.eqb s "") && negb (posixpath.startswith_sep s)
  && negb (posixpath.endswith_sep s).

(** A handler field that [os.path.join] will not refuse: missing, falsy,
    or a string. *)
Definition str_or_falsy (v : option pyval) : bool :=
  match v with
  | None => true
  | Some (VStr _) => true
  | Some v => negb (truthy v)
  end.

(** A handler entry on which the loop body raises nothing of its own: a
    dictionary that is not a rotating file handler, or one whose
    [foldername] and [filename] are usable. *)
Definition handler_ok (handler : pyval) : bool :=
  match handler with
  | VDict h =>
      CoreFactory.class_differs h
      || (str_or_falsy (dget "foldername" h) && str_or_falsy (dget "filename" h))
  | _ => false
  end.

(** [output_folder] of the loop body, for a usable [foldername]. *)
Definition output_folder (h : list (string * pyval)) : string :=
  match dget "foldername" h with
  | Some (VStr f) => if String.eqb f "" then "logs" else posixpath.join "logs" [f]
  | _ => "logs"
  end.

(** The new [filename] of a rotating file handler that has one. *)
Definition new_filename (root : string) (h : list (string * pyval)) : option string :=
  match dget "filename" h with
  | Some (VStr f) =>
      if String.eqb f "" then None
      else Some (posixpath.join root [output_folder h; f])
  | _ => None
  end.

(** What the loop body leaves of a handler entry it can process. *)
Definition rewritten (root : string) (handler : pyval) : pyval :=
  match handler with
  | VDict h =>
      if CoreFactory.class_differs h then handler
      else
        match new_filename root h with
        | Some path => VDict (dset "filename" (VStr path) (dpop "foldername" h))
        | None => VDict (dpop "foldername" h)
        end
  | _ => handler
  end.

End Notions.

Module Samples.

(** [class Exception] and [class Warning(Exception)], built in. *)
Definition ExceptionT : pyclass := PyClass 0 "Exception" [] true.
Definition WarningT : pyclass := PyClass 1 "Warning" [0] true.

(** Two classes of the program, [class SomeKind(Exception)] and
    [class OtherKind(Warning)]. *)
Definition SomeKind : pyclass := PyClass 10 "SomeKind" [0] false.
Definition OtherKind : pyclass := PyClass 11 "OtherKind" [1; 0] false.

(** A class declared under the empty name, [type("", (Exception,), {})]. *)
Definition Nameless : pyclass := PyClass 12 "" [0] false.

(** A configuration with a console handler and a rotating file handler
    that names a file and a folder. *)
Definition console_handler : pyval :=
  VDict [("class", VStr "logging.StreamHandler"); ("level", VStr "INFO")].

Definition file_handler : pyval :=
  VDict [("class", VStr "logging.handlers.RotatingFileHandler");
         ("filename", VStr "app.log");
         ("foldername", VStr "worker");
         ("maxBytes", VInt 1048576)].

Definition sample_config : list (string * pyval) :=
  [("version", VInt 1);
   ("handlers", VDict [("console", console_handler); ("file", file_handler)])].

(** The same with an absolute file name. *)
Definition absolute_file_handler : pyval :=
  VDict [("class", VStr "logging.handlers.RotatingFileHandler");
         ("filename", VStr "/var/log/app.log");
         ("foldername", VStr "worker")].

Definition absolute_config : list (string * pyval) :=
  [("version", VInt 1);
   ("handlers", VDict [("file", absolute_file_handler)])].



(** Surroundings in which the configuration file holds [config], the
    backend accepts what it is given and directories can be made. *)
Definition env_with (config : list (string * pyval)) : env :=
  Env "/srv/app/logs/settings/config.yaml" "/srv/app"
    (λ _, Ok "version: 1")
    (λ _, Ok (VDict config))
    (λ _, None)
    (λ _, None)
    None.


(** Surroundings in which the configuration file is there and parses, but
    the logging backend refuses the configuration; no queue handler. *)
Definition env_refused : env :=
  Env "/srv/app/logs/settings/config.yaml" "/srv/app"
    (λ _, Ok "version: 1")
    (λ _, Ok (VDict [("version", VInt 1)]))
    (λ _, Some (Exn ValueError "Unable to configure handler 'file'"))
    (λ _, None)
    None.

(** Surroundings in which the configuration file does not exist. *)
Definition env_missing : env :=
  Env "/srv/app/logs/settings/config.yaml" "/srv/app"
    (λ _, Raise (Exn FileNotFoundError "No such file or directory"))
    (λ _, Ok VNone)
    (λ _, None)
    (λ _, None)
    None.

(** Surroundings in which the configuration is applied and defines a queue
    handler whose listener starts; and the same with a listener that
    refuses to start. *)
Definition env_queue : env :=
  Env "/srv/app/logs/settings/config.yaml" "/srv/app"
    (λ _, Ok "version: 1")
    (λ _, Ok (VDict [("version", VInt 1)]))
    (λ _, None)
    (λ _, None)
    (Some None).

Definition env_queue_broken : env :=
  Env "/srv/app/logs/settings/config.yaml" "/srv/app"
    (λ _, Ok "version: 1")
    (λ _, Ok (VDict [("version", VInt 1)]))
    (λ _, None)
    (λ _, None)
    (Some (Some (Exn RuntimeError "threads can only be started once"))).

(** Surroundings in which the configuration file is empty: it loads to
    [None]. *)
Definition env_empty_file : env :=
  Env "/srv/app/logs/settings/config.yaml" "/srv/app"
    (λ _, Ok "")
    (λ _, Ok VNone)
    (λ _, None)
    (λ _, None)
    None.

(** Surroundings in which the file does not parse. *)
Definition env_unparseable : env :=
  Env "/srv/app/logs/settings/config.yaml" "/srv/app"
    (λ _, Ok "handlers: [")
    (λ _, Raise (Exn YAMLError "while parsing a flow sequence"))
    (λ _, None)
    (λ _, None)
    None.

End Samples.

(* ===================================================================== *)
(** ** What is observed of a trace, a dictionary and a configuration      *)
(* ===================================================================== *)

Module Observations.

Definition is_atexit (ev : event) : bool :=
  match ev with EvAtexitRegister => true | _ => false end.

Definition is_listener_start (ev : event) : bool :=
  match ev with EvListenerStart => true | _ => false end.

Definition is_dictConfig (ev : event) : bool :=
  match ev with EvDictConfig _ => true | _ => false end.


Definition is_getLogger (ev : event) : bool :=
  match ev with EvGetLogger _ => true | _ => false end.

(** The name a call to [register] can write in the table, and the name a
    registrar writes when it is given [obj]. *)
Definition register_key (name_or_class : pyval) : option string :=
  match name_or_class with
  | VStr name => Some name
  | VClass c => Some (cls_name c)
  | _ => None
  end.

Definition decorator_key (d : IssueRegistry.decorator) (obj : pyval)
  : option string :=
  match d with
  | IssueRegistry.DecoratorNamed name _ => Some name
  | IssueRegistry.DecoratorAuto _ =>
      match obj with
      | VClass c => Some (cls_name c)
      | _ => None
      end
  end.

(** The events [_setup_logging] can leave. *)
Definition is_setup_event (ev : event) : bool :=
  match ev with
  | EvOpen _ | EvSafeLoad | EvDictConfig _ | EvBasicConfig _ | EvWarning _ => true
  | _ => false
  end.

(** How many events of a kind the trace holds. *)
Definition count (p : event → bool) (w : world) : nat :=
  length (List.filter p (trace w)).

(** The shutdown hook is registered at most once, and not while the flag
    is down. *)
Definition hook_invariant (w : world) : Prop :=
  (count is_atexit w ≤ 1)%nat
  ∧ (_initialized w = false → count is_atexit w = 0).

(** [list(d.keys())] *)
Definition keys (d : list (string * pyval)) : list string := d.*1.

(** A handler entry that is a dictionary and not a rotating file
    handler. *)
Definition plain_handler (handler : pyval) : bool :=
  match handler with
  | VDict h => CoreFactory.class_differs h
  | _ => false
  end.


End Observations.

(* ===================================================================== *)
(** * Properties                                                          *)
(* ===================================================================== *)

(** ** Dictionaries *)

Section dict_lemmas.
Implicit Types (k : string) (v : pyval) (d : list (string * pyval)).

Lemma dget_dset_eq k v d : dget k (dset k v d) = Some v.
Proof.
  induction d as [|[k' v'] d IH]; simpl.
  - by rewrite String.eqb_refl.
  - destruct (String.eqb k k') eqn:Hk; simpl; rewrite Hk; done.
Qed.

Lemma dget_dset_ne k k' v d : k ≠ k' → dget k' (dset k v d) = dget k' d.
Proof.
  intros Hne. induction d as [|[k1 v1] d IH]; simpl.
  - destruct (String.eqb_spec k' k); congruence.
  - destruct (String.eqb_spec k k1) as [->|Hk]; simpl.
    + destruct (String.eqb_spec k' k1); congruence.
    + by rewrite IH.
Qed.

Lemma dget_dpop_eq k d : dget k (dpop k d) = None.
Proof.
  induction d as [|[k' v'] d IH]; simpl; [done|].
  destruct (String.eqb k k') eqn:Hk; simpl; [done|]. by rewrite Hk.
Qed.

Lemma dget_dpop_ne k k' d : k ≠ k' → dget k' (dpop k d) = dget k' d.
Proof.
  intros Hne. induction d as [|[k1 v1] d IH]; simpl; [done|].
  destruct (String.eqb_spec k k1) as [->|Hk]; simpl.
  - rewrite IH. destruct (String.eqb_spec k' k1); congruence.
  - by rewrite IH.
Qed.

Lemma dget_dsetdefault_eq k v d :
  dget k (dsetdefault k v d) = Some (default v (dget k d)).
Proof.
  unfold dsetdefault. destruct (dget k d) eqn:Hd; simpl; [done|].
  apply dget_dset_eq.
Qed.

Lemma dget_dsetdefault_ne k k' v d :
  k ≠ k' → dget k' (dsetdefault k v d) = dget k' d.
Proof.
  intros Hne. unfold dsetdefault. destruct (dget k d); [done|].
  by apply dget_dset_ne.
Qed.

Lemma dsetdefault_present k v v0 d :
  dget k d = Some v0 → dsetdefault k v d = d.
Proof. intros H. unfold dsetdefault. by rewrite H. Qed.

End dict_lemmas.

(** ** The registry *)

Section registry_lemmas.
Import IssueRegistry.
Implicit Types (st : registry) (k : pyclass) (code v : pyval) (name : string).

Lemma is_None_true v : is_None v = true ↔ v = VNone.
Proof. destruct v; simpl; split; congruence. Qed.

Lemma is_None_false v : is_None v = false ↔ v ≠ VNone.
Proof. destruct v; simpl; split; congruence. Qed.

Lemma get_all_issues_lookup st name :
  get_all_issues st !! name =
  (λ obj, IssueInfo obj (getattr_error_code st obj VNone)) <$> (_issues st !! name).
Proof. unfold get_all_issues. by rewrite lookup_fmap. Qed.

(** The table does not take part in attribute lookup. *)
Lemma class_attr_store st name obj k :
  class_attr (store name obj st) k = class_attr st k.
Proof. done. Qed.

Lemma getattr_store st name obj o dflt :
  getattr_error_code (store name obj st) o dflt = getattr_error_code st o dflt.
Proof. by destruct o. Qed.

Lemma get_all_issues_store_ne st name obj n :
  n ≠ name →
  get_all_issues (store name obj st) !! n = get_all_issues st !! n.
Proof.
  intros Hne. rewrite !get_all_issues_lookup.
  unfold store at 2; cbn [_issues]. rewrite lookup_insert_ne by done.
  destruct (_issues st !! n); [|done].
  cbn [fmap option_fmap option_map]. by rewrite getattr_store.
Qed.

(** A class's own attribute comes first on its [__mro__]. *)
Lemma class_attr_own tbl attrs k code :
  class_attr (Registry tbl (<[cls_id k := code]> attrs)) k = Some code.
Proof. unfold class_attr; simpl. by rewrite lookup_insert_eq. Qed.

Lemma setattr_mutable k code st :
  cls_immutable k = false →
  setattr_error_code (VClass k) code st =
  Ok (Registry (_issues st) (<[cls_id k := code]> (error_codes st))).
Proof. intros H. unfold setattr_error_code. by rewrite H. Qed.

Lemma getattr_after_setattr tbl attrs k code dflt :
  getattr_error_code (Registry tbl (<[cls_id k := code]> attrs)) (VClass k) dflt
  = code.
Proof. unfold getattr_error_code. by rewrite class_attr_own. Qed.

Lemma hasattr_false_getattr st k dflt :
  hasattr_error_code st (VClass k) = false →
  getattr_error_code st (VClass k) dflt = dflt.
Proof.
  unfold hasattr_error_code, getattr_error_code. intros H.
  apply bool_decide_eq_false in H.
  destruct (class_attr st k) eqn:Hc; [|done]. exfalso. apply H. eauto.
Qed.

(** The name is stored under the table whatever happens to the code. *)
Lemma get_store st name obj : get (store name obj st) (VStr name) = Ok obj.
Proof. unfold get, store; simpl. by rewrite lookup_insert_eq. Qed.

End registry_lemmas.

(** *** Registration call shapes *)

Section register_shapes.
Import IssueRegistry.

(** The message of the usage error lists the four accepted forms, one per
    line. *)
Lemma usage_message_lines :
  usage_message =
  String.concat newline
    [ "Invalid usage. Expected either:";
      "1) register('Name', class_obj, code='...'),";
      "2) @register('Name', code='...'),";
      "3) @register (no arguments), or";
      "4) @register(code='...') where class name is used." ].
Proof. reflexivity. Qed.

(** A call that one of the four guards accepts never ends in the usage
    error. *)
Lemma register_accepted name_or_class class_obj code st :
  shape1 name_or_class class_obj || shape2 name_or_class class_obj
  || shape3 name_or_class class_obj || shape4 name_or_class class_obj code
  = true →
  (register name_or_class class_obj code st).2 ≠ Raise invalid_usage.
Proof.
  unfold shape1, shape2, shape3, shape4, register, setattr_error_code.
  destruct name_or_class; simpl; try discriminate;
    rewrite ?orb_false_r; intros H.
  - by rewrite H.
  - destruct (truthy class_obj) eqn:Ht; simpl in H.
    + destruct (negb (is_None code)); [|done].
      destruct class_obj; try done. by destruct (cls_immutable c).
    + by rewrite H.
  - rewrite H. destruct (negb (is_None code) && _); [|done].
    by destruct (cls_immutable c).
Qed.

End register_shapes.

(** C2 (amended).  A call to [register] whose arguments pass none of the
    four guards (name and kind; name alone; kind alone; code alone) raises
    the usage error, a [TypeError] whose message lists the four accepted
    forms, and leaves the registry as it was.  A call that gives only a
    name, with neither kind nor code, passes the second guard: it does not
    fail but returns a registrar for that name. *)
Theorem C2_register_invalid_usage :
  ∀ (name_or_class class_obj code : pyval) (st : IssueRegistry.registry),
    (IssueRegistry.shape1 name_or_class class_obj
     || IssueRegistry.shape2 name_or_class class_obj
     || IssueRegistry.shape3 name_or_class class_obj
     || IssueRegistry.shape4 name_or_class class_obj code = false →
     IssueRegistry.register name_or_class class_obj code st
     = (st, Raise (Exn TypeError IssueRegistry.usage_message))
     ∧ IssueRegistry.usage_message =
       String.concat newline
         [ "Invalid usage. Expected either:";
           "1) register('Name', class_obj, code='...'),";
           "2) @register('Name', code='...'),";
           "3) @register (no arguments), or";
           "4) @register(code='...') where class name is used." ])
    ∧ (∀ name : string,
         IssueRegistry.register (VStr name) VNone VNone st
         = (st, Ok (IssueRegistry.RDecorator
                      (IssueRegistry.DecoratorNamed name VNone)))).
Proof.
  intros n c code st. split; [|done].
  intros H. split; [|apply usage_message_lines].
  unfold IssueRegistry.shape1, IssueRegistry.shape2, IssueRegistry.shape3,
    IssueRegistry.shape4 in H.
  unfold IssueRegistry.register, IssueRegistry.invalid_usage.
  destruct n; simpl in *; rewrite ?orb_false_r in H; try done.
  - by rewrite H.
  - apply orb_false_iff in H as [H1 H2]. by rewrite H1, H2.
  - by rewrite H.
Qed.

(** [register()] without any argument is refused. *)
Lemma C2_register_invalid_usage_witness :
  IssueRegistry.register VNone VNone VNone IssueRegistry.empty
  = (IssueRegistry.empty, Raise (Exn TypeError IssueRegistry.usage_message)).
Proof.
  exact (proj1 (proj1 (C2_register_invalid_usage VNone VNone VNone
                         IssueRegistry.empty) eq_refl)).
Defined.

(** C2, as stated, fails: [register("Name")], a name with neither kind nor
    code, raises nothing and returns the registrar of the second form. *)
Lemma C2_name_only_is_accepted :
  IssueRegistry.shape2 (VStr "Name") VNone = true
  ∧ IssueRegistry.register (VStr "Name") VNone VNone IssueRegistry.empty
    = (IssueRegistry.empty,
       Ok (IssueRegistry.RDecorator (IssueRegistry.DecoratorNamed "Name" VNone)))
  ∧ (IssueRegistry.register (VStr "Name") VNone VNone IssueRegistry.empty).2
    ≠ Raise (Exn TypeError IssueRegistry.usage_message).
Proof. split; [reflexivity|]. split; [reflexivity|]. discriminate. Qed.

(** *** What a registration leaves in the registry *)

Section registration_lemmas.
Import IssueRegistry Notions.
Implicit Types (st : registry) (k : pyclass) (code : pyval) (name n : string).

Lemma registered_as_intro tbl attrs name k code :
  tbl !! name = Some (VClass k) →
  getattr_error_code (Registry tbl attrs) (VClass k) VNone = code →
  registered_as (Registry tbl attrs) name k code.
Proof.
  intros Ht Hc. split.
  - unfold get; simpl. by rewrite Ht.
  - rewrite get_all_issues_lookup. cbn [_issues]. rewrite Ht. by subst code.
Qed.

(** Direct call and named registrar do the same to the registry. *)
Lemma register_direct st name k code :
  cls_immutable k = false →
  register (VStr name) (VClass k) code st =
  ((if is_None code then store name (VClass k) st
    else Registry (<[name := VClass k]> (_issues st))
                  (<[cls_id k := code]> (error_codes st))),
   Ok (RObject (VClass k))).
Proof.
  intros Hm. unfold register; simpl.
  destruct (is_None code); simpl; [done|]. by rewrite Hm.
Qed.

Lemma apply_named st name k code :
  cls_immutable k = false →
  apply_decorator (DecoratorNamed name code) (VClass k) st =
  ((if is_None code then store name (VClass k) st
    else Registry (<[name := VClass k]> (_issues st))
                  (<[cls_id k := code]> (error_codes st))),
   Ok (VClass k)).
Proof.
  intros Hm. unfold apply_decorator; simpl.
  destruct (is_None code); simpl; [done|]. by rewrite Hm.
Qed.

Lemma apply_auto st k code :
  cls_immutable k = false →
  apply_decorator (DecoratorAuto code) (VClass k) st =
  (Registry (<[cls_name k := VClass k]> (_issues st))
            (<[cls_id k := code]> (error_codes st)),
   Ok (VClass k)).
Proof. intros Hm. unfold apply_decorator; simpl. by rewrite Hm. Qed.

Lemma register_kind_only st k code :
  cls_immutable k = false →
  register (VClass k) VNone code st =
  ((if is_None code || hasattr_error_code st (VClass k)
    then store (cls_name k) (VClass k) st
    else Registry (<[cls_name k := VClass k]> (_issues st))
                  (<[cls_id k := code]> (error_codes st))),
   Ok (RObject (VClass k))).
Proof.
  intros Hm. unfold register, hasattr_error_code, setattr_error_code.
  cbn [is_None]. rewrite class_attr_store, Hm.
  destruct (is_None code); [done|].
  by destruct (bool_decide (is_Some (class_attr st k))).
Qed.

Lemma registered_as_store st name k :
  registered_as (store name (VClass k) st) name k
    (getattr_error_code st (VClass k) VNone).
Proof.
  destruct st as [tbl attrs]. apply registered_as_intro; [|done].
  by rewrite lookup_insert_eq.
Qed.

Lemma registered_as_set tbl attrs name k code :
  registered_as (Registry (<[name := VClass k]> tbl) (<[cls_id k := code]> attrs))
    name k code.
Proof.
  apply registered_as_intro; [by rewrite lookup_insert_eq|].
  apply getattr_after_setattr.
Qed.

(** A registration that omits the code writes no [_error_code]. *)
Lemma register_without_code_keeps_codes name_or_class class_obj st :
  error_codes (register name_or_class class_obj VNone st).1 = error_codes st.
Proof.
  unfold register. destruct name_or_class; simpl; try done.
  - by destruct (is_None class_obj).
  - destruct (truthy class_obj); [done|]. by destruct (is_None class_obj).
  - by destruct (is_None class_obj).
Qed.

Lemma apply_named_without_code_keeps_codes name obj st :
  error_codes (apply_decorator (DecoratorNamed name VNone) obj st).1
  = error_codes st.
Proof. done. Qed.

(** Every name that maps to [k] reports the code just written on [k]. *)
Lemma get_all_after_set tbl attrs k code n :
  tbl !! n = Some (VClass k) →
  get_all_issues (Registry tbl (<[cls_id k := code]> attrs)) !! n
  = Some (IssueInfo (VClass k) code).
Proof.
  intros Hn. rewrite get_all_issues_lookup. cbn [_issues]. rewrite Hn.
  cbn [fmap option_fmap option_map]. by rewrite getattr_after_setattr.
Qed.

Lemma lookup_insert_same_kind (tbl : gmap string pyval) name n k :
  tbl !! n = Some (VClass k) → <[name := VClass k]> tbl !! n = Some (VClass k).
Proof.
  intros Hn. destruct (decide (name = n)) as [->|Hne].
  - by rewrite lookup_insert_eq.
  - by rewrite lookup_insert_ne.
Qed.

End registration_lemmas.

(** A code written on the first base class of [k] shows on [k] when [k]
    has none of its own, whatever the table holds. *)
Lemma class_attr_from_first_base (tbl : gmap string pyval)
  (attrs : gmap nat pyval) (k base : pyclass) (rest : list nat) (code : pyval) :
  attrs !! cls_id k = None →
  cls_bases k = cls_id base :: rest →
  IssueRegistry.class_attr
    (IssueRegistry.Registry tbl (<[cls_id base := code]> attrs)) k = Some code.
Proof.
  intros Hown Hbases.
  unfold IssueRegistry.class_attr; simpl. rewrite Hbases; simpl.
  destruct (decide (cls_id base = cls_id k)) as [Heq|Hdiff].
  - by rewrite Heq, lookup_insert_eq.
  - rewrite lookup_insert_ne, Hown by done. by rewrite lookup_insert_eq.
Qed.

(** What the four registration forms leave in the registry, for a
    user-defined kind [k].  Each form completes, and afterwards [get] finds
    [k] under the stored name and [get_all_issues] lists that name with
    [k].  The three forms that write [_error_code] unconditionally (lines
    71-72, 79-80 and 97-98) list the code supplied; a registration that
    supplies no code leaves what the kind shows; the kind-only form (line
    90) writes a supplied code only onto a kind that shows no [_error_code]
    yet. *)
Lemma registration_then_lookup :
  ∀ (st : IssueRegistry.registry) (k : pyclass) (code : pyval),
    cls_immutable k = false →
    let before := IssueRegistry.getattr_error_code st (VClass k) VNone in
    (* 1: register(name, k, code=code) *)
    (∀ name,
       let r := IssueRegistry.register (VStr name) (VClass k) code st in
       r.2 = Ok (IssueRegistry.RObject (VClass k))
       ∧ Notions.registered_as r.1 name k (if is_None code then before else code))
    (* 2: register(name, code=code)(k) *)
    ∧ (∀ name st0,
         IssueRegistry.register (VStr name) VNone code st0
         = (st0, Ok (IssueRegistry.RDecorator
                       (IssueRegistry.DecoratorNamed name code)))
         ∧ let r := IssueRegistry.apply_decorator
                      (IssueRegistry.DecoratorNamed name code) (VClass k) st in
           r.2 = Ok (VClass k)
           ∧ Notions.registered_as r.1 name k
               (if is_None code then before else code))
    (* 3: register(k, code=code) *)
    ∧ (let r := IssueRegistry.register (VClass k) VNone code st in
       r.2 = Ok (IssueRegistry.RObject (VClass k))
       ∧ Notions.registered_as r.1 (cls_name k) k
           (if is_None code || IssueRegistry.hasattr_error_code st (VClass k)
            then before else code))
    (* 4: register(code=code)(k) *)
    ∧ (code ≠ VNone →
       ∀ st0,
         IssueRegistry.register VNone VNone code st0
         = (st0, Ok (IssueRegistry.RDecorator (IssueRegistry.DecoratorAuto code)))
         ∧ let r := IssueRegistry.apply_decorator
                      (IssueRegistry.DecoratorAuto code) (VClass k) st in
           r.2 = Ok (VClass k)
           ∧ Notions.registered_as r.1 (cls_name k) k code).
Proof.
  intros st k code Hm before. repeat split.
  - by rewrite register_direct.
  - rewrite register_direct by done; cbn [fst].
    destruct (is_None code); [apply registered_as_store | apply registered_as_set].
  - rewrite register_direct by done; cbn [fst].
    destruct (is_None code).
    + apply (registered_as_store st name k).
    + apply (registered_as_set _ _ name k code).
  - by rewrite apply_named.
  - rewrite apply_named by done; cbn [fst].
    destruct (is_None code); [apply registered_as_store | apply registered_as_set].
  - rewrite apply_named by done; cbn [fst].
    destruct (is_None code).
    + apply (registered_as_store st name k).
    + apply (registered_as_set _ _ name k code).
  - by rewrite register_kind_only.
  - rewrite register_kind_only by done; cbn [fst].
    destruct (is_None code || _); [apply registered_as_store | apply registered_as_set].
  - rewrite register_kind_only by done; cbn [fst].
    destruct (is_None code || _).
    + apply (registered_as_store st (cls_name k) k).
    + apply (registered_as_set _ _ (cls_name k) k code).
  - unfold IssueRegistry.register; simpl.
    apply is_None_false in H. by rewrite H.
  - by rewrite apply_auto.
  - rewrite apply_auto by done. apply registered_as_set.
  - rewrite apply_auto by done. apply (registered_as_set _ _ (cls_name k) k code).
Qed.

(** [register("QuotaExceeded", SomeKind, code="E2001")] on the empty
    registry. *)
Lemma registration_then_lookup_example :
  Notions.registered_as
    (IssueRegistry.register (VStr "QuotaExceeded") (VClass Samples.SomeKind)
       (VStr "E2001") IssueRegistry.empty).1
    "QuotaExceeded" Samples.SomeKind (VStr "E2001").
Proof.
  exact (proj2 (proj1 (registration_then_lookup IssueRegistry.empty
                         Samples.SomeKind (VStr "E2001") eq_refl)
                  "QuotaExceeded")).
Defined.

(** C3 (a defect of [register], line 90).  The docstring of [register]
    promises that a code which is provided is stored as [_error_code] in
    the class, and three of the four forms store it unconditionally.  The
    kind-only form does not: once [SomeKind] carries "E1",
    [register(SomeKind, code="E2")] completes and returns the class, yet the
    class keeps "E1" and the entry found under "SomeKind" is listed with
    "E1".  On the same registry the direct call
    [register("SomeKind", SomeKind, code="E2")] and the registrar
    [register(code="E2")(SomeKind)] both list "E2". *)
Theorem C3_kind_only_drops_supplied_code :
  let st := (IssueRegistry.register (VStr "A") (VClass Samples.SomeKind)
               (VStr "E1") IssueRegistry.empty).1 in
  let r := IssueRegistry.register (VClass Samples.SomeKind) VNone (VStr "E2") st in
  let direct := IssueRegistry.register (VStr "SomeKind") (VClass Samples.SomeKind)
                  (VStr "E2") st in
  let auto := IssueRegistry.apply_decorator
                (IssueRegistry.DecoratorAuto (VStr "E2")) (VClass Samples.SomeKind) st in
  r.2 = Ok (IssueRegistry.RObject (VClass Samples.SomeKind))
  ∧ IssueRegistry.get r.1 (VStr "SomeKind") = Ok (VClass Samples.SomeKind)
  ∧ IssueRegistry.getattr_error_code r.1 (VClass Samples.SomeKind) VNone = VStr "E1"
  ∧ IssueRegistry.get_all_issues r.1 !! "SomeKind"
    = Some (IssueRegistry.IssueInfo (VClass Samples.SomeKind) (VStr "E1"))
  ∧ VStr "E1" ≠ VStr "E2"
  ∧ IssueRegistry.get_all_issues direct.1 !! "SomeKind"
    = Some (IssueRegistry.IssueInfo (VClass Samples.SomeKind) (VStr "E2"))
  ∧ IssueRegistry.get_all_issues auto.1 !! "SomeKind"
    = Some (IssueRegistry.IssueInfo (VClass Samples.SomeKind) (VStr "E2")).
Proof.
  repeat split; try discriminate; vm_compute; reflexivity.
Qed.

(** C4 (amended).  The code lives on the kind, not on the name.  When a
    name is registered with a user-defined kind [k1] and a code, and then
    again with a kind [k2] and no code, the kind under that name becomes
    [k2] and [get_all_issues] reports for the name whatever
    [getattr(k2, "_error_code", None)] gives: no code when [k2] shows
    none, and the earlier code when [k2] has no code of its own and [k1]
    is its first base class.  No [_error_code] is cleared: the second
    registration writes no attribute, [k1] still carries its code, every
    other name mapped to [k1] still reports it, and registering the same
    kind [k1] again without a code keeps the code under the name. *)
Theorem C4_reregistration_without_code :
  ∀ (st : IssueRegistry.registry) (name : string) (k1 k2 : pyclass) (code : pyval),
    code ≠ VNone →
    cls_immutable k1 = false →
    let st1 := (IssueRegistry.register (VStr name) (VClass k1) code st).1 in
    let st2 := (IssueRegistry.register (VStr name) (VClass k2) VNone st1).1 in
    Notions.registered_as st1 name k1 code
    ∧ Notions.registered_as st2 name k2
        (IssueRegistry.getattr_error_code st1 (VClass k2) VNone)
    ∧ (IssueRegistry.hasattr_error_code st1 (VClass k2) = false →
       IssueRegistry.get_all_issues st2 !! name
       = Some (IssueRegistry.IssueInfo (VClass k2) VNone))
    ∧ IssueRegistry.error_codes st2 = IssueRegistry.error_codes st1
    ∧ IssueRegistry.getattr_error_code st2 (VClass k1) VNone = code
    ∧ (∀ n, n ≠ name →
         IssueRegistry._issues st1 !! n = Some (VClass k1) →
         IssueRegistry.get_all_issues st2 !! n
         = Some (IssueRegistry.IssueInfo (VClass k1) code))
    ∧ Notions.registered_as
        (IssueRegistry.register (VStr name) (VClass k1) VNone st1).1
        name k1 code
    ∧ (∀ rest,
         cls_bases k2 = cls_id k1 :: rest →
         IssueRegistry.error_codes st !! cls_id k2 = None →
         IssueRegistry.get_all_issues st2 !! name
         = Some (IssueRegistry.IssueInfo (VClass k2) code)).
Proof.
  intros st name k1 k2 code Hc Hm st1 st2.
  apply is_None_false in Hc.
  assert (Hst1 : st1 = IssueRegistry.Registry
                         (<[name := VClass k1]> (IssueRegistry._issues st))
                         (<[cls_id k1 := code]> (IssueRegistry.error_codes st))).
  { unfold st1. rewrite register_direct by done. by rewrite Hc. }
  assert (Hst2 : st2 = IssueRegistry.store name (VClass k2) st1).
  { done. }
  assert (Hk1 : IssueRegistry.getattr_error_code st1 (VClass k1) VNone = code).
  { rewrite Hst1. apply getattr_after_setattr. }
  split; [rewrite Hst1; apply registered_as_set|].
  split; [rewrite Hst2; apply registered_as_store|].
  split.
  { intros Hno. rewrite Hst2.
    destruct (registered_as_store st1 name k2) as [_ ->].
    by rewrite hasattr_false_getattr. }
  split; [done|].
  split; [by rewrite Hst2, getattr_store|].
  split.
  { intros n Hne Hn. rewrite Hst2, get_all_issues_store_ne by done.
    rewrite get_all_issues_lookup, Hn.
    cbn [fmap option_fmap option_map]. by rewrite Hk1. }
  split.
  { change (Notions.registered_as (IssueRegistry.store name (VClass k1) st1)
              name k1 code).
    pose proof (registered_as_store st1 name k1) as Hsame.
    by rewrite Hk1 in Hsame. }
  intros rest Hbases Hown. rewrite Hst2.
  destruct (registered_as_store st1 name k2) as [_ ->].
  unfold IssueRegistry.getattr_error_code. rewrite Hst1.
  by rewrite (class_attr_from_first_base _ _ k2 k1 rest code Hown Hbases).
Qed.

(** "N" registered with [SomeKind] and "E1", then with [OtherKind] and no
    code. *)
Lemma C4_reregistration_without_code_witness :
  let st1 := (IssueRegistry.register (VStr "N") (VClass Samples.SomeKind)
                (VStr "E1") IssueRegistry.empty).1 in
  let st2 := (IssueRegistry.register (VStr "N") (VClass Samples.OtherKind)
                VNone st1).1 in
  IssueRegistry.getattr_error_code st2 (VClass Samples.SomeKind) VNone = VStr "E1".
Proof.
  assert (Hne : VStr "E1" ≠ VNone) by discriminate.
  exact (proj1 (proj2 (proj2 (proj2 (proj2
           (C4_reregistration_without_code IssueRegistry.empty "N"
              Samples.SomeKind Samples.OtherKind (VStr "E1") Hne eq_refl)))))).
Defined.

(** C4, as stated, fails: after "N" is registered with [SomeKind] and "E1"
    and then with [OtherKind] and no code, [get_all_issues] reports no code
    for "N"; the earlier "E1" is not reported. *)
Lemma C4_code_not_kept_for_name :
  let st1 := (IssueRegistry.register (VStr "N") (VClass Samples.SomeKind)
                (VStr "E1") IssueRegistry.empty).1 in
  let st2 := (IssueRegistry.register (VStr "N") (VClass Samples.OtherKind)
                VNone st1).1 in
  IssueRegistry.get_all_issues st1 !! "N"
  = Some (IssueRegistry.IssueInfo (VClass Samples.SomeKind) (VStr "E1"))
  ∧ IssueRegistry.get_all_issues st2 !! "N"
    = Some (IssueRegistry.IssueInfo (VClass Samples.OtherKind) VNone)
  ∧ VNone ≠ VStr "E1".
Proof. repeat split; [vm_compute; reflexivity..|discriminate]. Qed.

(** C9 (amended).  The code is the [_error_code] attribute of the kind
    object, so two names registered to the same kind, user-defined or
    built-in, are always listed by [get_all_issues] with the same code.
    When the kind is a user-defined class, a later registration of it that
    supplies a code through the direct call or through a registrar, or
    through the kind-only form while the kind shows no [_error_code] yet,
    changes the code listed under every name mapped to the kind. *)
Theorem C9_code_is_shared_by_kind :
  ∀ (st : IssueRegistry.registry) (n1 n2 : string) (k : pyclass),
    IssueRegistry._issues st !! n1 = Some (VClass k) →
    IssueRegistry._issues st !! n2 = Some (VClass k) →
    (∃ c, IssueRegistry.get_all_issues st !! n1
          = Some (IssueRegistry.IssueInfo (VClass k) c)
          ∧ IssueRegistry.get_all_issues st !! n2
            = Some (IssueRegistry.IssueInfo (VClass k) c))
    ∧ (∀ code, code ≠ VNone → cls_immutable k = false →
       let both (st' : IssueRegistry.registry) (c : pyval) :=
         IssueRegistry.get_all_issues st' !! n1
         = Some (IssueRegistry.IssueInfo (VClass k) c)
         ∧ IssueRegistry.get_all_issues st' !! n2
           = Some (IssueRegistry.IssueInfo (VClass k) c) in
       (∀ name,
          both (IssueRegistry.register (VStr name) (VClass k) code st).1 code)
       ∧ (∀ name,
            both (IssueRegistry.apply_decorator
                    (IssueRegistry.DecoratorNamed name code) (VClass k) st).1 code)
       ∧ both (IssueRegistry.apply_decorator
                 (IssueRegistry.DecoratorAuto code) (VClass k) st).1 code
       ∧ (IssueRegistry.hasattr_error_code st (VClass k) = false →
          both (IssueRegistry.register (VClass k) VNone code st).1 code)).
Proof.
  intros st n1 n2 k H1 H2. split.
  - exists (IssueRegistry.getattr_error_code st (VClass k) VNone).
    rewrite !get_all_issues_lookup, H1, H2. done.
  - intros code Hc Hm both. apply is_None_false in Hc.
    assert (Hset : ∀ name,
      both (IssueRegistry.Registry (<[name := VClass k]> (IssueRegistry._issues st))
              (<[cls_id k := code]> (IssueRegistry.error_codes st))) code).
    { intros name. split; apply get_all_after_set;
        by apply lookup_insert_same_kind. }
    split; [|split; [|split]].
    + intros name. rewrite register_direct by done. rewrite Hc. apply Hset.
    + intros name. rewrite apply_named by done. rewrite Hc. apply Hset.
    + rewrite apply_auto by done. apply Hset.
    + intros Hno. rewrite register_kind_only by done.
      rewrite Hc, Hno; cbn [orb fst]. apply Hset.
Qed.

(** "A" and "B" both registered to [SomeKind]; a later
    [register("C", SomeKind, code="E2")] shows under "A" and "B". *)
Lemma C9_code_is_shared_by_kind_witness :
  let st := (IssueRegistry.register (VStr "B") (VClass Samples.SomeKind) VNone
               (IssueRegistry.register (VStr "A") (VClass Samples.SomeKind)
                  (VStr "E1") IssueRegistry.empty).1).1 in
  let st' := (IssueRegistry.register (VStr "C") (VClass Samples.SomeKind)
                (VStr "E2") st).1 in
  IssueRegistry.get_all_issues st' !! "A"
  = Some (IssueRegistry.IssueInfo (VClass Samples.SomeKind) (VStr "E2"))
  ∧ IssueRegistry.get_all_issues st' !! "B"
    = Some (IssueRegistry.IssueInfo (VClass Samples.SomeKind) (VStr "E2")).
Proof.
  intros st st'.
  assert (Hne : VStr "E2" ≠ VNone) by discriminate.
  assert (HA : IssueRegistry._issues st !! "A" = Some (VClass Samples.SomeKind))
    by (vm_compute; reflexivity).
  assert (HB : IssueRegistry._issues st !! "B" = Some (VClass Samples.SomeKind))
    by (vm_compute; reflexivity).
  exact (proj1 (proj2 (C9_code_is_shared_by_kind st "A" "B" Samples.SomeKind
                         HA HB) (VStr "E2") Hne eq_refl) "C").
Defined.

(** C9, as stated, fails for a built-in kind: with "A" and "B" mapped to
    [Warning], the later [register("C", Warning, code="E2")] raises
    TypeError from [setattr], and "A" and "B" are still listed without a
    code. *)
Lemma C9_builtin_kind_code_not_changed :
  let st := (IssueRegistry.register (VStr "B") (VClass Samples.WarningT) VNone
               (IssueRegistry.register (VStr "A") (VClass Samples.WarningT)
                  VNone IssueRegistry.empty).1).1 in
  let r := IssueRegistry.register (VStr "C") (VClass Samples.WarningT) (VStr "E2") st in
  IssueRegistry._issues st !! "A" = Some (VClass Samples.WarningT)
  ∧ IssueRegistry._issues st !! "B" = Some (VClass Samples.WarningT)
  ∧ (∃ msg, r.2 = Raise (Exn TypeError msg))
  ∧ IssueRegistry.get_all_issues r.1 !! "A"
    = Some (IssueRegistry.IssueInfo (VClass Samples.WarningT) VNone)
  ∧ IssueRegistry.get_all_issues r.1 !! "B"
    = Some (IssueRegistry.IssueInfo (VClass Samples.WarningT) VNone)
  ∧ VNone ≠ VStr "E2".
Proof.
  repeat split; try discriminate; try (vm_compute; reflexivity).
  eexists. vm_compute. reflexivity.
Qed.

(** The guard of the kind-only form (line 90) seen from other names: with
    "A" and "B" mapped to [SomeKind], which carries "E1",
    [register(SomeKind, code="E2")] leaves "E1" listed under "A", "B" and
    "SomeKind". *)
Lemma kind_only_keeps_old_code :
  let st := (IssueRegistry.register (VStr "B") (VClass Samples.SomeKind) VNone
               (IssueRegistry.register (VStr "A") (VClass Samples.SomeKind)
                  (VStr "E1") IssueRegistry.empty).1).1 in
  let r := IssueRegistry.register (VClass Samples.SomeKind) VNone (VStr "E2") st in
  r.2 = Ok (IssueRegistry.RObject (VClass Samples.SomeKind))
  ∧ IssueRegistry.get_all_issues r.1 !! "A"
    = Some (IssueRegistry.IssueInfo (VClass Samples.SomeKind) (VStr "E1"))
  ∧ IssueRegistry.get_all_issues r.1 !! "B"
    = Some (IssueRegistry.IssueInfo (VClass Samples.SomeKind) (VStr "E1"))
  ∧ IssueRegistry.get_all_issues r.1 !! "SomeKind"
    = Some (IssueRegistry.IssueInfo (VClass Samples.SomeKind) (VStr "E1"))
  ∧ VStr "E1" ≠ VStr "E2".
Proof. repeat split; [vm_compute; reflexivity..|discriminate]. Qed.

(** ** The adapter *)

Section adapter_lemmas.
Import IssueRegistry IssueRegistryAdapter.
Implicit Types (st : registry) (msg : pyval) (kwargs extra : list (string * pyval)).

(** [process] in one piece: it needs a dictionary under [extra] (or none at
    all), resolves the code, and writes it with [setdefault]. *)
Lemma process_unfold st msg kwargs :
  process st msg kwargs =
  match call_extra kwargs with
  | Some extra =>
      bind (resolve st extra) (λ error_code,
        Ok (msg, dset "extra" (VDict (dsetdefault "error_code" error_code extra))
                   (dsetdefault "extra" (VDict []) kwargs)))
  | None => Raise (Exn AttributeError "object has no attribute 'get'")
  end.
Proof.
  unfold process, call_extra, resolve, dsetdefault at 1 2.
  destruct (dget "extra" kwargs) as [v|] eqn:Hextra.
  - rewrite Hextra. destruct v; try done.
    destruct (if truthy (default VNone (dget "issue" d)) then _ else _); done.
  - rewrite dget_dset_eq.
    destruct (if truthy (default VNone (dget "issue" [])) then _ else _); done.
Qed.

(** The lookup can only fail on a truthy unhashable [issue]. *)
Lemma resolve_returns st extra :
  (truthy (default VNone (dget "issue" extra)) = true →
   hashable (default VNone (dget "issue" extra)) = true) →
  ∃ code, resolve st extra = Ok code.
Proof.
  unfold resolve. intros H.
  destruct (truthy (default VNone (dget "issue" extra))); simpl; [|eauto].
  specialize (H eq_refl). unfold get.
  destruct (default VNone (dget "issue" extra)); simpl in *;
    try discriminate; eauto.
Qed.

Lemma resolve_no_issue st extra :
  dget "issue" extra = None → resolve st extra = Ok (VStr "XXX").
Proof. unfold resolve. by intros ->. Qed.

Lemma resolve_falsy st extra v :
  dget "issue" extra = Some v → truthy v = false →
  resolve st extra = Ok (VStr "XXX").
Proof. unfold resolve. intros -> Hv; simpl. by rewrite Hv. Qed.

Lemma resolve_name st extra name :
  dget "issue" extra = Some (VStr name) → name ≠ "" →
  resolve st extra =
  Ok (match _issues st !! name with
      | Some obj => if truthy obj then getattr_error_code st obj (VStr "XXX")
                    else VStr "XXX"
      | None => VStr "XXX"
      end).
Proof.
  unfold resolve. intros -> Hne; simpl.
  destruct (String.eqb_spec name ""); [done|]; simpl.
  by destruct (_issues st !! name).
Qed.

(** What [process] forwards when it forwards. *)
Lemma process_forwards st msg kwargs extra code :
  call_extra kwargs = Some extra → resolve st extra = Ok code →
  process st msg kwargs =
  Ok (msg, dset "extra" (VDict (dsetdefault "error_code" code extra))
             (dsetdefault "extra" (VDict []) kwargs)).
Proof. intros He Hr. by rewrite process_unfold, He, Hr. Qed.

(** [process] forwards exactly when the extension is a dictionary (or
    absent) and the lookup of [issue] does not raise. *)
Lemma process_forwards_iff st msg kwargs :
  (∃ r, process st msg kwargs = Ok r)
  ↔ ∃ extra code, call_extra kwargs = Some extra ∧ resolve st extra = Ok code.
Proof.
  rewrite process_unfold. split.
  - intros [r Hr]. destruct (call_extra kwargs) as [extra|]; [|done].
    destruct (resolve st extra) as [code|] eqn:Hres; [|done]. eauto.
  - intros (extra & code & -> & ->). simpl. eauto.
Qed.

Lemma forwarded_extra kwargs extra' :
  dget "extra" (dset "extra" (VDict extra') (dsetdefault "extra" (VDict []) kwargs))
  = Some (VDict extra').
Proof. apply dget_dset_eq. Qed.

Lemma forwarded_other_kwargs kwargs extra' key :
  key ≠ "extra" →
  dget key (dset "extra" (VDict extra') (dsetdefault "extra" (VDict []) kwargs))
  = dget key kwargs.
Proof.
  intros Hne. rewrite dget_dset_ne by done. by rewrite dget_dsetdefault_ne.
Qed.

Lemma log_forwards isEnabledFor st lvl msg kwargs msg' kwargs' :
  process st msg kwargs = Ok (msg', kwargs') → isEnabledFor lvl = true →
  log isEnabledFor st lvl msg kwargs = Ok (Some (Forwarded lvl msg' kwargs')).
Proof. intros Hp He. unfold log. by rewrite He, Hp. Qed.

End adapter_lemmas.

(** C5.  Whenever the adapter forwards a call, the message is forwarded as
    it came, every keyword argument other than [extra] is forwarded as it
    came, and so is every key of the extension other than [error_code]; a
    value the caller supplied under [error_code] is never overwritten (the
    extension is then forwarded unchanged), and only when the caller
    supplied none is the resolved code written under that key.  This holds
    at every level the wrapped logger is enabled for. *)
Theorem C5_set_if_absent_and_frame :
  ∀ (st : IssueRegistry.registry) (msg : pyval)
    (kwargs extra : list (string * pyval)) (code : pyval),
    IssueRegistryAdapter.call_extra kwargs = Some extra →
    IssueRegistryAdapter.resolve st extra = Ok code →
    ∃ kwargs' extra',
      IssueRegistryAdapter.process st msg kwargs = Ok (msg, kwargs')
      ∧ (∀ isEnabledFor lvl, isEnabledFor lvl = true →
           IssueRegistryAdapter.log isEnabledFor st lvl msg kwargs
           = Ok (Some (IssueRegistryAdapter.Forwarded lvl msg kwargs')))
      ∧ dget "extra" kwargs' = Some (VDict extra')
      ∧ (∀ key, key ≠ "extra" → dget key kwargs' = dget key kwargs)
      ∧ (∀ key, key ≠ "error_code" → dget key extra' = dget key extra)
      ∧ (∀ v, dget "error_code" extra = Some v →
              extra' = extra ∧ dget "error_code" extra' = Some v)
      ∧ (dget "error_code" extra = None →
         dget "error_code" extra' = Some code).
Proof.
  intros st msg kwargs extra code He Hr.
  eexists _, (dsetdefault "error_code" code extra).
  split; [by apply process_forwards|].
  split.
  { intros isEnabledFor lvl Hen. apply log_forwards; [|done].
    by apply process_forwards. }
  split; [apply forwarded_extra|].
  split; [intros key Hk; by apply forwarded_other_kwargs|].
  split; [intros key Hk; by apply dget_dsetdefault_ne|].
  split.
  - intros v Hv. by rewrite (dsetdefault_present _ _ _ _ Hv).
  - intros Hno. by rewrite dget_dsetdefault_eq, Hno.
Qed.

(** [logger.error("DUMMY ERROR.", exc_info=True, extra={"issue":
    "QuotaExceeded", "error_code": "E0000", "user": 7})] with
    "QuotaExceeded" registered under "E2001": the caller's "E0000"
    stays. *)
Lemma C5_set_if_absent_and_frame_witness :
  let st := (IssueRegistry.register (VStr "QuotaExceeded")
               (VClass Samples.SomeKind) (VStr "E2001") IssueRegistry.empty).1 in
  let extra := [("issue", VStr "QuotaExceeded"); ("error_code", VStr "E0000");
                ("user", VInt 7)] in
  let kwargs := [("exc_info", VBool true); ("extra", VDict extra)] in
  ∃ kwargs' extra',
    IssueRegistryAdapter.process st (VStr "DUMMY ERROR.") kwargs
    = Ok (VStr "DUMMY ERROR.", kwargs')
    ∧ dget "extra" kwargs' = Some (VDict extra')
    ∧ dget "exc_info" kwargs' = Some (VBool true)
    ∧ extra' = extra.
Proof.
  intros st extra kwargs.
  destruct (C5_set_if_absent_and_frame st (VStr "DUMMY ERROR.") kwargs extra
              (VStr "E2001") eq_refl eq_refl)
    as (kwargs' & extra' & Hp & _ & Hx & Hkw & _ & Hkeep & _).
  exists kwargs', extra'. split; [exact Hp|]. split; [exact Hx|].
  split.
  - rewrite Hkw by discriminate. reflexivity.
  - exact (proj1 (Hkeep (VStr "E0000") eq_refl)).
Defined.

(** C10.  When the extension carries [issue] with a falsy value, the
    registry is not consulted: whatever is registered, also under that very
    name, the resolved code is "XXX", as for a call that references no
    issue, and "XXX" is what the adapter writes with [setdefault], so a call
    that brought no [error_code] of its own is forwarded with "XXX". *)
Theorem C10_falsy_issue_gets_sentinel :
  ∀ (st : IssueRegistry.registry) (msg : pyval)
    (kwargs extra : list (string * pyval)) (v : pyval),
    IssueRegistryAdapter.call_extra kwargs = Some extra →
    dget "issue" extra = Some v →
    truthy v = false →
    IssueRegistryAdapter.resolve st extra = Ok (VStr "XXX")
    ∧ IssueRegistryAdapter.resolve st extra
      = IssueRegistryAdapter.resolve st (dpop "issue" extra)
    ∧ ∃ kwargs' extra',
        IssueRegistryAdapter.process st msg kwargs = Ok (msg, kwargs')
        ∧ dget "extra" kwargs' = Some (VDict extra')
        ∧ extra' = dsetdefault "error_code" (VStr "XXX") extra
        ∧ (dget "error_code" extra = None →
           dget "error_code" extra' = Some (VStr "XXX")).
Proof.
  intros st msg kwargs extra v He Hi Hv.
  assert (Hr : IssueRegistryAdapter.resolve st extra = Ok (VStr "XXX"))
    by (by eapply resolve_falsy).
  split; [done|]. split.
  { rewrite Hr. symmetry. apply resolve_no_issue, dget_dpop_eq. }
  eexists _, _. split; [by apply process_forwards|].
  split; [apply forwarded_extra|]. split; [done|].
  intros Hno. by rewrite dget_dsetdefault_eq, Hno.
Qed.

(** [logger.error("m", extra={"issue": ""})] while a kind with code "E1" is
    registered under the empty name. *)
Lemma C10_falsy_issue_gets_sentinel_witness :
  let st := (IssueRegistry.register (VStr "") (VClass Samples.SomeKind)
               (VStr "E1") IssueRegistry.empty).1 in
  IssueRegistry.get_all_issues st !! ""
  = Some (IssueRegistry.IssueInfo (VClass Samples.SomeKind) (VStr "E1"))
  ∧ IssueRegistryAdapter.resolve st [("issue", VStr "")] = Ok (VStr "XXX").
Proof.
  intros st. split; [vm_compute; reflexivity|].
  exact (proj1 (C10_falsy_issue_gets_sentinel st (VStr "m")
                  [("extra", VDict [("issue", VStr "")])]
                  [("issue", VStr "")] (VStr "") eq_refl eq_refl eq_refl)).
Defined.

(** C1 (amended).  Whenever the adapter forwards a call, at whatever level,
    the forwarded extension has an [error_code] key.  A value the caller
    supplied under that key is kept.  Otherwise the value is the resolved
    code: the [_error_code] of the kind registered under the name that
    [issue] gives, when that name is not empty and the kind shows such an
    attribute (then it is the code [get_all_issues] lists for the name);
    and the sentinel "XXX" when there is no [issue] key, when its value is
    falsy, when the name is not registered, or when the kind registered
    under it shows no [_error_code]. *)
Theorem C1_error_code_always_present :
  ∀ (st : IssueRegistry.registry) (msg : pyval)
    (kwargs extra : list (string * pyval)) (code : pyval),
    IssueRegistryAdapter.call_extra kwargs = Some extra →
    IssueRegistryAdapter.resolve st extra = Ok code →
    (∃ kwargs' extra',
       IssueRegistryAdapter.process st msg kwargs = Ok (msg, kwargs')
       ∧ (∀ isEnabledFor lvl, isEnabledFor lvl = true →
            IssueRegistryAdapter.log isEnabledFor st lvl msg kwargs
            = Ok (Some (IssueRegistryAdapter.Forwarded lvl msg kwargs')))
       ∧ dget "extra" kwargs' = Some (VDict extra')
       ∧ dget "error_code" extra'
         = Some (default code (dget "error_code" extra)))
    ∧ (∀ name k c,
         dget "issue" extra = Some (VStr name) → name ≠ "" →
         IssueRegistry.get_all_issues st !! name
         = Some (IssueRegistry.IssueInfo (VClass k) c) →
         IssueRegistry.hasattr_error_code st (VClass k) = true →
         code = c)
    ∧ (∀ name k,
         dget "issue" extra = Some (VStr name) →
         IssueRegistry._issues st !! name = Some (VClass k) →
         IssueRegistry.hasattr_error_code st (VClass k) = false →
         code = VStr "XXX")
    ∧ (∀ name,
         dget "issue" extra = Some (VStr name) →
         IssueRegistry._issues st !! name = None →
         code = VStr "XXX")
    ∧ (∀ v, dget "issue" extra = Some v → truthy v = false → code = VStr "XXX")
    ∧ (dget "issue" extra = None → code = VStr "XXX").
Proof.
  intros st msg kwargs extra code He Hr. split.
  { eexists _, _. split; [by apply process_forwards|]. split.
    { intros isEnabledFor lvl Hen. apply log_forwards; [|done].
      by apply process_forwards. }
    split; [apply forwarded_extra|]. apply dget_dsetdefault_eq. }
  split.
  { intros name k c Hi Hne Hall Hhas.
    rewrite (resolve_name st extra name Hi Hne) in Hr.
    rewrite get_all_issues_lookup in Hall.
    destruct (IssueRegistry._issues st !! name) as [obj|]; [|done].
    simpl in Hall. injection Hall as -> <-. simpl in Hr.
    injection Hr as <-.
    unfold IssueRegistry.hasattr_error_code in Hhas.
    apply bool_decide_eq_true in Hhas as [c Hc].
    unfold IssueRegistry.getattr_error_code. by rewrite Hc. }
  split.
  { intros name k Hi Hreg Hno.
    destruct (decide (name = "")) as [->|Hne].
    - rewrite (resolve_falsy st extra (VStr "") Hi eq_refl) in Hr. congruence.
    - rewrite (resolve_name st extra name Hi Hne), Hreg in Hr.
      cbn [truthy] in Hr.
      rewrite hasattr_false_getattr in Hr by done. congruence. }
  split.
  { intros name Hi Hreg.
    destruct (decide (name = "")) as [->|Hne].
    - rewrite (resolve_falsy st extra (VStr "") Hi eq_refl) in Hr. congruence.
    - rewrite (resolve_name st extra name Hi Hne), Hreg in Hr. congruence. }
  split.
  { intros v Hi Hv. rewrite (resolve_falsy st extra v Hi Hv) in Hr. congruence. }
  intros Hi. rewrite (resolve_no_issue st extra Hi) in Hr. congruence.
Qed.

(** The scenario of the specification: "QuotaExceeded" registered with
    "E2001", then [logger.error("m", extra={"issue": "QuotaExceeded"})]. *)
Lemma C1_error_code_always_present_witness :
  let st := (IssueRegistry.register (VStr "QuotaExceeded")
               (VClass Samples.SomeKind) (VStr "E2001") IssueRegistry.empty).1 in
  let extra := [("issue", VStr "QuotaExceeded")] in
  ∃ kwargs' extra',
    IssueRegistryAdapter.log (λ _, true) st ERROR (VStr "m") [("extra", VDict extra)]
    = Ok (Some (IssueRegistryAdapter.Forwarded ERROR (VStr "m") kwargs'))
    ∧ dget "extra" kwargs' = Some (VDict extra')
    ∧ dget "error_code" extra' = Some (VStr "E2001").
Proof.
  intros st extra.
  destruct (proj1 (C1_error_code_always_present st (VStr "m")
                     [("extra", VDict extra)] extra (VStr "E2001")
                     eq_refl eq_refl))
    as (kwargs' & extra' & _ & Hlog & Hx & Hcode).
  exists kwargs', extra'.
  split; [exact (Hlog (λ _, true) ERROR eq_refl)|].
  split; [exact Hx|exact Hcode].
Defined.

(** C1, as stated, fails on three grounds.  With "QuotaExceeded" registered
    under "E2001", "Plain" registered without a code and a kind with "E1"
    registered under the empty name:
    - a call that names "QuotaExceeded" and brings its own [error_code] is
      forwarded with the caller's value, not "E2001";
    - a call that names "Plain" is forwarded with "XXX", while the entry has
      no code;
    - a call whose [issue] is the empty name is forwarded with "XXX", not
      "E1". *)
Lemma C1_error_code_differs_from_entry_code :
  let st :=
    (IssueRegistry.register (VStr "") (VClass Samples.Nameless) (VStr "E1")
       (IssueRegistry.register (VStr "Plain") (VClass Samples.OtherKind) VNone
          (IssueRegistry.register (VStr "QuotaExceeded")
             (VClass Samples.SomeKind) (VStr "E2001")
             IssueRegistry.empty).1).1).1 in
  (IssueRegistry.get_all_issues st !! "QuotaExceeded"
   = Some (IssueRegistry.IssueInfo (VClass Samples.SomeKind) (VStr "E2001"))
   ∧ IssueRegistryAdapter.process st (VStr "m")
       [("extra", VDict [("issue", VStr "QuotaExceeded");
                         ("error_code", VStr "E0000")])]
     = Ok (VStr "m",
           [("extra", VDict [("issue", VStr "QuotaExceeded");
                             ("error_code", VStr "E0000")])]))
  ∧ (IssueRegistry.get_all_issues st !! "Plain"
     = Some (IssueRegistry.IssueInfo (VClass Samples.OtherKind) VNone)
     ∧ IssueRegistryAdapter.process st (VStr "m")
         [("extra", VDict [("issue", VStr "Plain")])]
       = Ok (VStr "m",
             [("extra", VDict [("issue", VStr "Plain");
                               ("error_code", VStr "XXX")])]))
  ∧ (IssueRegistry.get_all_issues st !! ""
     = Some (IssueRegistry.IssueInfo (VClass Samples.Nameless) (VStr "E1"))
     ∧ IssueRegistryAdapter.process st (VStr "m")
         [("extra", VDict [("issue", VStr "")])]
       = Ok (VStr "m",
             [("extra", VDict [("issue", VStr "");
                               ("error_code", VStr "XXX")])])).
Proof. repeat split; vm_compute; reflexivity. Qed.

(** ** The factory of logs/core/factory.py *)

Section factory_lemmas.
Import LogsCoreFactory.
Implicit Types (E : env) (w : world) (e : exn) (evs : list event).

Lemma after_after evs1 evs2 w : after evs2 (after evs1 w) = after (evs1 ++ evs2) w.
Proof. unfold after; simpl. by rewrite app_assoc. Qed.

Lemma after_nil w : after [] w = w.
Proof. destruct w. unfold after; simpl. by rewrite app_nil_r. Qed.

Lemma emit_after ev w : emit ev w = (after [ev] w, Ok tt).
Proof. done. Qed.

Lemma loads_after evs w :
  loads (after evs w) = loads w + length (List.filter is_open evs).
Proof. unfold loads, after; simpl. by rewrite List.filter_app, length_app. Qed.

(** The suite of the [try], step by step. *)
Lemma try_suite_cases E path w :
  try_suite E path w =
  match os_open E path with
  | Raise e => (after [EvOpen path] w, Raise e)
  | Ok file =>
      match yaml_safe_load E file with
      | Raise e => (after [EvOpen path; EvSafeLoad] w, Raise e)
      | Ok config =>
          (after [EvOpen path; EvSafeLoad; EvDictConfig config] w,
           match dictConfig_error E config with
           | Some e => Raise e
           | None => Ok tt
           end)
      end
  end.
Proof.
  unfold try_suite, mbind, M_bind, bindM, lift, mret, M_ret, retM, raise.
  rewrite emit_after.
  destruct (os_open E path) as [file|e]; [|done].
  rewrite emit_after, after_after.
  destruct (yaml_safe_load E file) as [config|e]; [|done].
  rewrite emit_after, after_after.
  by destruct (dictConfig_error E config).
Qed.

Lemma setup_handler_cases e w :
  setup_handler e w =
  if is_missing_or_unparseable (exc_type e)
  then (after [EvBasicConfig INFO; EvWarning fallback_warning] w, Ok tt)
  else if is_Exception (exc_type e) then (w, Raise (wrap e))
  else (w, Raise e).
Proof.
  unfold setup_handler.
  destruct (is_missing_or_unparseable (exc_type e)).
  - unfold mbind, M_bind, bindM. by rewrite !emit_after, after_after.
  - by destruct (is_Exception (exc_type e)).
Qed.

Lemma setup_logging_raised E config_path w w1 e :
  try_suite E (effective_path E config_path) w = (w1, Raise e) →
  _setup_logging E config_path w = setup_handler e w1.
Proof. unfold _setup_logging, try_except. by intros ->. Qed.

Lemma setup_logging_returned E config_path w w1 :
  try_suite E (effective_path E config_path) w = (w1, Ok tt) →
  _setup_logging E config_path w = (w1, Ok tt).
Proof. unfold _setup_logging, try_except. by intros ->. Qed.

(** Setup opens the configuration once and touches neither the flag nor
    the directories. *)
Lemma setup_logging_effect E config_path w :
  ∃ evs, Forall (λ ev, is_open ev = false) evs
         ∧ (_setup_logging E config_path w).1
           = after (EvOpen (effective_path E config_path) :: evs) w.
Proof.
  unfold _setup_logging, try_except. rewrite try_suite_cases.
  set (path := effective_path E config_path).
  destruct (os_open E path) as [file|e].
  - destruct (yaml_safe_load E file) as [config|e].
    + destruct (dictConfig_error E config) as [e|].
      * rewrite setup_handler_cases.
        destruct (is_missing_or_unparseable (exc_type e)).
        -- rewrite after_after. eexists; split; [|done].
           repeat constructor.
        -- eexists; split;
             [|by destruct (is_Exception (exc_type e))].
           repeat constructor.
      * eexists; split; [|done]. repeat constructor.
    + rewrite setup_handler_cases.
      destruct (is_missing_or_unparseable (exc_type e)).
      * rewrite after_after. eexists; split; [|done]. repeat constructor.
      * eexists; split; [|by destruct (is_Exception (exc_type e))].
        repeat constructor.
  - rewrite setup_handler_cases.
    destruct (is_missing_or_unparseable (exc_type e)).
    + rewrite after_after. eexists; split; [|done]. repeat constructor.
    + exists []; split; [constructor|].
      by destruct (is_Exception (exc_type e)).
Qed.

Lemma start_queue_listener_effect E w :
  ∃ evs, Forall (λ ev, is_open ev = false) evs
         ∧ (_start_queue_listener E w).1 = after evs w.
Proof.
  unfold _start_queue_listener.
  destruct (queueHandler E) as [[e|]|].
  - exists [EvListenerStart]. split; [repeat constructor|done].
  - exists [EvListenerStart; EvAtexitRegister].
    split; [repeat constructor|].
    unfold mbind, M_bind, bindM. by rewrite !emit_after, after_after.
  - exists []. split; [constructor|]. by rewrite after_nil.
Qed.

Lemma Forall_not_open_app evs1 evs2 :
  Forall (λ ev, is_open ev = false) evs1 →
  Forall (λ ev, is_open ev = false) evs2 →
  Forall (λ ev, is_open ev = false) (evs1 ++ evs2).
Proof. intros. by apply Forall_app. Qed.

Lemma filter_not_open evs :
  Forall (λ ev, is_open ev = false) evs → List.filter is_open evs = [].
Proof.
  induction 1 as [|ev evs Hev _ IH]; simpl; [done|]. by rewrite Hev.
Qed.

(** A call to [_initialize] while the flag is down: one load, and the flag
    goes up exactly when nothing is raised. *)
Lemma initialize_uninitialized E w :
  _initialized w = false →
  ∃ evs, Forall (λ ev, is_open ev = false) evs
    ∧ (_initialize E w
       = (World true (dirs w)
            (trace w ++ EvOpen (DEFAULT_CONFIG_PATH E) :: evs), Ok tt)
       ∨ ∃ e, _initialize E w
              = (after (EvOpen (DEFAULT_CONFIG_PATH E) :: evs) w, Raise e)).
Proof.
  intros Hflag. unfold _initialize. rewrite Hflag; simpl.
  unfold mbind, M_bind, bindM.
  destruct (setup_logging_effect E None w) as (evs1 & Hevs1 & Hw1).
  destruct (_setup_logging E None w) as [w1 r1]; simpl in Hw1; subst w1.
  destruct r1 as [[]|e]; [|exists evs1; split; [done|right; eauto]].
  destruct (start_queue_listener_effect E
              (after (EvOpen (effective_path E None) :: evs1) w))
    as (evs2 & Hevs2 & Hw2).
  destruct (_start_queue_listener E _) as [w2 r2]; simpl in Hw2; subst w2.
  rewrite after_after.
  exists (evs1 ++ evs2)%list. split; [by apply Forall_not_open_app|].
  destruct r2 as [[]|e]; [left|right; eauto]. done.
Qed.

Lemma initialize_initialized E w :
  _initialized w = true → _initialize E w = (w, Ok tt).
Proof. intros Hflag. unfold _initialize. by rewrite Hflag. Qed.

(** [create_logger] once the flag is up: no setup, only the logger is
    fetched. *)
Lemma create_logger_initialized E name w :
  _initialized w = true →
  create_logger E name w = (after [EvGetLogger name] w, Ok (Adapter name)).
Proof.
  intros Hflag. unfold create_logger, mbind, M_bind, bindM.
  by rewrite initialize_initialized.
Qed.

(** [create_logger] while the flag is down. *)
Lemma create_logger_uninitialized E name w :
  _initialized w = false →
  ∃ evs, Forall (λ ev, is_open ev = false) evs
    ∧ (create_logger E name w
       = (World true (dirs w)
            (trace w ++ EvOpen (DEFAULT_CONFIG_PATH E) :: evs), Ok (Adapter name))
       ∨ ∃ e, create_logger E name w
              = (after (EvOpen (DEFAULT_CONFIG_PATH E) :: evs) w, Raise e)).
Proof.
  intros Hflag.
  destruct (initialize_uninitialized E w Hflag) as (evs & Hevs & [Hok|[e He]]).
  - exists (evs ++ [EvGetLogger name])%list. split.
    + apply Forall_not_open_app; [done|]. by repeat constructor.
    + left. unfold create_logger, mbind, M_bind, bindM. rewrite Hok.
      rewrite emit_after. unfold after; simpl.
      by rewrite <- app_assoc.
  - exists evs. split; [done|]. right. exists e.
    unfold create_logger, mbind, M_bind, bindM. by rewrite He.
Qed.

(** In one statement: what a call does to the flag and to the number of
    loads. *)
Lemma create_logger_step E name w :
  let r := create_logger E name w in
  dirs r.1 = dirs w
  ∧ loads r.1 = (if _initialized w then loads w else S (loads w))
  ∧ (_initialized w = true → _initialized r.1 = true ∧ r.2 = Ok (Adapter name))
  ∧ (_initialized r.1 = true ↔ r.2 = Ok (Adapter name))
  ∧ (∀ a, r.2 = Ok a → a = Adapter name).
Proof.
  intros r. subst r. destruct (_initialized w) eqn:Hflag.
  - rewrite create_logger_initialized by done. simpl.
    rewrite loads_after; simpl.
    split; [done|]. split; [lia|]. split; [done|]. split; [done|congruence].
  - destruct (create_logger_uninitialized E name w Hflag)
      as (evs & Hevs & [->|[e ->]]); simpl.
    + split; [done|]. split.
      { unfold loads; simpl. rewrite List.filter_app, length_app; simpl.
        rewrite (filter_not_open evs) by done. simpl. lia. }
      split; [done|]. split; [done|congruence].
    + rewrite loads_after; simpl. rewrite (filter_not_open evs) by done; simpl.
      split; [done|]. split; [lia|]. split; [done|].
      split; [|done]. rewrite Hflag. split; discriminate.
Qed.

(** Once the flag is up, every later call leaves it up, loads nothing and
    returns its adapter. *)
Lemma run_initialized calls w (i : nat) r :
  _initialized w = true →
  run calls w !! i = Some r →
  _initialized r.1 = true ∧ loads r.1 = loads w ∧ ∃ a, r.2 = Ok a.
Proof.
  revert w i. induction calls as [|[E name] rest IH]; intros w i Hflag Hr;
    [done|].
  pose proof (create_logger_step E name w) as (_ & Hloads & Hup & _).
  rewrite Hflag in Hloads. destruct (Hup Hflag) as [Hflag' Hok].
  destruct i as [|i]; simpl in Hr.
  - injection Hr as <-. eauto.
  - destruct (IH _ _ Hflag' Hr) as (? & Hl & ?). rewrite Hl, Hloads. eauto.
Qed.

Lemma run_never_reset calls w (i j : nat) ri rj :
  (i ≤ j)%nat →
  run calls w !! i = Some ri → run calls w !! j = Some rj →
  _initialized ri.1 = true →
  _initialized rj.1 = true ∧ loads rj.1 = loads ri.1.
Proof.
  revert w i j. induction calls as [|[E name] rest IH]; intros w i j Hij Hi Hj Hflag;
    [done|].
  destruct i as [|i]; simpl in Hi.
  - injection Hi as <-. destruct j as [|j]; simpl in Hj.
    + by injection Hj as <-.
    + destruct (run_initialized _ _ _ _ Hflag Hj) as (? & ? & _). done.
  - destruct j as [|j]; [lia|]. simpl in Hj.
    eapply (IH _ i j); [lia|eassumption..].
Qed.

(** While the flag is still down after call [i], every call so far has
    gone through a load. *)
Lemma run_uninitialized_loads calls w (i : nat) ri :
  run calls w !! i = Some ri →
  _initialized ri.1 = false →
  _initialized w = false ∧ loads ri.1 = (loads w + S i)%nat.
Proof.
  revert w i. induction calls as [|[E name] rest IH]; intros w i Hi Hflag;
    [done|].
  pose proof (create_logger_step E name w) as (_ & Hloads & Hup & _).
  destruct i as [|i]; simpl in Hi.
  - injection Hi as <-.
    destruct (_initialized w) eqn:Hw.
    + destruct (Hup eq_refl) as [Hflag' _]. congruence.
    + split; [done|]. rewrite Hloads. lia.
  - destruct (IH _ _ Hi Hflag) as [Hflag1 Hl].
    destruct (_initialized w) eqn:Hw.
    + destruct (Hup eq_refl) as [Hflag' _]. congruence.
    + split; [done|]. rewrite Hl, Hloads. lia.
Qed.

(** The flag is up after call [i] only if a call up to [i] returned
    normally, when the run starts with the flag down. *)
Lemma run_flag_from_success calls w (i : nat) ri :
  _initialized w = false →
  run calls w !! i = Some ri →
  _initialized ri.1 = true →
  ∃ (i' : nat) r' a, (i' ≤ i)%nat ∧ run calls w !! i' = Some r' ∧ r'.2 = Ok a.
Proof.
  revert w i. induction calls as [|[E name] rest IH]; intros w i Hw Hi Hflag;
    [done|].
  pose proof (create_logger_step E name w) as (_ & _ & _ & Hiff & _).
  destruct (_initialized (create_logger E name w).1) eqn:Hflag1.
  - exists 0, (create_logger E name w), (Adapter name).
    split; [lia|]. split; [done|]. by apply Hiff.
  - destruct i as [|i]; simpl in Hi.
    + injection Hi as <-. congruence.
    + destruct (IH _ _ Hflag1 Hi Hflag) as (i' & r' & a & Hle & Hr' & Hok).
      exists (S i'), r', a. split; [lia|done].
Qed.

Lemma run_success_sets_flag calls w (i : nat) ri a :
  run calls w !! i = Some ri → ri.2 = Ok a → _initialized ri.1 = true.
Proof.
  revert w i. induction calls as [|[E name] rest IH]; intros w i Hi Hok;
    [done|].
  destruct i as [|i]; simpl in Hi.
  - injection Hi as <-.
    pose proof (create_logger_step E name w) as (_ & _ & _ & Hiff & Ha).
    apply Hiff. rewrite Hok. f_equal. by apply Ha.
  - by eapply IH.
Qed.

Lemma run_flag_up_returned calls w (j : nat) rj :
  run calls w !! j = Some rj → _initialized rj.1 = true → ∃ a, rj.2 = Ok a.
Proof.
  revert w j. induction calls as [|[E name] rest IH]; intros w j Hj Hflag;
    [done|].
  destruct j as [|j]; simpl in Hj; [|by eapply IH].
  injection Hj as <-.
  pose proof (create_logger_step E name w) as (_ & _ & _ & Hiff & _).
  apply Hiff in Hflag. eauto.
Qed.

(** The first call of a process whose configuration file is missing. *)
Lemma create_logger_fallback E name w e :
  _initialized w = false →
  os_open E (DEFAULT_CONFIG_PATH E) = Raise e →
  is_missing_or_unparseable (exc_type e) = true →
  queueHandler E = None →
  create_logger E name w
  = (World true (dirs w)
       (trace w ++ [EvOpen (DEFAULT_CONFIG_PATH E); EvBasicConfig INFO;
                    EvWarning fallback_warning; EvGetLogger name]),
     Ok (Adapter name)).
Proof.
  intros Hflag Hopen He Hq.
  unfold create_logger, _initialize, mbind, M_bind, bindM.
  rewrite Hflag; simpl.
  unfold _setup_logging, try_except. rewrite try_suite_cases; simpl.
  rewrite Hopen, setup_handler_cases, He.
  unfold _start_queue_listener. rewrite Hq. simpl.
  by rewrite <- !app_assoc.
Qed.

End factory_lemmas.

(** C6 (amended).  The flag [_initialized] is down at process start; once
    it is up it is never taken down again, and no call made from then on
    opens the configuration; and it is up after a call exactly when some
    call so far has returned normally.  After a [create_logger] that
    returned normally no later call opens the configuration again and every
    later call returns.  A call that leaves the flag down has raised, and
    every call made while the flag is down goes through the load: while the
    flag is still down after call number [i] (counted from 0), the
    configuration has been opened [i + 1] times.  When the first call finds
    the configuration file missing and no queue handler is configured, it
    falls back and returns, and the configuration is opened once in the
    whole run. *)
Theorem C6_setup_runs_until_it_succeeds :
  ∀ (calls : list (env * string)) (existing : gset string),
    let rs := LogsCoreFactory.run calls (initial existing) in
    _initialized (initial existing) = false
    ∧ (∀ (i j : nat) ri rj,
         (i ≤ j)%nat → rs !! i = Some ri → rs !! j = Some rj →
         _initialized ri.1 = true →
         _initialized rj.1 = true
         ∧ LogsCoreFactory.loads rj.1 = LogsCoreFactory.loads ri.1)
    ∧ (∀ (i : nat) ri,
         rs !! i = Some ri →
         (_initialized ri.1 = true
          ↔ ∃ (i' : nat) r' a, (i' ≤ i)%nat ∧ rs !! i' = Some r' ∧ r'.2 = Ok a))
    ∧ (∀ (i j : nat) ri rj a,
         (i < j)%nat → rs !! i = Some ri → ri.2 = Ok a → rs !! j = Some rj →
         LogsCoreFactory.loads rj.1 = LogsCoreFactory.loads ri.1
         ∧ ∃ a', rj.2 = Ok a')
    ∧ (∀ (i : nat) ri,
         rs !! i = Some ri → _initialized ri.1 = false →
         LogsCoreFactory.loads ri.1 = S i
         ∧ ∃ e, ri.2 = Raise e)
    ∧ (∀ E name rest e,
         calls = (E, name) :: rest →
         os_open E (DEFAULT_CONFIG_PATH E) = Raise e →
         exc_type e = FileNotFoundError →
         queueHandler E = None →
         ∀ (j : nat) rj, rs !! j = Some rj →
           LogsCoreFactory.loads rj.1 = 1 ∧ _initialized rj.1 = true
           ∧ ∃ a, rj.2 = Ok a).
Proof.
  intros calls existing rs.
  split; [done|].
  split; [intros i j ri rj; apply run_never_reset|].
  split.
  { intros i ri Hi. split.
    - by apply run_flag_from_success.
    - intros (i' & r' & a & Hle & Hr' & Hok).
      eapply (run_never_reset calls _ i' i); [done..|].
      by eapply run_success_sets_flag. }
  split.
  { intros i j ri rj a Hlt Hi Hok Hj.
    assert (Hflag : _initialized ri.1 = true)
      by (by eapply run_success_sets_flag).
    destruct (run_never_reset calls (initial existing) i j ri rj) as [Hfj Hlj];
      [lia|done..|].
    split; [done|].
    by eapply run_flag_up_returned. }
  split.
  { intros i ri Hi Hflag.
    destruct (run_uninitialized_loads _ _ _ _ Hi Hflag) as [_ Hl].
    split; [rewrite Hl; unfold LogsCoreFactory.loads; simpl; lia|].
    destruct ri as [wi [ai|ei]]; [|eauto]. exfalso.
    assert (_initialized wi = true)
      by (by eapply (run_success_sets_flag calls _ i (wi, Ok ai))).
    simpl in Hflag. congruence. }
  intros E name rest e Hcalls Hopen He Hq j rj Hj.
  subst rs. rewrite Hcalls in Hj. simpl in Hj.
  rewrite (create_logger_fallback E name _ e) in Hj; [|done|done| |done].
  2: { by rewrite He. }
  destruct j as [|j]; simpl in Hj.
  - injection Hj as <-. simpl. split; [done|]. eauto.
  - pose proof (λ Hup, run_initialized _ _ _ _ Hup Hj) as Hlater.
    destruct (Hlater eq_refl) as (Hf & Hl & Ha).
    split; [by rewrite Hl|]. done.
Qed.

(** A process whose configuration file is missing: the first
    [create_logger] falls back, the second does not load again. *)
Lemma C6_setup_runs_until_it_succeeds_witness :
  let rs := LogsCoreFactory.run
              [(Samples.env_missing, "a"); (Samples.env_missing, "b")]
              (initial ∅) in
  ∃ rj, rs !! 1 = Some rj
        ∧ LogsCoreFactory.loads rj.1 = 1 ∧ _initialized rj.1 = true
        ∧ ∃ a, rj.2 = Ok a.
Proof.
  intros rs.
  exists (LogsCoreFactory.create_logger Samples.env_missing "b"
            (LogsCoreFactory.create_logger Samples.env_missing "a"
               (initial ∅)).1).
  split; [reflexivity|].
  exact (proj2 (proj2 (proj2 (proj2 (proj2
           (C6_setup_runs_until_it_succeeds
              [(Samples.env_missing, "a"); (Samples.env_missing, "b")] ∅)))))
           Samples.env_missing "a" [(Samples.env_missing, "b")] _
           eq_refl eq_refl eq_refl eq_refl 1 _ eq_refl).
Defined.

(** C6, as stated, fails: when the backend refuses the configuration, the
    first [create_logger] raises and leaves the flag down, and the second
    call opens the configuration a second time. *)
Lemma C6_load_repeated_after_failure :
  let rs := LogsCoreFactory.run
              [(Samples.env_refused, "a"); (Samples.env_refused, "b")]
              (initial ∅) in
  ∃ w1 w2,
    rs = [(w1, Raise (LogsCoreFactory.wrap
                        (Exn ValueError "Unable to configure handler 'file'")));
          (w2, Raise (LogsCoreFactory.wrap
                        (Exn ValueError "Unable to configure handler 'file'")))]
    ∧ _initialized w1 = false ∧ LogsCoreFactory.loads w1 = 1
    ∧ _initialized w2 = false ∧ LogsCoreFactory.loads w2 = 2.
Proof. eexists _, _. split; [reflexivity|]. repeat split. Qed.

(** An exception of setup reaches the caller of [create_logger]
    unchanged. *)
Lemma create_logger_setup_raises E name w w1 e :
  _initialized w = false →
  LogsCoreFactory._setup_logging E None w = (w1, Raise e) →
  LogsCoreFactory.create_logger E name w = (w1, Raise e).
Proof.
  intros Hflag Hs.
  unfold LogsCoreFactory.create_logger, LogsCoreFactory._initialize,
    mbind, M_bind, bindM.
  rewrite Hflag; simpl. by rewrite Hs.
Qed.

(** C7.  In [_setup_logging], a configuration file that is missing
    ([open] raises [FileNotFoundError]) or that does not parse
    ([yaml.safe_load] raises [YAMLError]) is recovered from: the default
    configuration [basicConfig(level=INFO)] is applied, a warning is
    logged, and nothing is raised; the same holds wherever in the try suite
    one of these two classes is raised.  An error of any other class
    ([TypeError], [AttributeError], [RuntimeError], [PermissionError],
    [FileExistsError], [ValueError]: every class of the model but the two
    above and [KeyboardInterrupt], which is no [Exception]) raised while
    the configuration is loaded and applied, in particular one raised by
    [dictConfig], ends setup with a [RuntimeError] whose message carries
    the text of the cause; no fallback is applied, and [create_logger]
    passes the error on to its caller and stays uninitialised. *)
Theorem C7_setup_failure_modes :
  ∀ (E : env) (config_path : option string) (w : world),
    let path := LogsCoreFactory.effective_path E config_path in
    (∀ e, os_open E path = Raise e →
          exc_type e = FileNotFoundError →
          LogsCoreFactory._setup_logging E config_path w
          = (after [EvOpen path; EvBasicConfig INFO;
                    EvWarning "Falling back to default logging config..."] w,
             Ok tt))
    ∧ (∀ file e, os_open E path = Ok file →
          yaml_safe_load E file = Raise e →
          exc_type e = YAMLError →
          LogsCoreFactory._setup_logging E config_path w
          = (after [EvOpen path; EvSafeLoad; EvBasicConfig INFO;
                    EvWarning "Falling back to default logging config..."] w,
             Ok tt))
    ∧ (∀ w1 e, LogsCoreFactory.try_suite E path w = (w1, Raise e) →
          exc_type e = FileNotFoundError ∨ exc_type e = YAMLError →
          LogsCoreFactory._setup_logging E config_path w
          = (after [EvBasicConfig INFO;
                    EvWarning "Falling back to default logging config..."] w1,
             Ok tt))
    ∧ (∀ w1 e, LogsCoreFactory.try_suite E path w = (w1, Raise e) →
          exc_type e ≠ FileNotFoundError →
          exc_type e ≠ YAMLError →
          exc_type e ≠ KeyboardInterrupt →
          LogsCoreFactory._setup_logging E config_path w
          = (w1, Raise (Exn RuntimeError
                          ("Unexpected error setting up logging: "
                           +:+ exc_str e))))
    ∧ (∀ file config e, os_open E path = Ok file →
          yaml_safe_load E file = Ok config →
          dictConfig_error E config = Some e →
          exc_type e ≠ FileNotFoundError →
          exc_type e ≠ YAMLError →
          exc_type e ≠ KeyboardInterrupt →
          LogsCoreFactory._setup_logging E config_path w
          = (after [EvOpen path; EvSafeLoad; EvDictConfig config] w,
             Raise (Exn RuntimeError
                      ("Unexpected error setting up logging: " +:+ exc_str e))))
    ∧ (∀ w1 e name, config_path = None → _initialized w = false →
          LogsCoreFactory._setup_logging E config_path w = (w1, Raise e) →
          LogsCoreFactory.create_logger E name w = (w1, Raise e)
          ∧ _initialized w1 = false).
Proof.
  intros E config_path w path.
  split.
  { intros e Hopen He.
    rewrite (setup_logging_raised E config_path w (after [EvOpen path] w) e).
    - rewrite setup_handler_cases, He; simpl. by rewrite after_after.
    - rewrite try_suite_cases. fold path. by rewrite Hopen. }
  split.
  { intros file e Hopen Hload He.
    rewrite (setup_logging_raised E config_path w
               (after [EvOpen path; EvSafeLoad] w) e).
    - rewrite setup_handler_cases, He; simpl. by rewrite after_after.
    - rewrite try_suite_cases. fold path. by rewrite Hopen, Hload. }
  split.
  { intros w1 e Hsuite He.
    rewrite (setup_logging_raised E config_path w w1 e) by done.
    rewrite setup_handler_cases. by destruct He as [-> | ->]. }
  split.
  { intros w1 e Hsuite Hf Hy Hk.
    rewrite (setup_logging_raised E config_path w w1 e) by done.
    rewrite setup_handler_cases. by destruct (exc_type e). }
  split.
  { intros file config e Hopen Hload Hdict Hf Hy Hk.
    rewrite (setup_logging_raised E config_path w
               (after [EvOpen path; EvSafeLoad; EvDictConfig config] w) e).
    - rewrite setup_handler_cases. by destruct (exc_type e).
    - rewrite try_suite_cases. fold path. by rewrite Hopen, Hload, Hdict. }
  intros w1 e name -> Hflag Hs. split.
  - by apply create_logger_setup_raises.
  - destruct (setup_logging_effect E None w) as (evs & _ & Hw1).
    rewrite Hs in Hw1. simpl in Hw1. by rewrite Hw1.
Qed.

(** Setup with a missing configuration file, setup with a file that does
    not parse, and setup with a configuration that [dictConfig] refuses
    with a [ValueError]. *)
Lemma C7_setup_failure_modes_witness :
  LogsCoreFactory._setup_logging Samples.env_missing None (initial ∅)
  = (after [EvOpen "/srv/app/logs/settings/config.yaml"; EvBasicConfig INFO;
            EvWarning "Falling back to default logging config..."]
       (initial ∅), Ok tt)
  ∧ LogsCoreFactory._setup_logging Samples.env_unparseable None (initial ∅)
    = (after [EvOpen "/srv/app/logs/settings/config.yaml"; EvSafeLoad;
              EvBasicConfig INFO;
              EvWarning "Falling back to default logging config..."]
         (initial ∅), Ok tt)
  ∧ LogsCoreFactory._setup_logging Samples.env_refused None (initial ∅)
    = (after [EvOpen "/srv/app/logs/settings/config.yaml"; EvSafeLoad;
              EvDictConfig (VDict [("version", VInt 1)])]
         (initial ∅),
       Raise (Exn RuntimeError
                "Unexpected error setting up logging: Unable to configure handler 'file'"))
  ∧ LogsCoreFactory.create_logger Samples.env_refused "app" (initial ∅)
    = (after [EvOpen "/srv/app/logs/settings/config.yaml"; EvSafeLoad;
              EvDictConfig (VDict [("version", VInt 1)])]
         (initial ∅),
       Raise (Exn RuntimeError
                "Unexpected error setting up logging: Unable to configure handler 'file'")).
Proof.
  assert (Hf : ValueError ≠ FileNotFoundError) by discriminate.
  assert (Hy : ValueError ≠ YAMLError) by discriminate.
  assert (Hk : ValueError ≠ KeyboardInterrupt) by discriminate.
  pose proof (proj1 (proj2 (proj2 (proj2 (proj2
                (C7_setup_failure_modes Samples.env_refused None (initial ∅))))))
                "version: 1" (VDict [("version", VInt 1)])
                (Exn ValueError "Unable to configure handler 'file'")
                eq_refl eq_refl eq_refl Hf Hy Hk) as Hrefused.
  split; [|split; [|split]].
  - exact (proj1 (C7_setup_failure_modes Samples.env_missing None (initial ∅))
             _ eq_refl eq_refl).
  - exact (proj1 (proj2 (C7_setup_failure_modes Samples.env_unparseable None
                           (initial ∅)))
             _ _ eq_refl eq_refl eq_refl).
  - exact Hrefused.
  - exact (proj1 (proj2 (proj2 (proj2 (proj2 (proj2
             (C7_setup_failure_modes Samples.env_refused None (initial ∅))))))
             _ _ "app" eq_refl eq_refl Hrefused)).
Defined.

(** ** Paths *)

Section path_lemmas.
Import posixpath Notions.
Implicit Types (a b c s root : string).

Lemma append_assoc a b c : (a +:+ b) +:+ c = a +:+ (b +:+ c).
Proof.
  induction a as [|x a IH]; [done|].
  change (String x ((a +:+ b) +:+ c) = String x (a +:+ b +:+ c)).
  by rewrite IH.
Qed.

Lemma append_empty_r a : a +:+ "" = a.
Proof.
  induction a as [|x a IH]; [done|].
  change (String x (a +:+ "") = String x a). by rewrite IH.
Qed.

Lemma append_nonempty a b : b ≠ "" → a +:+ b ≠ "".
Proof. destruct a; simpl; [done|discriminate]. Qed.

Lemma endswith_sep_append a b : b ≠ "" → endswith_sep (a +:+ b) = endswith_sep b.
Proof.
  intros Hb. induction a as [|x a IH]; simpl; [done|].
  rewrite IH. destruct (a +:+ b) eqn:Hab; [|done].
  by apply append_nonempty in Hab.
Qed.

Lemma startswith_sep_append a b :
  a ≠ "" → startswith_sep (a +:+ b) = startswith_sep a.
Proof. by destruct a. Qed.

Lemma eqb_empty_false s : s ≠ "" → String.eqb s "" = false.
Proof. intros H. by apply String.eqb_neq. Qed.

(** [os.path.join(root, out)] for a relative [out]. *)
Lemma join_step_relative root out :
  startswith_sep out = false → join_step root out = with_sep root +:+ out.
Proof.
  intros Hout. unfold join_step, with_sep. rewrite Hout.
  destruct (String.eqb root "" || endswith_sep root); [done|].
  by rewrite append_assoc.
Qed.

Lemma with_sep_prefix root : ∃ rest, with_sep root = root +:+ rest.
Proof.
  unfold with_sep. destruct (String.eqb root "" || endswith_sep root).
  - exists "". by rewrite append_empty_r.
  - by exists "/".
Qed.

Lemma with_sep_absolute root :
  startswith_sep root = true → startswith_sep (with_sep root +:+ "logs") = true.
Proof.
  intros Hr. unfold with_sep.
  destruct (String.eqb root "" || endswith_sep root);
    destruct root; simpl in *; done.
Qed.

(** [os.path.join(root, out, f)] for relative [out] and [f], [out] not
    ending in a separator. *)
Lemma join_relative root out f :
  startswith_sep out = false → out ≠ "" → endswith_sep out = false →
  startswith_sep f = false →
  join root [out; f] = with_sep root +:+ out +:+ "/" +:+ f.
Proof.
  intros Ho Hne He Hf. unfold join; simpl.
  rewrite (join_step_relative root out Ho).
  unfold join_step. rewrite Hf.
  rewrite eqb_empty_false by (by apply append_nonempty).
  rewrite endswith_sep_append, He by done. simpl.
  by rewrite append_assoc.
Qed.

Lemma join_logs folder :
  startswith_sep folder = false → join "logs" [folder] = "logs/" +:+ folder.
Proof. intros Hf. unfold join, join_step; simpl. by rewrite Hf. Qed.

Lemma plain_folder_spec folder :
  plain_folder folder = true ↔
  folder ≠ "" ∧ startswith_sep folder = false ∧ endswith_sep folder = false.
Proof.
  unfold plain_folder. rewrite !andb_true_iff, !negb_true_iff.
  rewrite String.eqb_neq. tauto.
Qed.

(** The path written for a handler with a plain folder and a relative file
    name, and for one without folder. *)
Lemma join_with_folder root folder f :
  plain_folder folder = true → startswith_sep f = false →
  join root [join "logs" [folder]; f]
  = with_sep root +:+ "logs/" +:+ folder +:+ "/" +:+ f.
Proof.
  intros (Hne & Hs & He)%plain_folder_spec Hf.
  rewrite join_logs by done.
  rewrite join_relative; [|done| |by rewrite endswith_sep_append|done].
  - by rewrite !append_assoc.
  - by apply append_nonempty.
Qed.

Lemma join_without_folder root f :
  startswith_sep f = false →
  join root ["logs"; f] = with_sep root +:+ "logs/" +:+ f.
Proof. intros Hf. by rewrite join_relative. Qed.

(** An absolute last component makes [join] drop all that comes before
    it. *)
Lemma join_onto_absolute root out p :
  startswith_sep p = true → join root [out; p] = p.
Proof. intros Hp. unfold join, join_step; simpl. by rewrite Hp. Qed.

End path_lemmas.

(** ** The file-output step of core/factory.py *)

Section file_output_lemmas.
Import posixpath Notions CoreFactory.
Implicit Types (E : env) (w : world) (root : string)
  (h : list (string * pyval)) (handler : pyval).

(** Usable [foldername]: the folder the loop body computes. *)
Lemma output_folder_computed h :
  str_or_falsy (dget "foldername" h) = true →
  (let foldername := default (VStr "") (dget "foldername" h) in
   if truthy foldername
   then bind (fspath foldername) (λ f, Ok (join "logs" [f]))
   else Ok "logs")
  = Ok (output_folder h).
Proof.
  unfold output_folder, str_or_falsy.
  destruct (dget "foldername" h) as [[]|]; simpl; try done;
    try (by intros ->%negb_true_iff).
  by destruct (String.eqb s "").
Qed.

(** The loop body on an entry it can process. *)
Lemma rewrite_handler_ok E root handler w :
  handler_ok handler = true →
  (∀ p, makedirs_error E p = None) →
  ∃ w', rewrite_handler E root handler w = (w', Ok (rewritten root handler))
    ∧ _initialized w' = _initialized w ∧ trace w' = trace w
    ∧ dirs w ⊆ dirs w'
    ∧ (∀ h path, handler = VDict h → class_differs h = false →
         new_filename root h = Some path →
         dirname path ∈ dirs w'
         ∧ ∀ a, a ∈ ancestors (dirname path) → a ∈ dirs w').
Proof.
  intros Hok Hmk. destruct handler as [| | | | | |h]; try done.
  unfold rewrite_handler, rewritten, handler_ok in *.
  destruct (class_differs h) eqn:Hclass.
  { exists w. do 4 (split; [done|]). intros ? ? [= <-] ? ?. congruence. }
  simpl in Hok. apply andb_true_iff in Hok as [Hfolder Hfile].
  unfold mbind, M_bind, bindM.
  assert (Hout :
    (if truthy (default (VStr "") (dget "foldername" h))
     then lift (bind (fspath (default (VStr "") (dget "foldername" h)))
                  (λ f, Ok (join "logs" [f])))
     else mret "logs") w = (w, Ok (output_folder h))).
  { pose proof (output_folder_computed h Hfolder) as Hc. cbv zeta in Hc.
    destruct (truthy (default (VStr "") (dget "foldername" h))) eqn:Ht;
      rewrite ?Ht in Hc; unfold lift, mret, M_ret, retM; by rewrite Hc. }
  rewrite Hout. rewrite dget_dpop_ne by done.
  assert (Hcases :
    (∃ f, dget "filename" h = Some (VStr f) ∧ String.eqb f "" = false)
    ∨ (truthy (default VNone (dget "filename" h)) = false
       ∧ new_filename root h = None)).
  { unfold new_filename, str_or_falsy in *.
    destruct (dget "filename" h) as [[| | |f| | |]|]; simpl in *;
      try apply negb_true_iff in Hfile; try (right; done).
    destruct (String.eqb f "") eqn:Hempty; [right; done|left; eauto]. }
  destruct Hcases as [(f & Hf & Hempty)|[Hfalsy Hnone]].
  - unfold new_filename. rewrite Hf, Hempty. simpl. rewrite Hempty; simpl.
    unfold lift, makedirs, mret, M_ret, retM; simpl. rewrite Hmk; simpl.
    rewrite andb_false_r.
    eexists; split; [reflexivity|]. simpl.
    split; [done|]. split; [done|]. split; [set_solver|].
    intros h' path [= <-] _. unfold new_filename. rewrite Hf, Hempty.
    intros [= <-]. split; [set_solver|]. intros a Ha. set_solver.
  - rewrite Hfalsy, Hnone. exists w. do 4 (split; [done|]).
    intros ? ? [= <-] ? ?. congruence.
Qed.

(** The whole loop, when every entry can be processed: entry by entry the
    result is [rewritten], and the directory of every new file name
    exists afterwards. *)
Lemma rewrite_handlers_ok E root (handlers : list (string * pyval)) w :
  Forall (λ nh, handler_ok nh.2 = true) handlers →
  (∀ p, makedirs_error E p = None) →
  ∃ w', rewrite_handlers E root handlers w
        = (w', Ok ((λ nh, (nh.1, rewritten root nh.2)) <$> handlers))
    ∧ _initialized w' = _initialized w ∧ trace w' = trace w
    ∧ dirs w ⊆ dirs w'
    ∧ (∀ (i : nat) name h path,
         handlers !! i = Some (name, VDict h) → class_differs h = false →
         new_filename root h = Some path →
         dirname path ∈ dirs w'
         ∧ ∀ a, a ∈ ancestors (dirname path) → a ∈ dirs w').
Proof.
  intros Hok Hmk. revert w.
  induction Hok as [|[name handler] rest Hh _ IH]; intros w.
  { exists w. do 4 (split; [done|]). intros i ? ? ? Hi. done. }
  simpl in Hh.
  destruct (rewrite_handler_ok E root handler w Hh Hmk)
    as (w1 & Hr1 & Hi1 & Ht1 & Hd1 & Hnew1).
  destruct (IH w1) as (w2 & Hr2 & Hi2 & Ht2 & Hd2 & Hnew2).
  exists w2. split.
  { simpl. unfold mbind, M_bind, bindM. rewrite Hr1, Hr2. done. }
  split; [congruence|]. split; [congruence|]. split; [by etrans|].
  intros [|i] name' h path Hi Hc Hn; simpl in Hi.
  - injection Hi as <- ->.
    destruct (Hnew1 h path eq_refl Hc Hn) as [Hdir Hanc].
    split; [by apply Hd2|]. intros a Ha. by apply Hd2, Hanc.
  - by eapply Hnew2.
Qed.

(** What [rewritten] leaves of a rotating file handler that names a
    file. *)
Lemma rewritten_rotating root h path :
  class_differs h = false → new_filename root h = Some path →
  rewritten root (VDict h)
  = VDict (dset "filename" (VStr path) (dpop "foldername" h)).
Proof. intros Hc Hn. unfold rewritten. by rewrite Hc, Hn. Qed.

Lemma class_differs_marker h :
  dget "class" h = Some (VStr "logging.handlers.RotatingFileHandler") →
  class_differs h = false.
Proof. intros Hc. unfold class_differs. by rewrite Hc. Qed.

Lemma new_filename_named root h filename :
  dget "filename" h = Some (VStr filename) → filename ≠ "" →
  new_filename root h = Some (join root [output_folder h; filename]).
Proof.
  intros Hf Hne. unfold new_filename. rewrite Hf.
  by rewrite eqb_empty_false.
Qed.

(** The step as a whole, on a configuration whose handlers can all be
    processed. *)
Lemma setup_file_output_directory_ok E c (handlers : list (string * pyval)) w :
  dget "handlers" c = Some (VDict handlers) →
  Forall (λ nh, handler_ok nh.2 = true) handlers →
  (∀ p, makedirs_error E p = None) →
  let root := default_project_root E in
  let handlers' := (λ nh, (nh.1, rewritten root nh.2)) <$> handlers in
  ∃ w', _setup_file_output_directory E (VDict c) None w
        = (w', Ok (VDict (dset "handlers" (VDict handlers') c)))
    ∧ _initialized w' = _initialized w ∧ trace w' = trace w
    ∧ (∀ (i : nat) name h path,
         handlers !! i = Some (name, VDict h) → class_differs h = false →
         new_filename root h = Some path →
         dirname path ∈ dirs w'
         ∧ ∀ a, a ∈ ancestors (dirname path) → a ∈ dirs w').
Proof.
  intros Hh Hok Hmk root handlers'.
  destruct (rewrite_handlers_ok E root handlers w Hok Hmk)
    as (w' & Hr & Hi & Ht & _ & Hnew).
  exists w'. split; [|done].
  unfold _setup_file_output_directory. rewrite Hh.
  unfold mbind, M_bind, bindM. fold root. by rewrite Hr.
Qed.

(** The suite of the [try] of core/factory.py once the file-output step
    has returned: [dictConfig] is called on what the step returned. *)
Lemma core_try_suite_cases E path w file config w1 config' :
  os_open E path = Ok file →
  yaml_safe_load E file = Ok config →
  _setup_file_output_directory E config None
    (after [EvOpen path; EvSafeLoad] w) = (w1, Ok config') →
  try_suite E path w
  = (after [EvDictConfig config'] w1,
     match dictConfig_error E config' with
     | Some e => Raise e
     | None => Ok tt
     end).
Proof.
  intros Hopen Hload Hstep.
  unfold try_suite, mbind, M_bind, bindM, lift, mret, M_ret, retM, raise.
  rewrite emit_after, Hopen, emit_after, after_after, Hload.
  cbv beta iota. change ([EvOpen path] ++ [EvSafeLoad]) with [EvOpen path; EvSafeLoad].
  rewrite Hstep, emit_after.
  by destruct (dictConfig_error E config').
Qed.

End file_output_lemmas.

(** C8 (amended).  In the setup of core/factory.py, when the
    configuration file opens and loads to a mapping whose [handlers] entry
    is a mapping of handlers that can all be processed (each a mapping; in
    a rotating file handler [foldername] and [filename] are strings or
    falsy) and [os.makedirs] refuses no directory, [dictConfig] receives
    the configuration with its handlers rewritten.  For every rotating
    file handler whose [filename] is a non-empty string: the [filename]
    handed over is [os.path.join(root, output_folder, filename)]; the
    directory containing it and all directories above exist afterwards;
    the [foldername] key is gone from the handler; and its other keys are
    as loaded.  When [filename] does not start with a separator, the new
    name is the string [<root>/logs/<foldername>/<filename>] when
    [foldername] is a plain relative name and [<root>/logs/<filename>]
    when [foldername] is missing or falsy, where [<root>/] stands for the
    project root followed by a separator unless it is empty or ends in one;
    the name starts with the root as a string and is not normalised.  When
    [filename] starts with a separator, the new name is [filename]
    itself. *)
Theorem C8_rotating_file_handlers_rewritten :
  ∀ (E : env) (config_path : option string) (w : world) (file : string)
    (c handlers : list (string * pyval)),
    let path := LogsCoreFactory.effective_path E config_path in
    let root := default_project_root E in
    os_open E path = Ok file →
    yaml_safe_load E file = Ok (VDict c) →
    dget "handlers" c = Some (VDict handlers) →
    Forall (λ nh, Notions.handler_ok nh.2 = true) handlers →
    (∀ p, makedirs_error E p = None) →
    ∃ (handlers' : list (string * pyval)) (w' : world),
      (CoreFactory.try_suite E path w).1 = w'
      ∧ trace w'
        = (trace w ++ [EvOpen path; EvSafeLoad;
                       EvDictConfig (VDict (dset "handlers" (VDict handlers') c))])%list
      ∧ length handlers' = length handlers
      ∧ (∃ rest, Notions.with_sep root = root +:+ rest)
      ∧ ∀ (i : nat) name h filename,
          handlers !! i = Some (name, VDict h) →
          dget "class" h = Some (VStr "logging.handlers.RotatingFileHandler") →
          dget "filename" h = Some (VStr filename) →
          filename ≠ "" →
          ∃ h' new,
            handlers' !! i = Some (name, VDict h')
            ∧ dget "filename" h' = Some (VStr new)
            ∧ new = posixpath.join root [Notions.output_folder h; filename]
            ∧ dget "foldername" h' = None
            ∧ (∀ key, key ≠ "filename" → key ≠ "foldername" →
                 dget key h' = dget key h)
            ∧ posixpath.dirname new ∈ dirs w'
            ∧ (∀ a, a ∈ posixpath.ancestors (posixpath.dirname new) →
                 a ∈ dirs w')
            ∧ (posixpath.startswith_sep filename = false →
               ∀ folder,
                 dget "foldername" h = Some (VStr folder) →
                 Notions.plain_folder folder = true →
                 new = Notions.with_sep root +:+ "logs/" +:+ folder
                       +:+ "/" +:+ filename)
            ∧ (posixpath.startswith_sep filename = false →
               truthy (default (VStr "") (dget "foldername" h)) = false →
               new = Notions.with_sep root +:+ "logs/" +:+ filename)
            ∧ (posixpath.startswith_sep filename = true → new = filename).
Proof.
  intros E config_path w file c handlers path root Hopen Hload Hh Hok Hmk.
  destruct (setup_file_output_directory_ok E c handlers
              (after [EvOpen path; EvSafeLoad] w) Hh Hok Hmk)
    as (w1 & Hstep & Hflag & Htrace & Hnew).
  eexists _, _. split; [reflexivity|].
  rewrite (core_try_suite_cases E path w file _ _ _ Hopen Hload Hstep).
  cbn [fst]. split.
  { unfold after at 1; cbn [trace]. rewrite Htrace. unfold after; cbn [trace].
    by rewrite <- app_assoc. }
  split; [by rewrite length_fmap|].
  split; [apply with_sep_prefix|].
  intros i name h filename Hi Hclass Hfile Hne.
  apply class_differs_marker in Hclass.
  pose proof (new_filename_named root h filename Hfile Hne) as Hn.
  exists (dset "filename"
            (VStr (posixpath.join root [Notions.output_folder h; filename]))
            (dpop "foldername" h)),
         (posixpath.join root [Notions.output_folder h; filename]).
  split.
  { rewrite list_lookup_fmap, Hi. cbn [fmap option_fmap option_map fst snd].
    fold root. by rewrite (rewritten_rotating root h _ Hclass Hn). }
  split; [apply dget_dset_eq|].
  split; [reflexivity|].
  split; [rewrite dget_dset_ne by done; apply dget_dpop_eq|].
  split.
  { intros key Hk1 Hk2. rewrite dget_dset_ne by done.
    by rewrite dget_dpop_ne. }
  destruct (Hnew i name h _ Hi Hclass Hn) as [Hdir Hanc].
  split; [exact Hdir|]. split; [exact Hanc|].
  split; [|split].
  - intros Hrel folder Hfolder Hplain. unfold Notions.output_folder.
    rewrite Hfolder.
    pose proof Hplain as (Hfne & _ & _)%plain_folder_spec.
    rewrite eqb_empty_false by done.
    by apply join_with_folder.
  - intros Hrel Hfalsy. unfold Notions.output_folder.
    destruct (dget "foldername" h) as [[]|]; simpl in *;
      try (by apply join_without_folder).
    apply negb_false_iff in Hfalsy. rewrite Hfalsy.
    by apply join_without_folder.
  - intros Habs. by apply join_onto_absolute.
Qed.

(** The scenario of the specification: [filename: "app.log"],
    [foldername: "worker"], project root [/srv/app]. *)
Lemma C8_rotating_file_handlers_rewritten_witness :
  let E := Samples.env_with Samples.sample_config in
  ∃ (handlers' : list (string * pyval)) (w' : world) h',
    (CoreFactory.try_suite E (LogsCoreFactory.effective_path E None)
       (initial ∅)).1 = w'
    ∧ handlers' !! 1 = Some ("file", VDict h')
    ∧ dget "filename" h' = Some (VStr "/srv/app/logs/worker/app.log")
    ∧ dget "foldername" h' = None
    ∧ posixpath.dirname "/srv/app/logs/worker/app.log" ∈ dirs w'.
Proof.
  intros E.
  assert (Hok : Forall (λ nh, Notions.handler_ok nh.2 = true)
                  [("console", Samples.console_handler);
                   ("file", Samples.file_handler)])
    by (repeat constructor).
  destruct (C8_rotating_file_handlers_rewritten E None (initial ∅)
              "version: 1" Samples.sample_config
              [("console", Samples.console_handler);
               ("file", Samples.file_handler)]
              eq_refl eq_refl eq_refl Hok (λ _, eq_refl))
    as (handlers' & w' & Hw' & _ & _ & _ & Hrot).
  destruct (Hrot 1 "file" _ "app.log" eq_refl eq_refl eq_refl
              ltac:(discriminate))
    as (h' & new & Hi & Hf & _ & Hfold & _ & Hdir & _ & Hnew & _).
  specialize (Hnew eq_refl "worker" eq_refl eq_refl).
  exists handlers', w', h'. rewrite Hnew in Hf, Hdir.
  split; [exact Hw'|]. split; [exact Hi|]. split; [exact Hf|].
  split; [exact Hfold|exact Hdir].
Defined.

(** C8, as stated, fails for an absolute file name: with project root
    [/srv/app], a rotating file handler with [filename:
    "/var/log/app.log"] and [foldername: "worker"] reaches [dictConfig]
    with its file name as it was, which is neither under the root nor ends
    in [logs/worker/...]. *)
Lemma C8_absolute_filename_not_under_root :
  let E := Samples.env_with Samples.absolute_config in
  let r := CoreFactory._setup_logging E None (initial ∅) in
  r.2 = Ok tt
  ∧ trace r.1
    = [EvOpen "/srv/app/logs/settings/config.yaml"; EvSafeLoad;
       EvDictConfig
         (VDict [("version", VInt 1);
                 ("handlers",
                  VDict [("file",
                          VDict [("class",
                                  VStr "logging.handlers.RotatingFileHandler");
                                 ("filename", VStr "/var/log/app.log")])])])]
  ∧ String.prefix (default_project_root E) "/var/log/app.log" = false.
Proof. repeat split; vm_compute; reflexivity. Qed.

(** ** Two further facts about the file-output step *)

(** A caller who names a project root gets the configuration back
    unchanged, and no directory is made: the loop belongs to the branch
    that computes the default root. *)
Lemma setup_file_output_directory_named_root :
  ∀ (E : env) (config : pyval) (root : string) (w : world),
    CoreFactory._setup_file_output_directory E config (Some root) w
    = (w, Ok config).
Proof. done. Qed.

(** The setup of logs/core/factory.py has no file-output step: whatever
    was loaded is what [dictConfig] receives. *)
Lemma logs_core_setup_applies_config_as_loaded :
  ∀ (E : env) (config_path : option string) (w : world) file config,
    let path := LogsCoreFactory.effective_path E config_path in
    os_open E path = Ok file →
    yaml_safe_load E file = Ok config →
    (LogsCoreFactory.try_suite E path w).1
    = after [EvOpen path; EvSafeLoad; EvDictConfig config] w.
Proof.
  intros E config_path w file config path Hopen Hload.
  by rewrite try_suite_cases, Hopen, Hload.
Qed.

(* ===================================================================== *)
(** * Further properties of the registry                                  *)
(* ===================================================================== *)

Section registry_effects.
Import IssueRegistry Observations.
Implicit Types (st : registry) (k : pyclass) (code obj : pyval) (n name : string).

(** All a call can do to the table is one write under its key, and all it
    can do to the attributes is one write of the code it was given. *)
Lemma setattr_effect obj code st st' :
  setattr_error_code obj code st = Ok st' →
  _issues st' = _issues st
  ∧ ∃ k, obj = VClass k
         ∧ error_codes st' = <[cls_id k := code]> (error_codes st).
Proof.
  unfold setattr_error_code. destruct obj as [| | | |k| |]; try done.
  destruct (cls_immutable k); [done|]. intros [= <-]. eauto.
Qed.

Lemma store_then_setattr_effect name obj code st :
  let r := match setattr_error_code obj code (store name obj st) with
           | Ok st2 => st2
           | Raise _ => store name obj st
           end in
  _issues r = <[name := obj]> (_issues st)
  ∧ (error_codes r = error_codes st
     ∨ ∃ k, obj = VClass k
            ∧ error_codes r = <[cls_id k := code]> (error_codes st)).
Proof.
  destruct (setattr_error_code obj code (store name obj st)) as [st2|e] eqn:Hs.
  - apply setattr_effect in Hs as [Ht (k & -> & Hc)]. simpl.
    split; [done|]. right. eauto.
  - simpl. split; [done|]. by left.
Qed.

Lemma register_effect name_or_class class_obj code st :
  let st' := (register name_or_class class_obj code st).1 in
  (_issues st' = _issues st
   ∨ ∃ key obj, register_key name_or_class = Some key
                ∧ _issues st' = <[key := obj]> (_issues st))
  ∧ (error_codes st' = error_codes st
     ∨ ∃ k, code ≠ VNone
            ∧ error_codes st' = <[cls_id k := code]> (error_codes st)).
Proof.
  unfold register.
  destruct name_or_class as [| | |name|c| |]; simpl; try (split; by left).
  - destruct (is_None class_obj && negb (is_None code)); split; by left.
  - destruct (truthy class_obj).
    + destruct (is_None code) eqn:Hc; simpl.
      * split; [right; eauto|by left].
      * pose proof (store_then_setattr_effect name class_obj code st)
          as [Ht Hcodes].
        destruct (setattr_error_code class_obj code (store name class_obj st));
          simpl in *.
        -- split; [right; eauto|]. destruct Hcodes as [?|(k & _ & ?)];
             [by left|right]. exists k. by apply is_None_false in Hc.
        -- split; [right; eauto|by left].
    + destruct (is_None class_obj); split; by left.
  - destruct (is_None class_obj); [|split; by left].
    destruct (negb (is_None code) && _) eqn:Hg; simpl.
    + apply andb_true_iff in Hg as [Hc%negb_true_iff _].
      destruct (cls_immutable c); simpl.
      * split; [right; eauto|by left].
      * split; [right; eauto|right]. exists c. by apply is_None_false in Hc.
    + split; [right; eauto|by left].
Qed.

Lemma apply_decorator_effect d obj st :
  let st' := (apply_decorator d obj st).1 in
  (_issues st' = _issues st
   ∨ ∃ key, decorator_key d obj = Some key
            ∧ _issues st' = <[key := obj]> (_issues st))
  ∧ (error_codes st' = error_codes st
     ∨ ∃ k code, (d = DecoratorAuto code
                  ∨ ∃ name, d = DecoratorNamed name code ∧ code ≠ VNone)
                 ∧ error_codes st' = <[cls_id k := code]> (error_codes st)).
Proof.
  unfold apply_decorator. destruct d as [name code|code].
  - destruct (is_None code) eqn:Hc; simpl.
    + split; [right; eauto|by left].
    + pose proof (store_then_setattr_effect name obj code st) as [Ht Hcodes].
      destruct (setattr_error_code obj code (store name obj st)); simpl in *.
      * split; [right; eauto|]. destruct Hcodes as [?|(k & _ & ?)];
          [by left|right]. exists k, code. split; [|done]. right.
        exists name. by apply is_None_false in Hc.
      * split; [right; eauto|by left].
  - destruct obj as [| | | |c| |]; simpl; try (split; by left).
    destruct (cls_immutable c); simpl.
    + split; [right; eauto|by left].
    + split; [right; eauto|right]. exists c, code. split; [by left|done].
Qed.

End registry_effects.

Section registry_monotone.
Import IssueRegistry.

Lemma mro_lookup_monotone (attrs attrs' : gmap nat pyval) (mro : list nat) :
  (∀ i, is_Some (attrs !! i) → is_Some (attrs' !! i)) →
  is_Some (mro_lookup attrs mro) → is_Some (mro_lookup attrs' mro).
Proof.
  intros Hsub. induction mro as [|i mro IH]; simpl; [done|].
  destruct (attrs !! i) eqn:Hi.
  - intros _. destruct (Hsub i) as [v' ->]; eauto.
  - intros H. destruct (attrs' !! i); eauto.
Qed.

Lemma hasattr_monotone (st st' : registry) (obj : pyval) :
  (∀ i, is_Some (error_codes st !! i) → is_Some (error_codes st' !! i)) →
  hasattr_error_code st obj = true → hasattr_error_code st' obj = true.
Proof.
  intros Hsub. destruct obj as [| | | |c| |]; simpl; try done.
  rewrite !bool_decide_eq_true. by apply mro_lookup_monotone.
Qed.

Lemma insert_keeps_some {K} `{Countable K} {A} (m : gmap K A) k v i :
  is_Some (m !! i) → is_Some (<[k := v]> m !! i).
Proof.
  intros Hi. destruct (decide (k = i)) as [->|Hne].
  - rewrite lookup_insert_eq. eauto.
  - by rewrite lookup_insert_ne.
Qed.

Lemma listed_iff_stored (st : registry) (n : string) :
  is_Some (get_all_issues st !! n) ↔ is_Some (_issues st !! n).
Proof. rewrite get_all_issues_lookup. apply fmap_is_Some. Qed.

End registry_monotone.

(** X1.  A registration writes at most one name: whatever the arguments
    and whatever the outcome (also when the call raises), [get] of every
    name other than the one the call stores under answers as before.  The
    same holds for a registrar applied to any object. *)
Theorem X1_registration_leaves_other_names :
  ∀ (st : IssueRegistry.registry) (n : string)
    (name_or_class class_obj code : pyval)
    (d : IssueRegistry.decorator) (obj : pyval),
    Observations.register_key name_or_class ≠ Some n →
    Observations.decorator_key d obj ≠ Some n →
    IssueRegistry.get
      (IssueRegistry.register name_or_class class_obj code st).1 (VStr n)
    = IssueRegistry.get st (VStr n)
    ∧ IssueRegistry.get (IssueRegistry.apply_decorator d obj st).1 (VStr n)
      = IssueRegistry.get st (VStr n).
Proof.
  intros st n name_or_class class_obj code d obj Hr Hd.
  unfold IssueRegistry.get. split.
  - destruct (register_effect name_or_class class_obj code st)
      as [[->|(key & o & Hkey & ->)] _]; [done|].
    rewrite lookup_insert_ne; [done|]. congruence.
  - destruct (apply_decorator_effect d obj st)
      as [[->|(key & Hkey & ->)] _]; [done|].
    rewrite lookup_insert_ne; [done|]. congruence.
Qed.

(** With "A" registered, registering "B" and applying the code-only
    registrar to [OtherKind] leave "A" as it was. *)
Lemma X1_registration_leaves_other_names_witness :
  let st := (IssueRegistry.register (VStr "A") (VClass Samples.SomeKind)
               (VStr "E1") IssueRegistry.empty).1 in
  IssueRegistry.get
    (IssueRegistry.register (VStr "B") (VClass Samples.OtherKind)
       (VStr "E2") st).1 (VStr "A")
  = Ok (VClass Samples.SomeKind)
  ∧ IssueRegistry.get
      (IssueRegistry.apply_decorator (IssueRegistry.DecoratorAuto (VStr "E3"))
         (VClass Samples.OtherKind) st).1 (VStr "A")
    = Ok (VClass Samples.SomeKind).
Proof.
  intros st.
  exact (X1_registration_leaves_other_names st "A"
           (VStr "B") (VClass Samples.OtherKind) (VStr "E2")
           (IssueRegistry.DecoratorAuto (VStr "E3")) (VClass Samples.OtherKind)
           ltac:(discriminate) ltac:(discriminate)).
Defined.

(** X2.  Nothing is ever taken out of the registry: after any call to
    [register] and after any registrar is applied, whatever the outcome,
    every name [get_all_issues] listed is still listed and every object
    that showed an [_error_code] still shows one. *)
Theorem X2_registry_only_grows :
  ∀ (st : IssueRegistry.registry) (name_or_class class_obj code : pyval)
    (d : IssueRegistry.decorator) (obj : pyval),
    let st1 := (IssueRegistry.register name_or_class class_obj code st).1 in
    let st2 := (IssueRegistry.apply_decorator d obj st).1 in
    (∀ n : string,
       is_Some (IssueRegistry.get_all_issues st !! n) →
       is_Some (IssueRegistry.get_all_issues st1 !! n)
       ∧ is_Some (IssueRegistry.get_all_issues st2 !! n))
    ∧ (∀ o : pyval,
         IssueRegistry.hasattr_error_code st o = true →
         IssueRegistry.hasattr_error_code st1 o = true
         ∧ IssueRegistry.hasattr_error_code st2 o = true).
Proof.
  intros st name_or_class class_obj code d obj st1 st2.
  destruct (register_effect name_or_class class_obj code st) as [Ht1 Hc1].
  destruct (apply_decorator_effect d obj st) as [Ht2 Hc2].
  fold st1 in Ht1, Hc1. fold st2 in Ht2, Hc2. split.
  - intros n Hn. rewrite !listed_iff_stored in *. split.
    + destruct Ht1 as [->|(key & o & _ & ->)]; [done|].
      by apply insert_keeps_some.
    + destruct Ht2 as [->|(key & _ & ->)]; [done|].
      by apply insert_keeps_some.
  - intros o Ho. split.
    + apply (hasattr_monotone st); [|done].
      destruct Hc1 as [->|(k & _ & ->)]; [done|].
      intros i. apply insert_keeps_some.
    + apply (hasattr_monotone st); [|done].
      destruct Hc2 as [->|(k & c & _ & ->)]; [done|].
      intros i. apply insert_keeps_some.
Qed.

(** "A" stays listed and [SomeKind] keeps a code when "A" is registered
    again with another kind and when a registrar is applied. *)
Lemma X2_registry_only_grows_witness :
  let st := (IssueRegistry.register (VStr "A") (VClass Samples.SomeKind)
               (VStr "E1") IssueRegistry.empty).1 in
  is_Some (IssueRegistry.get_all_issues
             (IssueRegistry.register (VStr "A") (VClass Samples.OtherKind)
                VNone st).1 !! "A")
  ∧ IssueRegistry.hasattr_error_code
      (IssueRegistry.register (VStr "A") (VClass Samples.OtherKind) VNone st).1
      (VClass Samples.SomeKind) = true.
Proof.
  intros st.
  pose proof (X2_registry_only_grows st (VStr "A") (VClass Samples.OtherKind)
                VNone (IssueRegistry.DecoratorAuto (VStr "E3"))
                (VClass Samples.OtherKind)) as [Hnames Hcodes].
  split.
  - exact (proj1 (Hnames "A" ltac:(vm_compute; eauto))).
  - exact (proj1 (Hcodes (VClass Samples.SomeKind) eq_refl)).
Defined.

(** X3.  Registering a built-in (immutable) kind together with a code
    fails half way: the [setattr] raises a [TypeError], but the name has
    already been written, so [get] finds the kind afterwards, the kind
    shows the code it showed before, and no attribute has changed.  This
    holds for the direct call, for both registrars, and for the kind-only
    form when the kind shows no code yet. *)
Theorem X3_builtin_kind_with_code :
  ∀ (st : IssueRegistry.registry) (name : string) (k : pyclass) (code : pyval),
    cls_immutable k = true →
    code ≠ VNone →
    let failed (r : IssueRegistry.registry) (outcome : option exn) (key : string) :=
      (∃ e, outcome = Some e ∧ exc_type e = TypeError)
      ∧ IssueRegistry.get r (VStr key) = Ok (VClass k)
      ∧ IssueRegistry.get_all_issues r !! key
        = Some (IssueRegistry.IssueInfo (VClass k)
                  (IssueRegistry.getattr_error_code st (VClass k) VNone))
      ∧ IssueRegistry.error_codes r = IssueRegistry.error_codes st in
    let raised {A} (r : result A) : option exn :=
      match r with Raise e => Some e | Ok _ => None end in
    (let r := IssueRegistry.register (VStr name) (VClass k) code st in
     failed r.1 (raised r.2) name)
    ∧ (let r := IssueRegistry.apply_decorator
                  (IssueRegistry.DecoratorNamed name code) (VClass k) st in
       failed r.1 (raised r.2) name)
    ∧ (let r := IssueRegistry.apply_decorator
                  (IssueRegistry.DecoratorAuto code) (VClass k) st in
       failed r.1 (raised r.2) (cls_name k))
    ∧ (IssueRegistry.hasattr_error_code st (VClass k) = false →
       let r := IssueRegistry.register (VClass k) VNone code st in
       failed r.1 (raised r.2) (cls_name k)).
Proof.
  intros st name k code Himm Hcode%is_None_false failed raised.
  assert (Hfailed : ∀ key e, exc_type e = TypeError →
            failed (IssueRegistry.store key (VClass k) st) (Some e) key).
  { intros key e He. split; [eauto|]. split; [apply get_store|].
    split; [|done]. apply registered_as_store. }
  split; [|split; [|split]].
  - unfold IssueRegistry.register; simpl. rewrite Hcode, Himm; simpl.
    by apply Hfailed.
  - unfold IssueRegistry.apply_decorator; simpl. rewrite Hcode, Himm; simpl.
    by apply Hfailed.
  - unfold IssueRegistry.apply_decorator; simpl. rewrite Himm; simpl.
    by apply Hfailed.
  - intros Hno. unfold IssueRegistry.register; simpl.
    unfold IssueRegistry.hasattr_error_code in Hno.
    rewrite class_attr_store, Hno, Hcode, Himm; simpl.
    by apply Hfailed.
Qed.

(** [register("W", Warning, code="E1")] on the empty registry. *)
Lemma X3_builtin_kind_with_code_witness :
  let r := IssueRegistry.register (VStr "W") (VClass Samples.WarningT)
             (VStr "E1") IssueRegistry.empty in
  (∃ e, match r.2 with Raise e => Some e | Ok _ => None end = Some e
        ∧ exc_type e = TypeError)
  ∧ IssueRegistry.get r.1 (VStr "W") = Ok (VClass Samples.WarningT).
Proof.
  intros r.
  destruct (proj1 (X3_builtin_kind_with_code IssueRegistry.empty "W"
                     Samples.WarningT (VStr "E1") eq_refl ltac:(discriminate)))
    as (Hraised & Hget & _).
  split; [exact Hraised|exact Hget].
Defined.

(** X4.  A code is inherited.  Let the name [n] map to a kind [k] that
    has no [_error_code] of its own and whose first base class is the
    user-defined class [base].  A registration of [base] with a code
    under a name other than [n], by the direct call
    [register(name, base, code=code)], by the registrar
    [register(name, code=code)(base)], or by the registrar
    [register(code=code)(base)] when [n] is not the class name of [base],
    makes [get_all_issues] report that code under [n] with [k]; and when
    [n] is not the empty string the adapter resolves the issue [n] to that
    code. *)
Theorem X4_code_inherited_from_base :
  ∀ (st : IssueRegistry.registry) (n : string) (k base : pyclass)
    (rest : list nat) (code : pyval),
    IssueRegistry._issues st !! n = Some (VClass k) →
    IssueRegistry.error_codes st !! cls_id k = None →
    cls_bases k = cls_id base :: rest →
    cls_immutable base = false →
    code ≠ VNone →
    let inherited (st' : IssueRegistry.registry) :=
      IssueRegistry.get_all_issues st' !! n
      = Some (IssueRegistry.IssueInfo (VClass k) code)
      ∧ (n ≠ "" →
         IssueRegistryAdapter.resolve st' [("issue", VStr n)] = Ok code) in
    (∀ name, n ≠ name →
       inherited (IssueRegistry.register (VStr name) (VClass base) code st).1)
    ∧ (∀ name, n ≠ name →
         inherited (IssueRegistry.apply_decorator
                      (IssueRegistry.DecoratorNamed name code) (VClass base) st).1)
    ∧ (n ≠ cls_name base →
       inherited (IssueRegistry.apply_decorator
                    (IssueRegistry.DecoratorAuto code) (VClass base) st).1).
Proof.
  intros st n k base rest code Hn Hown Hbases Hmut Hcode%is_None_false inherited.
  assert (Hset : ∀ name, n ≠ name →
    inherited (IssueRegistry.Registry
                 (<[name := VClass base]> (IssueRegistry._issues st))
                 (<[cls_id base := code]> (IssueRegistry.error_codes st)))).
  { intros name Hne.
    pose proof (class_attr_from_first_base
                  (<[name := VClass base]> (IssueRegistry._issues st))
                  (IssueRegistry.error_codes st) k base rest code Hown Hbases)
      as Hattr.
    assert (Hstored : <[name := VClass base]> (IssueRegistry._issues st) !! n
                      = Some (VClass k)) by (by rewrite lookup_insert_ne).
    split.
    - rewrite get_all_issues_lookup. cbn [IssueRegistry._issues].
      rewrite Hstored; simpl. unfold IssueRegistry.getattr_error_code.
      by rewrite Hattr.
    - intros Hnonempty.
      rewrite (resolve_name _ [("issue", VStr n)] n eq_refl Hnonempty).
      cbn [IssueRegistry._issues]. rewrite Hstored. cbn [truthy].
      unfold IssueRegistry.getattr_error_code. by rewrite Hattr. }
  split; [|split].
  - intros name Hne. rewrite register_direct by done. rewrite Hcode.
    by apply Hset.
  - intros name Hne. rewrite apply_named by done. rewrite Hcode.
    by apply Hset.
  - intros Hne. rewrite apply_auto by done. by apply Hset.
Qed.

(** [Derived] has the user-defined [Base] as its first base class; "D"
    maps to [Derived], and a code is then put on [Base]. *)
Lemma X4_code_inherited_from_base_witness :
  let Base := PyClass 20 "Base" [0] false in
  let Derived := PyClass 21 "Derived" [20; 0] false in
  let st := (IssueRegistry.register (VStr "D") (VClass Derived) VNone
               IssueRegistry.empty).1 in
  let st' := (IssueRegistry.register (VStr "B") (VClass Base) (VStr "E7") st).1 in
  IssueRegistry.get_all_issues st' !! "D"
  = Some (IssueRegistry.IssueInfo (VClass Derived) (VStr "E7"))
  ∧ IssueRegistryAdapter.resolve st' [("issue", VStr "D")] = Ok (VStr "E7").
Proof.
  intros Base Derived st st'.
  destruct (proj1 (X4_code_inherited_from_base st "D" Derived Base [0] (VStr "E7")
                     eq_refl eq_refl eq_refl eq_refl ltac:(discriminate))
              "B" ltac:(discriminate)) as [Hall Hres].
  split; [exact Hall|]. apply Hres. discriminate.
Defined.

(** X5.  [get] and [get_all_issues] agree: the names [get_all_issues]
    lists are exactly the names stored; for a listed name the class listed
    is the object [get] returns and the code listed is
    [getattr(class, "_error_code", None)]; for a name not listed [get]
    returns [None]. *)
Theorem X5_get_and_get_all_agree :
  ∀ (st : IssueRegistry.registry) (n : string),
    dom (IssueRegistry.get_all_issues st) = dom (IssueRegistry._issues st)
    ∧ (∀ info, IssueRegistry.get_all_issues st !! n = Some info →
         IssueRegistry.get st (VStr n) = Ok (IssueRegistry.info_class info)
         ∧ IssueRegistry.info_code info
           = IssueRegistry.getattr_error_code st
               (IssueRegistry.info_class info) VNone)
    ∧ (IssueRegistry.get_all_issues st !! n = None →
       IssueRegistry.get st (VStr n) = Ok VNone).
Proof.
  intros st n. split; [apply dom_fmap_L|].
  rewrite get_all_issues_lookup. unfold IssueRegistry.get.
  destruct (IssueRegistry._issues st !! n) as [obj|]; simpl.
  - split; [|done]. by intros info [= <-].
  - split; [done|done].
Qed.

(** After [register("A", SomeKind, code="E1")]. *)
Lemma X5_get_and_get_all_agree_witness :
  let st := (IssueRegistry.register (VStr "A") (VClass Samples.SomeKind)
               (VStr "E1") IssueRegistry.empty).1 in
  IssueRegistry.get st (VStr "A") = Ok (VClass Samples.SomeKind)
  ∧ IssueRegistry.get st (VStr "B") = Ok VNone.
Proof.
  intros st.
  pose proof (X5_get_and_get_all_agree st "A") as (_ & HA & _).
  pose proof (X5_get_and_get_all_agree st "B") as (_ & _ & HB).
  split.
  - exact (proj1 (HA (IssueRegistry.IssueInfo (VClass Samples.SomeKind)
                        (VStr "E1")) eq_refl)).
  - exact (HB eq_refl).
Defined.

(** X6.  Two registrations that name their entry, each made by the
    direct call [register(name, kind, code=code)] or by the registrar
    [register(name, code=code)(kind)], commute when the two names differ
    and the two kinds are different user-defined classes: the registry,
    table and codes, is the same whichever comes first, with or without
    codes.  (The kind-only form is not covered: what it writes depends on
    what the kind shows, which for a derived class depends on its
    bases.) *)
Theorem X6_independent_registrations_commute :
  ∀ (st : IssueRegistry.registry) (n1 n2 : string) (k1 k2 : pyclass)
    (c1 c2 : pyval),
    n1 ≠ n2 →
    cls_id k1 ≠ cls_id k2 →
    cls_immutable k1 = false →
    cls_immutable k2 = false →
    let direct1 st := (IssueRegistry.register (VStr n1) (VClass k1) c1 st).1 in
    let direct2 st := (IssueRegistry.register (VStr n2) (VClass k2) c2 st).1 in
    let named1 st :=
      (IssueRegistry.apply_decorator
         (IssueRegistry.DecoratorNamed n1 c1) (VClass k1) st).1 in
    let named2 st :=
      (IssueRegistry.apply_decorator
         (IssueRegistry.DecoratorNamed n2 c2) (VClass k2) st).1 in
    direct2 (direct1 st) = direct1 (direct2 st)
    ∧ named2 (named1 st) = named1 (named2 st)
    ∧ named2 (direct1 st) = direct1 (named2 st)
    ∧ direct2 (named1 st) = named1 (direct2 st).
Proof.
  intros st n1 n2 k1 k2 c1 c2 Hn Hk Hm1 Hm2 direct1 direct2 named1 named2.
  assert (Hd1 : ∀ st, named1 st = direct1 st).
  { intros st0. unfold named1, direct1.
    by rewrite apply_named, register_direct. }
  assert (Hd2 : ∀ st, named2 st = direct2 st).
  { intros st0. unfold named2, direct2.
    by rewrite apply_named, register_direct. }
  assert (Hcomm : direct2 (direct1 st) = direct1 (direct2 st)).
  { unfold direct1, direct2.
    rewrite !register_direct by done. cbn [fst].
    unfold IssueRegistry.store.
    destruct (is_None c1), (is_None c2); cbn [IssueRegistry._issues
      IssueRegistry.error_codes]; f_equal;
      try (by apply insert_insert_ne); done. }
  by rewrite !Hd1, !Hd2.
Qed.

(** "A" with [SomeKind] and "E1", "B" with [OtherKind] and no code, in
    either order. *)
Lemma X6_independent_registrations_commute_witness :
  (IssueRegistry.register (VStr "B") (VClass Samples.OtherKind) VNone
     (IssueRegistry.register (VStr "A") (VClass Samples.SomeKind) (VStr "E1")
        IssueRegistry.empty).1).1
  = (IssueRegistry.register (VStr "A") (VClass Samples.SomeKind) (VStr "E1")
       (IssueRegistry.register (VStr "B") (VClass Samples.OtherKind) VNone
          IssueRegistry.empty).1).1.
Proof.
  exact (proj1 (X6_independent_registrations_commute IssueRegistry.empty "A" "B"
                  Samples.SomeKind Samples.OtherKind (VStr "E1") VNone
                  ltac:(discriminate) ltac:(discriminate) eq_refl eq_refl)).
Defined.

(* ===================================================================== *)
(** * Further properties of the adapter                                   *)
(* ===================================================================== *)

Section adapter_more_lemmas.
Import IssueRegistry IssueRegistryAdapter Observations.
Implicit Types (st : registry) (msg v : pyval) (k : string)
  (d kwargs extra : list (string * pyval)).

Lemma dset_dset k v v' d : dset k v (dset k v' d) = dset k v d.
Proof.
  induction d as [|[k1 v1] d IH]; simpl.
  - by rewrite String.eqb_refl.
  - destruct (String.eqb k k1) eqn:Hk; simpl; rewrite Hk; [done|].
    by rewrite IH.
Qed.

Lemma dsetdefault_dset k v v' d : dsetdefault k v (dset k v' d) = dset k v' d.
Proof. unfold dsetdefault. by rewrite dget_dset_eq. Qed.

Lemma keys_dset_present k v d :
  is_Some (dget k d) → keys (dset k v d) = keys d.
Proof.
  unfold keys. induction d as [|[k1 v1] d IH]; simpl; [by intros [? ?]|].
  destruct (String.eqb k k1) eqn:Hk; simpl; [done|].
  intros H. f_equal. by apply IH.
Qed.

Lemma dset_absent k v d : dget k d = None → dset k v d = (d ++ [(k, v)])%list.
Proof.
  induction d as [|[k1 v1] d IH]; simpl; [done|].
  destruct (String.eqb k k1); [done|]. intros H. by rewrite IH.
Qed.

Lemma dsetdefault_cases k v d :
  dsetdefault k v d
  = (d ++ match dget k d with Some _ => [] | None => [(k, v)] end)%list.
Proof.
  unfold dsetdefault. destruct (dget k d) eqn:Hd.
  - by rewrite app_nil_r.
  - by apply dset_absent.
Qed.

(** Whether the lookup of [issue] raises does not depend on the
    registry. *)
Lemma resolve_returns_iff st extra :
  (∃ code, resolve st extra = Ok code)
  ↔ (truthy (default VNone (dget "issue" extra)) = true →
     hashable (default VNone (dget "issue" extra)) = true).
Proof.
  split; [|apply resolve_returns].
  intros [code Hr] Ht. unfold resolve in Hr. rewrite Ht in Hr.
  unfold get in Hr.
  destruct (default VNone (dget "issue" extra)); simpl in *; done.
Qed.

Lemma resolve_raises st extra e :
  resolve st extra = Raise e →
  truthy (default VNone (dget "issue" extra)) = true
  ∧ hashable (default VNone (dget "issue" extra)) = false
  ∧ exc_type e = TypeError.
Proof.
  unfold resolve.
  destruct (truthy (default VNone (dget "issue" extra))) eqn:Ht; [|done].
  unfold get.
  destruct (default VNone (dget "issue" extra)); simpl in *; try done;
    by intros [= <-].
Qed.

End adapter_more_lemmas.

(** X7.  Registration and emission compose: after a user-defined kind has
    been registered under a non-empty name with a code, by the direct call
    or by either registrar, a call whose extension names that issue and
    brings no [error_code] of its own is forwarded with that code. *)
Theorem X7_registered_code_reaches_the_record :
  ∀ (st : IssueRegistry.registry) (name : string) (k : pyclass)
    (code msg : pyval) (kwargs extra : list (string * pyval)),
    cls_immutable k = false →
    code ≠ VNone →
    name ≠ "" →
    IssueRegistryAdapter.call_extra kwargs = Some extra →
    dget "issue" extra = Some (VStr name) →
    dget "error_code" extra = None →
    let forwards_code (st' : IssueRegistry.registry) :=
      ∃ kwargs' extra',
        IssueRegistryAdapter.process st' msg kwargs = Ok (msg, kwargs')
        ∧ dget "extra" kwargs' = Some (VDict extra')
        ∧ dget "error_code" extra' = Some code in
    forwards_code (IssueRegistry.register (VStr name) (VClass k) code st).1
    ∧ forwards_code
        (IssueRegistry.apply_decorator
           (IssueRegistry.DecoratorNamed name code) (VClass k) st).1
    ∧ (cls_name k = name →
       forwards_code
         (IssueRegistry.apply_decorator
            (IssueRegistry.DecoratorAuto code) (VClass k) st).1).
Proof.
  intros st name k code msg kwargs extra Hmut Hcode Hname Hextra Hissue Hnone
    forwards_code.
  assert (Hgen : ∀ st', Notions.registered_as st' name k code →
                        IssueRegistry.class_attr st' k = Some code →
                        forwards_code st').
  { intros st' [Hget _] Hattr.
    assert (Hr : IssueRegistryAdapter.resolve st' extra = Ok code).
    { rewrite (resolve_name st' extra name Hissue Hname).
      unfold IssueRegistry.get in Hget.
      destruct (IssueRegistry._issues st' !! name) as [obj|]; simpl in Hget;
        [|done].
      injection Hget as ->. cbn [truthy].
      unfold IssueRegistry.getattr_error_code. by rewrite Hattr. }
    eexists _, _. split; [by apply process_forwards|].
    split; [apply forwarded_extra|].
    by rewrite dget_dsetdefault_eq, Hnone. }
  apply is_None_false in Hcode.
  split; [|split].
  - rewrite register_direct by done. rewrite Hcode.
    apply Hgen; [apply registered_as_set|apply class_attr_own].
  - rewrite apply_named by done. rewrite Hcode.
    apply Hgen; [apply registered_as_set|apply class_attr_own].
  - intros <-. rewrite apply_auto by done.
    apply Hgen; [apply registered_as_set|apply class_attr_own].
Qed.

(** The scenario "register QuotaExceeded with E2001, then log an error
    that names it". *)
Lemma X7_registered_code_reaches_the_record_witness :
  ∃ kwargs' extra',
    IssueRegistryAdapter.process
      (IssueRegistry.register (VStr "QuotaExceeded") (VClass Samples.SomeKind)
         (VStr "E2001") IssueRegistry.empty).1
      (VStr "quota") [("extra", VDict [("issue", VStr "QuotaExceeded")])]
    = Ok (VStr "quota", kwargs')
    ∧ dget "extra" kwargs' = Some (VDict extra')
    ∧ dget "error_code" extra' = Some (VStr "E2001").
Proof.
  exact (proj1 (X7_registered_code_reaches_the_record IssueRegistry.empty
                  "QuotaExceeded" Samples.SomeKind (VStr "E2001") (VStr "quota")
                  [("extra", VDict [("issue", VStr "QuotaExceeded")])]
                  [("issue", VStr "QuotaExceeded")]
                  eq_refl ltac:(discriminate) ltac:(discriminate)
                  eq_refl eq_refl eq_refl)).
Defined.

(** X8.  What the adapter has forwarded passes through it unchanged a
    second time, whatever the registry has become in between: the
    [error_code] written on the first pass is kept even when the issue is
    by then registered with another code. *)
Theorem X8_process_is_idempotent :
  ∀ (st st2 : IssueRegistry.registry) (msg msg' : pyval)
    (kwargs kwargs' : list (string * pyval)),
    IssueRegistryAdapter.process st msg kwargs = Ok (msg', kwargs') →
    IssueRegistryAdapter.process st2 msg' kwargs' = Ok (msg', kwargs').
Proof.
  intros st st2 msg msg' kwargs kwargs' Hp.
  rewrite process_unfold in Hp.
  destruct (IssueRegistryAdapter.call_extra kwargs) as [extra|] eqn:He; [|done].
  destruct (IssueRegistryAdapter.resolve st extra) as [code|] eqn:Hr; [|done].
  simpl in Hp. injection Hp as <- <-.
  set (extra' := dsetdefault "error_code" code extra).
  assert (He' : IssueRegistryAdapter.call_extra
                  (dset "extra" (VDict extra')
                     (dsetdefault "extra" (VDict []) kwargs)) = Some extra').
  { unfold IssueRegistryAdapter.call_extra. by rewrite dget_dset_eq. }
  assert (Hissue : dget "issue" extra' = dget "issue" extra).
  { unfold extra'. by rewrite dget_dsetdefault_ne. }
  destruct (proj2 (resolve_returns_iff st2 extra')) as [code2 Hr2].
  { rewrite Hissue. apply (resolve_returns_iff st extra). eauto. }
  rewrite (process_forwards st2 msg _ extra' code2 He' Hr2).
  do 2 f_equal. rewrite dsetdefault_dset, dset_dset. f_equal. f_equal.
  apply dsetdefault_present with (v0 := default code (dget "error_code" extra)).
  unfold extra'. apply dget_dsetdefault_eq.
Qed.

(** A record forwarded while "Q" had no code keeps "XXX" after "Q" has
    been given the code "E9". *)
Lemma X8_process_is_idempotent_witness :
  let st := (IssueRegistry.register (VStr "Q") (VClass Samples.SomeKind) VNone
               IssueRegistry.empty).1 in
  let st2 := (IssueRegistry.register (VStr "Q") (VClass Samples.SomeKind)
                (VStr "E9") st).1 in
  let forwarded := [("extra", VDict [("issue", VStr "Q");
                                     ("error_code", VStr "XXX")])] in
  IssueRegistryAdapter.process st2 (VStr "m") forwarded
  = Ok (VStr "m", forwarded).
Proof.
  intros st st2 forwarded.
  exact (X8_process_is_idempotent st st2 (VStr "m") (VStr "m")
           [("extra", VDict [("issue", VStr "Q")])] forwarded eq_refl).
Defined.

(** X9.  The adapter raises in two cases only, and neither depends on the
    registry: an [AttributeError] when [extra] is present and is not a
    dictionary (for instance [extra=None]), and a [TypeError] when [extra]
    is a dictionary whose [issue] is a truthy unhashable object (a
    non-empty list or dictionary).  In every other case it forwards. *)
Theorem X9_when_process_raises :
  ∀ (st : IssueRegistry.registry) (msg : pyval)
    (kwargs : list (string * pyval)),
    (IssueRegistryAdapter.call_extra kwargs = None →
     ∃ e, IssueRegistryAdapter.process st msg kwargs = Raise e
          ∧ exc_type e = AttributeError)
    ∧ (∀ extra v,
         IssueRegistryAdapter.call_extra kwargs = Some extra →
         dget "issue" extra = Some v →
         truthy v = true → hashable v = false →
         ∃ e, IssueRegistryAdapter.process st msg kwargs = Raise e
              ∧ exc_type e = TypeError)
    ∧ (∀ e, IssueRegistryAdapter.process st msg kwargs = Raise e →
         (IssueRegistryAdapter.call_extra kwargs = None
          ∧ exc_type e = AttributeError)
         ∨ (∃ extra v,
              IssueRegistryAdapter.call_extra kwargs = Some extra
              ∧ dget "issue" extra = Some v
              ∧ truthy v = true ∧ hashable v = false
              ∧ exc_type e = TypeError)).
Proof.
  intros st msg kwargs. rewrite process_unfold. split; [|split].
  - intros ->. eauto.
  - intros extra v -> Hi Ht Hh.
    destruct (IssueRegistryAdapter.resolve st extra) as [code|e] eqn:Hr.
    + exfalso.
      assert (Hsome : ∃ c, IssueRegistryAdapter.resolve st extra = Ok c)
        by eauto.
      apply resolve_returns_iff in Hsome; [|by rewrite Hi].
      rewrite Hi in Hsome. simpl in Hsome. congruence.
    + apply resolve_raises in Hr as (_ & _ & He). simpl. eauto.
  - intros e He.
    destruct (IssueRegistryAdapter.call_extra kwargs) as [extra|];
      [|injection He as <-; by left].
    destruct (IssueRegistryAdapter.resolve st extra) as [code|e'] eqn:Hr;
      [done|].
    simpl in He. injection He as <-.
    apply resolve_raises in Hr as (Ht & Hh & Hty). right.
    destruct (dget "issue" extra) as [v|] eqn:Hi; [|done].
    exists extra, v. eauto.
Qed.

(** [logger.info("m", extra=None)] and
    [logger.info("m", extra={"issue": ["a"]})]. *)
Lemma X9_when_process_raises_witness :
  (∃ e, IssueRegistryAdapter.process IssueRegistry.empty (VStr "m")
          [("extra", VNone)] = Raise e
        ∧ exc_type e = AttributeError)
  ∧ (∃ e, IssueRegistryAdapter.process IssueRegistry.empty (VStr "m")
            [("extra", VDict [("issue", VList [VStr "a"])])] = Raise e
          ∧ exc_type e = TypeError).
Proof.
  split.
  - exact (proj1 (X9_when_process_raises IssueRegistry.empty (VStr "m")
                    [("extra", VNone)]) eq_refl).
  - exact (proj1 (proj2 (X9_when_process_raises IssueRegistry.empty (VStr "m")
                           [("extra", VDict [("issue", VList [VStr "a"])])]))
             [("issue", VList [VStr "a"])] (VList [VStr "a"])
             eq_refl eq_refl eq_refl eq_refl).
Defined.

(** X10.  The adapter removes and reorders nothing.  The keyword arguments
    forwarded are the caller's, in their order, followed by [extra] when
    the caller gave none; the keys of the forwarded extension are the
    caller's keys, in their order ([issue] included), followed by
    [error_code] when the caller gave none. *)
Theorem X10_process_keeps_keys_and_order :
  ∀ (st : IssueRegistry.registry) (msg msg' : pyval)
    (kwargs kwargs' : list (string * pyval)),
    IssueRegistryAdapter.process st msg kwargs = Ok (msg', kwargs') →
    ∃ extra extra',
      IssueRegistryAdapter.call_extra kwargs = Some extra
      ∧ dget "extra" kwargs' = Some (VDict extra')
      ∧ Observations.keys kwargs'
        = (Observations.keys kwargs
           ++ match dget "extra" kwargs with
              | Some _ => []
              | None => ["extra"]
              end)%list
      ∧ Observations.keys extra'
        = (Observations.keys extra
           ++ match dget "error_code" extra with
              | Some _ => []
              | None => ["error_code"]
              end)%list.
Proof.
  intros st msg msg' kwargs kwargs' Hp.
  rewrite process_unfold in Hp.
  destruct (IssueRegistryAdapter.call_extra kwargs) as [extra|] eqn:He; [|done].
  destruct (IssueRegistryAdapter.resolve st extra) as [code|]; [|done].
  simpl in Hp. injection Hp as <- <-.
  exists extra, (dsetdefault "error_code" code extra).
  split; [done|]. split; [apply dget_dset_eq|]. split.
  - rewrite keys_dset_present
      by (rewrite dget_dsetdefault_eq; eauto).
    rewrite dsetdefault_cases. unfold Observations.keys.
    rewrite fmap_app. by destruct (dget "extra" kwargs).
  - rewrite dsetdefault_cases. unfold Observations.keys.
    rewrite fmap_app. by destruct (dget "error_code" extra).
Qed.

(** [logger.info("m", stacklevel=2)]: [extra] is added after
    [stacklevel]. *)
Lemma X10_process_keeps_keys_and_order_witness :
  let kwargs := [("stacklevel", VInt 2)] in
  let kwargs' := [("stacklevel", VInt 2);
                  ("extra", VDict [("error_code", VStr "XXX")])] in
  IssueRegistryAdapter.process IssueRegistry.empty (VStr "m") kwargs
  = Ok (VStr "m", kwargs')
  ∧ ∃ extra extra',
      IssueRegistryAdapter.call_extra kwargs = Some extra
      ∧ dget "extra" kwargs' = Some (VDict extra')
      ∧ Observations.keys kwargs'
        = (Observations.keys kwargs ++ ["extra"])%list
      ∧ Observations.keys extra'
        = (Observations.keys extra
           ++ match dget "error_code" extra with
              | Some _ => []
              | None => ["error_code"]
              end)%list.
Proof.
  intros kwargs kwargs'. split; [reflexivity|].
  exact (X10_process_keeps_keys_and_order IssueRegistry.empty (VStr "m")
           (VStr "m") kwargs kwargs' eq_refl).
Defined.

(* ===================================================================== *)
(** * Further properties of the factory of logs/core/factory.py           *)
(* ===================================================================== *)

Section factory_more_lemmas.
Import LogsCoreFactory Observations.
Implicit Types (E : env) (w : world) (e : exn) (evs : list event)
  (p : event → bool).

Lemma count_after p evs w :
  count p (after evs w) = (count p w + length (List.filter p evs))%nat.
Proof. unfold count, after; simpl. by rewrite List.filter_app, length_app. Qed.

Lemma filter_none p evs :
  Forall (λ ev, p ev = false) evs → List.filter p evs = [].
Proof. induction 1 as [|ev evs Hev _ IH]; simpl; [done|]. by rewrite Hev. Qed.

Lemma setup_events_only E config_path w :
  ∃ evs, (_setup_logging E config_path w).1 = after evs w
         ∧ Forall (λ ev, is_setup_event ev = true) evs.
Proof.
  unfold _setup_logging, try_except. rewrite try_suite_cases.
  set (path := effective_path E config_path).
  destruct (os_open E path) as [file|e].
  - destruct (yaml_safe_load E file) as [config|e].
    + destruct (dictConfig_error E config) as [e|].
      * rewrite setup_handler_cases.
        destruct (is_missing_or_unparseable (exc_type e)).
        -- rewrite after_after. eexists; split; [done|]. by repeat constructor.
        -- eexists; split; [by destruct (is_Exception (exc_type e))|].
           by repeat constructor.
      * eexists; split; [done|]. by repeat constructor.
    + rewrite setup_handler_cases.
      destruct (is_missing_or_unparseable (exc_type e)).
      * rewrite after_after. eexists; split; [done|]. by repeat constructor.
      * eexists; split; [by destruct (is_Exception (exc_type e))|].
        by repeat constructor.
  - rewrite setup_handler_cases.
    destruct (is_missing_or_unparseable (exc_type e)).
    + rewrite after_after. eexists; split; [done|]. by repeat constructor.
    + eexists; split; [by destruct (is_Exception (exc_type e))|].
      by repeat constructor.
Qed.

Lemma start_queue_listener_cases E w :
  _start_queue_listener E w =
  match queueHandler E with
  | None => (w, Ok tt)
  | Some None => (after [EvListenerStart; EvAtexitRegister] w, Ok tt)
  | Some (Some e) => (after [EvListenerStart] w, Raise e)
  end.
Proof.
  unfold _start_queue_listener. destruct (queueHandler E) as [[e|]|]; try done.
  unfold mbind, M_bind, bindM. by rewrite !emit_after, after_after.
Qed.

(** Everything a call to [create_logger] does while the flag is down. *)
Lemma create_logger_uninitialized_cases E name w :
  _initialized w = false →
  ∃ evs r1,
    _setup_logging E None w = (after evs w, r1)
    ∧ Forall (λ ev, is_setup_event ev = true) evs
    ∧ create_logger E name w =
      match r1 with
      | Raise e => (after evs w, Raise e)
      | Ok _ =>
          match queueHandler E with
          | None =>
              (World true (dirs w) (trace w ++ evs ++ [EvGetLogger name]),
               Ok (Adapter name))
          | Some None =>
              (World true (dirs w)
                 (trace w ++ evs ++ [EvListenerStart; EvAtexitRegister;
                                     EvGetLogger name]),
               Ok (Adapter name))
          | Some (Some e) =>
              (after (evs ++ [EvListenerStart]) w, Raise e)
          end
      end.
Proof.
  intros Hflag.
  destruct (setup_events_only E None w) as (evs & Hw1 & Hevs).
  destruct (_setup_logging E None w) as [w1 r1] eqn:Hs. simpl in Hw1. subst w1.
  exists evs, r1. split; [done|]. split; [done|].
  unfold create_logger, _initialize, mbind, M_bind, bindM.
  rewrite Hflag; simpl. rewrite Hs.
  destruct r1 as [[]|e]; [|done].
  rewrite start_queue_listener_cases.
  destruct (queueHandler E) as [[e|]|]; simpl.
  - by rewrite after_after.
  - by rewrite <- !app_assoc.
  - by rewrite <- !app_assoc.
Qed.

Lemma setup_event_kinds ev :
  is_setup_event ev = true →
  is_atexit ev = false ∧ is_listener_start ev = false ∧ is_getLogger ev = false.
Proof. by destruct ev. Qed.

Lemma setup_events_count p evs :
  (∀ ev, is_setup_event ev = true → p ev = false) →
  Forall (λ ev, is_setup_event ev = true) evs →
  length (List.filter p evs) = 0.
Proof.
  intros Hp Hevs. rewrite filter_none; [done|].
  eapply Forall_impl; [exact Hevs|]. done.
Qed.

(** The counts of the events a call adds. *)
Lemma create_logger_counts E name w :
  let r := create_logger E name w in
  (count is_atexit w ≤ count is_atexit r.1 ≤ count is_atexit w + 1)%nat
  ∧ (count is_atexit w < count is_atexit r.1 →
     _initialized w = false ∧ _initialized r.1 = true)%nat
  ∧ count is_getLogger r.1
    = (count is_getLogger w + match r.2 with Ok _ => 1 | Raise _ => 0 end)%nat.
Proof.
  intros r. subst r. destruct (_initialized w) eqn:Hflag.
  { rewrite create_logger_initialized by done. simpl.
    rewrite !count_after; simpl. repeat split; lia. }
  destruct (create_logger_uninitialized_cases E name w Hflag)
    as (evs & r1 & _ & Hevs & ->).
  assert (Ha : length (List.filter is_atexit evs) = 0).
  { apply setup_events_count; [|done]. intros ev. by destruct ev. }
  assert (Hg : length (List.filter is_getLogger evs) = 0).
  { apply setup_events_count; [|done]. intros ev. by destruct ev. }
  destruct r1 as [[]|e]; simpl.
  - destruct (queueHandler E) as [[e|]|]; simpl; unfold count; simpl;
      rewrite ?List.filter_app, ?length_app; simpl; rewrite ?Ha, ?Hg; simpl;
      (split; [lia|split; [try done; lia|lia]]).
  - rewrite !count_after, Ha, Hg. split; [lia|split; [lia|lia]].
Qed.

End factory_more_lemmas.

Section shutdown_hook.
Import LogsCoreFactory Observations.

Lemma hook_invariant_step E name w :
  hook_invariant w → hook_invariant (create_logger E name w).1.
Proof.
  intros [Hle Hzero].
  pose proof (create_logger_counts E name w) as ([Hlo Hhi] & Hgrow & _).
  pose proof (create_logger_step E name w) as (_ & _ & Hup & _).
  simpl in *.
  destruct (_initialized w) eqn:Hflag.
  - destruct (Hup eq_refl) as [Hflag' _]. split; [|congruence].
    destruct (decide (count is_atexit w < count is_atexit (create_logger E name w).1)%nat)
      as [Hlt|Hge]; [|lia].
    destruct (Hgrow Hlt). congruence.
  - specialize (Hzero eq_refl). split; [lia|].
    intros Hdown.
    destruct (decide (count is_atexit w < count is_atexit (create_logger E name w).1)%nat)
      as [Hlt|Hge]; [|lia].
    destruct (Hgrow Hlt). congruence.
Qed.

Lemma hook_invariant_run calls w (i : nat) ri :
  hook_invariant w → run calls w !! i = Some ri → hook_invariant ri.1.
Proof.
  revert w i. induction calls as [|[E name] rest IH]; intros w i Hinv Hi;
    [done|].
  destruct i as [|i]; simpl in Hi.
  - injection Hi as <-. by apply hook_invariant_step.
  - eapply IH; [|done]. by apply hook_invariant_step.
Qed.

End shutdown_hook.

(** X11.  Over any succession of [create_logger] calls of a process,
    whatever the surroundings of each call and whichever calls raise, the
    listener's [stop] is registered with [atexit] at most once, and only
    by the call that raises the flag: as long as the flag is down no hook
    has been registered. *)
Theorem X11_shutdown_hook_registered_at_most_once :
  ∀ (calls : list (env * string)) (existing : gset string) (i : nat)
    (ri : world * result LogsCoreFactory.adapter),
    LogsCoreFactory.run calls (initial existing) !! i = Some ri →
    (Observations.count Observations.is_atexit ri.1 ≤ 1)%nat
    ∧ (_initialized ri.1 = false →
       Observations.count Observations.is_atexit ri.1 = 0).
Proof.
  intros calls existing i ri Hi.
  apply (hook_invariant_run calls (initial existing) i ri); [|done].
  split; [unfold Observations.count; simpl; lia|done].
Qed.

(** A listener that refuses to start on the first call and starts on the
    second: after three calls one hook is registered. *)
Lemma X11_shutdown_hook_registered_at_most_once_witness :
  ∃ ri,
    LogsCoreFactory.run
      [(Samples.env_queue_broken, "a"); (Samples.env_queue, "b");
       (Samples.env_queue, "c")] (initial ∅) !! 2 = Some ri
    ∧ (Observations.count Observations.is_atexit ri.1 ≤ 1)%nat.
Proof.
  eexists. split; [reflexivity|].
  exact (proj1 (X11_shutdown_hook_registered_at_most_once
                  [(Samples.env_queue_broken, "a"); (Samples.env_queue, "b");
                   (Samples.env_queue, "c")] ∅ 2 _ eq_refl)).
Defined.



(** X13.  When setup has gone through and the queue handler's listener
    refuses to start, [create_logger] raises that very exception, not a
    [RuntimeError] made by the factory; the flag stays down although the
    configuration has been applied, no shutdown hook is registered and no
    logger is fetched. *)
Theorem X13_listener_failure_is_raised_as_it_is :
  ∀ (E : env) (name : string) (w ws : world) (e : exn),
    _initialized w = false →
    LogsCoreFactory._setup_logging E None w = (ws, Ok tt) →
    queueHandler E = Some (Some e) →
    LogsCoreFactory.create_logger E name w
    = (after [EvListenerStart] ws, Raise e)
    ∧ _initialized (after [EvListenerStart] ws) = false.
Proof.
  intros E name w ws e Hflag Hs Hq.
  destruct (create_logger_uninitialized_cases E name w Hflag)
    as (evs & r1 & Hs' & _ & ->).
  rewrite Hs in Hs'. injection Hs' as -> <-.
  rewrite Hq. rewrite after_after. done.
Qed.

(** The configuration is applied, the listener refuses. *)
Lemma X13_listener_failure_is_raised_as_it_is_witness :
  ∃ ws,
    LogsCoreFactory.create_logger Samples.env_queue_broken "a" (initial ∅)
    = (after [EvListenerStart] ws,
       Raise (Exn RuntimeError "threads can only be started once"))
    ∧ Observations.count Observations.is_dictConfig ws = 1.
Proof.
  eexists. split.
  - exact (proj1 (X13_listener_failure_is_raised_as_it_is
                    Samples.env_queue_broken "a" (initial ∅) _ _
                    eq_refl eq_refl eq_refl)).
  - reflexivity.
Defined.

(** X14.  [create_logger] fetches a logger exactly when it returns: a call
    that returns has called [logging.getLogger(name)] once, as its last
    act, and hands back the adapter for that name; a call that raises has
    fetched none. *)
Theorem X14_logger_fetched_iff_returned :
  ∀ (E : env) (name : string) (w : world),
    let r := LogsCoreFactory.create_logger E name w in
    (∀ a, r.2 = Ok a →
       a = LogsCoreFactory.Adapter name
       ∧ last (trace r.1) = Some (EvGetLogger name)
       ∧ Observations.count Observations.is_getLogger r.1
         = S (Observations.count Observations.is_getLogger w))
    ∧ (∀ e, r.2 = Raise e →
         Observations.count Observations.is_getLogger r.1
         = Observations.count Observations.is_getLogger w).
Proof.
  intros E name w r.
  pose proof (create_logger_counts E name w) as (_ & _ & Hcount).
  fold r in Hcount. split.
  - intros a Ha. rewrite Ha in Hcount. split; [|split; [|lia]].
    + pose proof (create_logger_step E name w) as (_ & _ & _ & _ & Hname).
      by apply Hname.
    + subst r. destruct (_initialized w) eqn:Hflag.
      * rewrite create_logger_initialized by done. simpl. by rewrite last_snoc.
      * destruct (create_logger_uninitialized_cases E name w Hflag)
          as (evs & r1 & _ & _ & Hc).
        rewrite Hc in Ha |- *.
        destruct r1 as [[]|e]; [|done].
        destruct (queueHandler E) as [[e|]|]; simpl in *; try done.
        -- change [EvListenerStart; EvAtexitRegister; EvGetLogger name]
             with ([EvListenerStart; EvAtexitRegister] ++ [EvGetLogger name])%list.
           by rewrite !app_assoc, last_snoc.
        -- by rewrite app_assoc, last_snoc.
  - intros e He. rewrite He in Hcount. lia.
Qed.

(** The first call of a process with a missing configuration file. *)
Lemma X14_logger_fetched_iff_returned_witness :
  last (trace (LogsCoreFactory.create_logger Samples.env_missing "app"
                 (initial ∅)).1)
  = Some (EvGetLogger "app").
Proof.
  exact (proj1 (proj2 (proj1 (X14_logger_fetched_iff_returned
                                Samples.env_missing "app" (initial ∅))
                         (LogsCoreFactory.Adapter "app") eq_refl))).
Defined.

(* ===================================================================== *)
(** * Further properties of core/factory.py                               *)
(* ===================================================================== *)

Section file_output_more_lemmas.
Import posixpath Notions Observations CoreFactory.
Implicit Types (E : env) (w : world) (root : string)
  (h : list (string * pyval)) (handler : pyval).

Lemma makedirs_frame E name exist_ok w :
  let r := makedirs E name exist_ok w in
  _initialized r.1 = _initialized w ∧ trace r.1 = trace w
  ∧ dirs w ⊆ dirs r.1.
Proof.
  unfold makedirs. destruct (makedirs_error E name); [done|].
  destruct (bool_decide (name ∈ dirs w) && negb exist_ok); [done|].
  simpl. split; [done|]. split; [done|]. set_solver.
Qed.

(** The loop body touches neither flag nor trace, removes no directory,
    and returns a plain handler as it is. *)
Lemma rewrite_handler_frame E root handler w :
  let r := rewrite_handler E root handler w in
  _initialized r.1 = _initialized w ∧ trace r.1 = trace w
  ∧ dirs w ⊆ dirs r.1
  ∧ (plain_handler handler = true → r = (w, Ok handler)).
Proof.
  destruct handler as [| | | | | |h]; try done.
  unfold rewrite_handler, plain_handler.
  destruct (class_differs h); [done|].
  unfold mbind, M_bind, bindM, lift, mret, M_ret, retM.
  destruct (truthy (default (VStr "") (dget "foldername" h))).
  - destruct (fspath (default (VStr "") (dget "foldername" h))); simpl;
      [|done].
    destruct (truthy _); [|done].
    destruct (fspath _); simpl; [|done].
    match goal with
    | |- context [makedirs E ?n true w] =>
        pose proof (makedirs_frame E n true w) as (Hi & Ht & Hd);
        destruct (makedirs E n true w) as [w' [[]|e]]
    end; simpl in *; done.
  - simpl. destruct (truthy _); [|done].
    destruct (fspath _); simpl; [|done].
    match goal with
    | |- context [makedirs E ?n true w] =>
        pose proof (makedirs_frame E n true w) as (Hi & Ht & Hd);
        destruct (makedirs E n true w) as [w' [[]|e]]
    end; simpl in *; done.
Qed.

Lemma rewrite_handlers_frame E root (handlers : list (string * pyval)) w :
  let r := rewrite_handlers E root handlers w in
  _initialized r.1 = _initialized w ∧ trace r.1 = trace w
  ∧ dirs w ⊆ dirs r.1
  ∧ (∀ handlers', r.2 = Ok handlers' →
       keys handlers' = keys handlers
       ∧ ∀ (i : nat) name handler,
           handlers !! i = Some (name, handler) →
           plain_handler handler = true →
           handlers' !! i = Some (name, handler))
  ∧ (forallb (λ nh, plain_handler nh.2) handlers = true →
     r = (w, Ok handlers)).
Proof.
  revert w. induction handlers as [|[name handler] rest IH]; intros w.
  { simpl. do 3 (split; [done|]). split; [|done].
    intros ? [= <-]. done. }
  simpl. unfold mbind, M_bind, bindM.
  pose proof (rewrite_handler_frame E root handler w) as (Hi & Ht & Hd & Hplain).
  destruct (rewrite_handler E root handler w) as [w1 [handler'|e]];
    simpl in *.
  2: { do 3 (split; [done|]). split; [done|].
       intros [Hp _]%andb_true_iff. by specialize (Hplain Hp). }
  pose proof (IH w1) as (Hi2 & Ht2 & Hd2 & Hok2 & Hall2).
  destruct (rewrite_handlers E root rest w1) as [w2 [rest'|e]]; simpl in *.
  2: { split; [congruence|]. split; [congruence|]. split; [by etrans|].
       split; [done|].
       intros [Hp Hrest]%andb_true_iff.
       specialize (Hplain Hp). injection Hplain as -> ->.
       by specialize (Hall2 Hrest). }
  split; [congruence|]. split; [congruence|]. split; [by etrans|]. split.
  - intros ? [= <-]. destruct (Hok2 rest' eq_refl) as [Hkeys Hsame].
    split; [unfold keys in *; simpl; by f_equal|].
    intros [|i] name' handler0 Hlook Hp; simpl in *.
    + injection Hlook as <- <-. specialize (Hplain Hp). by injection Hplain as _ <-.
    + by apply Hsame.
  - intros [Hp Hrest]%andb_true_iff.
    specialize (Hplain Hp). injection Hplain as -> ->.
    specialize (Hall2 Hrest). by injection Hall2 as -> ->.
Qed.


Lemma dpop_absent k d : dget k d = None → dpop k d = d.
Proof.
  induction d as [|[k1 v1] d IH]; simpl; [done|].
  destruct (String.eqb k k1); [done|]. intros H. by rewrite IH.
Qed.

End file_output_more_lemmas.

(** X15.  When the file-output step returns, it has changed nothing but
    rotating file handlers: the configuration keeps its keys, their order
    and every value other than [handlers]; the handlers keep their names
    and order; every handler that is not a rotating file handler is handed
    on as loaded (its [foldername], if it has one, included); the flag and
    the trace are untouched and no directory has gone.  A configuration
    without [handlers] is returned as it is, and nothing is created. *)
Theorem X15_step_changes_only_rotating_handlers :
  ∀ (E : env) (c : list (string * pyval)) (w : world),
    (∀ handlers w' config',
       dget "handlers" c = Some (VDict handlers) →
       CoreFactory._setup_file_output_directory E (VDict c) None w
       = (w', Ok config') →
       ∃ handlers',
         config' = VDict (dset "handlers" (VDict handlers') c)
         ∧ Observations.keys (dset "handlers" (VDict handlers') c)
           = Observations.keys c
         ∧ (∀ key, key ≠ "handlers" →
              dget key (dset "handlers" (VDict handlers') c) = dget key c)
         ∧ Observations.keys handlers' = Observations.keys handlers
         ∧ (∀ (i : nat) name handler,
              handlers !! i = Some (name, handler) →
              Observations.plain_handler handler = true →
              handlers' !! i = Some (name, handler))
         ∧ _initialized w' = _initialized w ∧ trace w' = trace w
         ∧ dirs w ⊆ dirs w')
    ∧ (dget "handlers" c = None →
       CoreFactory._setup_file_output_directory E (VDict c) None w
       = (w, Ok (VDict c))).
Proof.
  intros E c w. split.
  - intros handlers w' config' Hh Hstep.
    unfold CoreFactory._setup_file_output_directory in Hstep.
    rewrite Hh in Hstep. unfold mbind, M_bind, bindM in Hstep.
    pose proof (rewrite_handlers_frame E (default_project_root E) handlers w)
      as (Hi & Ht & Hd & Hok & _).
    destruct (CoreFactory.rewrite_handlers E (default_project_root E) handlers w)
      as [w1 [handlers'|e]]; [|done].
    simpl in *. injection Hstep as <- <-.
    destruct (Hok handlers' eq_refl) as [Hkeys Hplain].
    exists handlers'. split; [done|].
    split; [apply keys_dset_present; eauto|].
    split; [intros key Hk; by apply dget_dset_ne|].
    done.
  - intros Hnone. unfold CoreFactory._setup_file_output_directory.
    by rewrite Hnone.
Qed.

(** The sample configuration: the console handler comes out as it went
    in. *)
Lemma X15_step_changes_only_rotating_handlers_witness :
  let r := CoreFactory._setup_file_output_directory
             (Samples.env_with Samples.sample_config)
             (VDict Samples.sample_config) None (initial ∅) in
  ∃ handlers',
    r.2 = Ok (VDict (dset "handlers" (VDict handlers') Samples.sample_config))
    ∧ handlers' !! 0 = Some ("console", Samples.console_handler)
    ∧ Observations.keys handlers' = ["console"; "file"].
Proof.
  intros r.
  assert (Hr : CoreFactory._setup_file_output_directory
                 (Samples.env_with Samples.sample_config)
                 (VDict Samples.sample_config) None (initial ∅)
               = (r.1, Ok (VDict
                    [("version", VInt 1);
                     ("handlers",
                      VDict [("console", Samples.console_handler);
                             ("file",
                              VDict [("class",
                                      VStr "logging.handlers.RotatingFileHandler");
                                     ("filename",
                                      VStr "/srv/app/logs/worker/app.log");
                                     ("maxBytes", VInt 1048576)])])])))
    by (vm_compute; reflexivity).
  destruct (proj1 (X15_step_changes_only_rotating_handlers
                     (Samples.env_with Samples.sample_config)
                     Samples.sample_config (initial ∅))
              [("console", Samples.console_handler);
               ("file", Samples.file_handler)] _ _ eq_refl Hr)
    as (handlers' & Hc & _ & _ & Hkeys & Hplain & _).
  exists handlers'. split; [|split].
  - unfold r. rewrite Hr. simpl. by rewrite Hc.
  - exact (Hplain 0 "console" Samples.console_handler eq_refl eq_refl).
  - exact Hkeys.
Defined.

(** X16.  The [foldername] key is taken out of every rotating file
    handler, also of one that names no file: for such a handler (no
    [filename], or a falsy one) the loop body only removes [foldername],
    creates no directory and leaves every other key. *)
Theorem X16_rotating_handler_without_filename :
  ∀ (E : env) (root : string) (h : list (string * pyval)) (w : world),
    dget "class" h = Some (VStr "logging.handlers.RotatingFileHandler") →
    Notions.str_or_falsy (dget "foldername" h) = true →
    truthy (default VNone (dget "filename" h)) = false →
    CoreFactory.rewrite_handler E root (VDict h) w
    = (w, Ok (VDict (dpop "foldername" h)))
    ∧ dget "foldername" (dpop "foldername" h) = None
    ∧ ∀ key, key ≠ "foldername" →
        dget key (dpop "foldername" h) = dget key h.
Proof.
  intros E root h w Hclass Hfolder Hfile.
  split; [|split; [apply dget_dpop_eq|intros key Hk; by apply dget_dpop_ne]].
  unfold CoreFactory.rewrite_handler.
  rewrite (class_differs_marker h Hclass).
  unfold mbind, M_bind, bindM.
  pose proof (output_folder_computed h Hfolder) as Hc. cbv zeta in Hc.
  destruct (truthy (default (VStr "") (dget "foldername" h))) eqn:Ht.
  - unfold lift. rewrite Hc. rewrite dget_dpop_ne by done. by rewrite Hfile.
  - unfold mret, M_ret, retM. rewrite dget_dpop_ne by done. by rewrite Hfile.
Qed.

(** A rotating file handler with a folder and no file name. *)
Lemma X16_rotating_handler_without_filename_witness :
  CoreFactory.rewrite_handler (Samples.env_with []) "/srv/app"
    (VDict [("class", VStr "logging.handlers.RotatingFileHandler");
            ("foldername", VStr "worker"); ("backupCount", VInt 3)])
    (initial ∅)
  = (initial ∅,
     Ok (VDict [("class", VStr "logging.handlers.RotatingFileHandler");
                ("backupCount", VInt 3)])).
Proof.
  exact (proj1 (X16_rotating_handler_without_filename (Samples.env_with [])
                  "/srv/app"
                  [("class", VStr "logging.handlers.RotatingFileHandler");
                   ("foldername", VStr "worker"); ("backupCount", VInt 3)]
                  (initial ∅) eq_refl eq_refl eq_refl)).
Defined.

Section step_twice.
Import posixpath Notions Observations CoreFactory.
Implicit Types (E : env) (w : world) (root : string)
  (h : list (string * pyval)) (handler : pyval).

Lemma join_step_absolute a b :
  startswith_sep a = true → startswith_sep (join_step a b) = true.
Proof.
  intros Ha. unfold join_step.
  destruct (startswith_sep b) eqn:Hb; [done|].
  destruct (String.eqb a "" || endswith_sep a);
    rewrite startswith_sep_append; try done; by destruct a.
Qed.

Lemma join_absolute root out f :
  startswith_sep root = true → startswith_sep (join root [out; f]) = true.
Proof. intros Hr. unfold join; simpl. by do 2 apply join_step_absolute. Qed.

Lemma class_differs_ext h h' :
  dget "class" h' = dget "class" h → class_differs h' = class_differs h.
Proof. unfold class_differs. by intros ->. Qed.

Lemma world_eta w d :
  d = dirs w → World (_initialized w) d (trace w) = w.
Proof. intros ->. by destruct w. Qed.

(** The loop body on a handler it has already rewritten, in a world where
    the directories it made are there. *)
Lemma rewrite_handler_again E root handler w :
  startswith_sep root = true →
  handler_ok handler = true →
  (∀ p, makedirs_error E p = None) →
  (∀ h path, handler = VDict h → class_differs h = false →
     new_filename root h = Some path →
     dirname path ∈ dirs w ∧ ∀ a, a ∈ ancestors (dirname path) → a ∈ dirs w) →
  rewrite_handler E root (rewritten root handler) w
  = (w, Ok (rewritten root handler)).
Proof.
  intros Hroot Hok Hmk Hdirs.
  destruct handler as [| | | | | |h]; try done.
  unfold rewritten. destruct (class_differs h) eqn:Hclass.
  { unfold rewrite_handler. by rewrite Hclass. }
  simpl in Hok. rewrite Hclass in Hok. simpl in Hok.
  apply andb_true_iff in Hok as [_ Hfile].
  destruct (new_filename root h) as [path|] eqn:Hnew.
  - destruct (Hdirs h path eq_refl Hclass Hnew) as [Hdir Hanc].
    assert (Habs : startswith_sep path = true).
    { unfold new_filename in Hnew.
      destruct (dget "filename" h) as [[| | |f| | |]|]; try done.
      destruct (String.eqb f ""); [done|]. injection Hnew as <-.
      by apply join_absolute. }
    set (h1 := dset "filename" (VStr path) (dpop "foldername" h)).
    assert (Hfold1 : dget "foldername" h1 = None).
    { unfold h1. rewrite dget_dset_ne by done. apply dget_dpop_eq. }
    unfold rewrite_handler.
    rewrite (class_differs_ext h h1), Hclass.
    2: { unfold h1. rewrite dget_dset_ne by done. by rewrite dget_dpop_ne. }
    rewrite Hfold1. simpl.
    unfold mbind, M_bind, bindM, mret, M_ret, retM, lift.
    rewrite (dpop_absent _ _ Hfold1).
    assert (Hfile1 : dget "filename" h1 = Some (VStr path))
      by apply dget_dset_eq.
    rewrite Hfile1. simpl.
    assert (Hne : String.eqb path "" = false) by (by destruct path).
    rewrite Hne. simpl.
    change (join_step (join_step root "logs") path)
      with (join root ["logs"; path]).
    rewrite (join_onto_absolute root "logs" path Habs).
    unfold makedirs. rewrite Hmk, andb_false_r.
    f_equal.
    + apply world_eta. apply set_eq. intros x.
      rewrite !elem_of_union, elem_of_singleton, elem_of_list_to_set.
      split; [|tauto]. intros [[Hx|Hx]|Hx]; [done|by subst x|by apply Hanc].
    + unfold h1. by rewrite dset_dset.
  - assert (Hfalsy : truthy (default VNone (dget "filename" h)) = false).
    { unfold new_filename, str_or_falsy in *.
      destruct (dget "filename" h) as [[| | |f| | |]|]; simpl in *;
        try done; try (by apply negb_true_iff).
      destruct (String.eqb f ""); done. }
    set (h1 := dpop "foldername" h).
    assert (Hfold1 : dget "foldername" h1 = None) by apply dget_dpop_eq.
    unfold rewrite_handler.
    rewrite (class_differs_ext h h1), Hclass.
    2: { unfold h1. by rewrite dget_dpop_ne. }
    rewrite Hfold1. simpl.
    unfold mbind, M_bind, bindM, mret, M_ret, retM.
    rewrite (dpop_absent _ _ Hfold1).
    unfold h1 at 1. rewrite dget_dpop_ne by done. by rewrite Hfalsy.
Qed.

Lemma rewrite_handlers_again E root (handlers : list (string * pyval)) w :
  startswith_sep root = true →
  Forall (λ nh, handler_ok nh.2 = true) handlers →
  (∀ p, makedirs_error E p = None) →
  (∀ (i : nat) name h path,
     handlers !! i = Some (name, VDict h) → class_differs h = false →
     new_filename root h = Some path →
     dirname path ∈ dirs w ∧ ∀ a, a ∈ ancestors (dirname path) → a ∈ dirs w) →
  rewrite_handlers E root ((λ nh, (nh.1, rewritten root nh.2)) <$> handlers) w
  = (w, Ok ((λ nh, (nh.1, rewritten root nh.2)) <$> handlers)).
Proof.
  intros Hroot Hok Hmk. induction Hok as [|[name handler] rest Hh _ IH];
    intros Hdirs; [done|].
  rewrite fmap_cons. cbn [rewrite_handlers fst snd].
  unfold mbind, M_bind, bindM.
  rewrite rewrite_handler_again; [|done|done|done|].
  2: { intros h path -> Hc Hn. by apply (Hdirs 0 name h path). }
  rewrite IH; [done|].
  intros i name' h path Hi. by apply (Hdirs (S i) name' h path).
Qed.

End step_twice.

(** X17.  The file-output step is idempotent.  With an absolute project
    root, when the step has returned on a configuration whose handlers can
    all be processed, running it again on the configuration it returned,
    in the world it left, returns the same configuration and changes
    nothing: the file names already rewritten are absolute and stay, and
    the directories are there. *)
Theorem X17_file_output_step_is_idempotent :
  ∀ (E : env) (c handlers : list (string * pyval)) (w w1 : world)
    (config1 : pyval),
    posixpath.startswith_sep (default_project_root E) = true →
    dget "handlers" c = Some (VDict handlers) →
    Forall (λ nh, Notions.handler_ok nh.2 = true) handlers →
    (∀ p, makedirs_error E p = None) →
    CoreFactory._setup_file_output_directory E (VDict c) None w
    = (w1, Ok config1) →
    CoreFactory._setup_file_output_directory E config1 None w1
    = (w1, Ok config1).
Proof.
  intros E c handlers w w1 config1 Hroot Hh Hok Hmk Hstep.
  destruct (setup_file_output_directory_ok E c handlers w Hh Hok Hmk)
    as (w' & Hstep' & _ & _ & Hdirs).
  rewrite Hstep in Hstep'. injection Hstep' as -> ->.
  unfold CoreFactory._setup_file_output_directory.
  rewrite dget_dset_eq. unfold mbind, M_bind, bindM.
  rewrite rewrite_handlers_again by done.
  by rewrite dset_dset.
Qed.

(** The sample configuration, processed twice. *)
Lemma X17_file_output_step_is_idempotent_witness :
  let E := Samples.env_with Samples.sample_config in
  let r := CoreFactory._setup_file_output_directory E
             (VDict Samples.sample_config) None (initial ∅) in
  ∃ config1,
    r.2 = Ok config1
    ∧ CoreFactory._setup_file_output_directory E config1 None r.1
      = (r.1, Ok config1).
Proof.
  intros E r.
  assert (Hok : Forall (λ nh, Notions.handler_ok nh.2 = true)
                  [("console", Samples.console_handler);
                   ("file", Samples.file_handler)])
    by (repeat constructor).
  destruct (setup_file_output_directory_ok E Samples.sample_config _
              (initial ∅) eq_refl Hok (λ _, eq_refl))
    as (w1 & Hstep & _).
  eexists. split; [unfold r; rewrite Hstep; reflexivity|].
  unfold r. rewrite Hstep. cbn [fst].
  exact (X17_file_output_step_is_idempotent E Samples.sample_config _
           (initial ∅) w1 _ eq_refl eq_refl Hok (λ _, eq_refl) Hstep).
Defined.

Section core_setup_lemmas.
Import Notions Observations CoreFactory.
Implicit Types (E : env) (w : world).



Lemma core_try_suite_step_raises E path w file config w1 e :
  os_open E path = Ok file →
  yaml_safe_load E file = Ok config →
  _setup_file_output_directory E config None
    (after [EvOpen path; EvSafeLoad] w) = (w1, Raise e) →
  try_suite E path w = (w1, Raise e).
Proof.
  intros Hopen Hload Hstep.
  unfold try_suite, mbind, M_bind, bindM, lift.
  rewrite emit_after, Hopen, emit_after, after_after, Hload.
  cbv beta iota.
  change ([EvOpen path] ++ [EvSafeLoad])%list with [EvOpen path; EvSafeLoad].
  by rewrite Hstep.
Qed.



End core_setup_lemmas.

(** X18.  In core/factory.py a configuration file that loads to something
    other than a mapping (an empty file loads to [None]) is fatal: the
    file-output step raises an [AttributeError], setup ends with the
    [RuntimeError] that wraps it, [dictConfig] is never called and no
    fallback configuration is applied. *)
Theorem X18_document_that_is_no_mapping :
  ∀ (E : env) (config_path : option string) (w : world) (file : string)
    (config : pyval),
    let path := LogsCoreFactory.effective_path E config_path in
    os_open E path = Ok file →
    yaml_safe_load E file = Ok config →
    (∀ c, config ≠ VDict c) →
    ∃ cause,
      exc_type cause = AttributeError
      ∧ CoreFactory._setup_logging E config_path w
        = (after [EvOpen path; EvSafeLoad] w,
           Raise (LogsCoreFactory.wrap cause)).
Proof.
  intros E config_path w file config path Hopen Hload Hnodict.
  exists (Exn AttributeError "object has no attribute 'get'").
  split; [done|].
  unfold CoreFactory._setup_logging, try_except. fold path.
  rewrite (core_try_suite_step_raises E path w file config
             (after [EvOpen path; EvSafeLoad] w)
             (Exn AttributeError "object has no attribute 'get'")
             Hopen Hload).
  - by rewrite setup_handler_cases.
  - destruct config; try done. by destruct (Hnodict d).
Qed.

(** An empty configuration file. *)
Lemma X18_document_that_is_no_mapping_witness :
  ∃ cause,
    exc_type cause = AttributeError
    ∧ CoreFactory._setup_logging Samples.env_empty_file None (initial ∅)
      = (after [EvOpen "/srv/app/logs/settings/config.yaml"; EvSafeLoad]
           (initial ∅),
         Raise (LogsCoreFactory.wrap cause)).
Proof.
  exact (X18_document_that_is_no_mapping Samples.env_empty_file None
           (initial ∅) "" VNone eq_refl eq_refl ltac:(discriminate)).
Defined.






